(** * LinuxPrinterService: the print-job lifecycle of [server.js] and the
      receipt renderer of [lib/receiptFormatter.js]

    A shallow embedding of the service's JavaScript.  Every definition
    is the translation of the source function of the same name; the
    source location is given in each doc comment.

    Conventions of the embedding.
    - A JavaScript string is a [string] whose characters are UTF-16 code
      units below 256 (the sources only use ASCII and Latin-1 letters), so
      that [String.length] is the [.length] of the source.
    - A JavaScript number is a value of the abstract type [num]; the
      classes [JsRuntime] and [JsDate] supply the built-ins the sources
      call on numbers and dates ([toFixed], [toLocaleString], ...).
      [Runtime_Z] instantiates them with integers for the concrete runs.
    - A receipt is a JSON object: each property is a JSON value, that
      is [null], a boolean, a number, a string, an array or an object of
      such values, or is absent ([PUndefined]).  An object with a
      property [toString] of its own, which in JSON is never a function,
      cannot be converted to a string, and [value.toString()] throws on
      it.
    - An exception is the [Throw] of the [Result] monad.
    - The printer manager and the operating system behind it are not
      modelled: every [await] on them (printer listing, logo file,
      spooler) and every reading of the clock is answered by an [Env]
      record.  The code between two such awaits runs atomically, as on
      the Node.js event loop; [step] interleaves these atomic blocks, and
      [processPrintJob] and [processQueue] compose the blocks of one
      activation with nothing else scheduled in between.
    - Calls of the loggers of [server.js] change no state and are left
      out; the log of the renderer is kept. *)

From Stdlib Require Import String Ascii List ZArith Lia Bool Arith PeanoNat.
From Stdlib Require Import DecimalString.
Import ListNotations.

Local Open Scope list_scope.
Local Open Scope string_scope.

(** ** JavaScript values and built-ins *)

Module Js.

(** The result of evaluating an expression that may throw. *)
Inductive Result (A : Type) : Type :=
| Ok (a : A)
| Throw (message : string).
Arguments Ok {A} a.
Arguments Throw {A} message.

Definition bind {A B : Type} (c : Result A) (k : A -> Result B) : Result B :=
  match c with
  | Ok a => k a
  | Throw m => Throw m
  end.

(** The type of the numbers of the engine, and its built-ins on them:
    [String(n)], [n.toFixed(0)], the truthiness of [n] and [n > 0];
    [str_gt0 s] is [s > 0] for a string [s], which the engine first
    converts to a number. *)
Class JsNum : Type := { num : Type }.

Class JsRuntime {N : JsNum} : Type := {
  num_toString : num -> string;
  num_toFixed0 : num -> string;
  num_truthy : num -> bool;
  num_gt0 : num -> bool;
  str_gt0 : string -> bool
}.

(** [String(n)] for a natural number, as in the template literals that
    print a queue length. *)
Definition nat_toString (n : nat) : string :=
  NilEmpty.string_of_uint (Nat.to_uint n).

(** Integers as numbers: [toFixed(0)] of an integer is its numeral. *)
Definition Z_toString (z : Z) : string :=
  NilEmpty.string_of_int (Z.to_int z).

#[export] Instance Num_Z : JsNum := { num := Z }.

#[export] Instance Runtime_Z : @JsRuntime Num_Z := {
  num_toString := Z_toString;
  num_toFixed0 := Z_toString;
  num_truthy := fun z => negb (Z.eqb z 0);
  num_gt0 := fun z => Z.ltb 0 z;
  str_gt0 := fun s =>
    match NilEmpty.int_of_string s with
    | Some i => Z.ltb 0 (Z.of_int i)
    | None => false
    end
}.

Section Values.
Context {N : JsNum} {R : JsRuntime}.

(** A JSON value, or [undefined] for an absent property.  An object is
    the list of its own properties, the first binding of a name being
    its value; none of them is callable, and an array has no own
    property but its elements. *)
#[local] Set Warnings "-register-all".
Inductive prim : Type :=
| PUndefined
| PNull
| PBool (b : bool)
| PNum (n : num)
| PStr (s : string)
| PArr (elements : list prim)
| PObj (properties : list (string * prim)).

(** The own properties of an object. *)
Definition obj : Type := list (string * prim).

(** [o.key] for an object [o] and a name [key] that [Object.prototype]
    does not have: the first binding of [key], [undefined] when there is
    none. *)
Fixpoint get (o : obj) (key : string) : prim :=
  match o with
  | [] => PUndefined
  | (k, v) :: rest => if String.eqb k key then v else get rest key
  end.

(** [o] has an own property [key]. *)
Fixpoint hasOwn (o : obj) (key : string) : bool :=
  match o with
  | [] => false
  | (k, _) :: rest => (String.eqb k key || hasOwn rest key)%bool
  end.

(** [v.key] for a value [v] that is neither [undefined] nor [null] and a
    name [key] that no prototype has ([name], [quantity], [price],
    [total]): the property of an object, [undefined] on an array, a
    string, a number or a boolean. *)
Definition propOf (v : prim) (key : string) : prim :=
  match v with
  | PObj o => get o key
  | _ => PUndefined
  end.

(** A value with no properties to read: [undefined] or [null]. *)
Definition nullish (v : prim) : bool :=
  match v with
  | PUndefined | PNull => true
  | _ => false
  end.

(** A value that is neither an array nor an object. *)
Definition scalar (v : prim) : bool :=
  match v with
  | PArr _ | PObj _ => false
  | _ => true
  end.

(** ToBoolean. *)
Definition truthy (v : prim) : bool :=
  match v with
  | PUndefined | PNull => false
  | PBool b => b
  | PNum n => num_truthy n
  | PStr s => negb (String.eqb s "")
  | PArr _ | PObj _ => true
  end.

(** [typeof v === 'number']. *)
Definition isNumber (v : prim) : bool :=
  match v with PNum _ => true | _ => false end.

(** ToPrimitive succeeds on [v].  It calls [toString] and [valueOf]
    where they are callable: on an object with an own property
    [toString], which hides [Object.prototype.toString], neither gives a
    primitive value; on an array, [Array.prototype.toString] converts
    each element other than [undefined] and [null] in turn. *)
Fixpoint coercible (v : prim) : bool :=
  match v with
  | PArr l => List.forallb coercible l
  | PObj o => negb (hasOwn o "toString")
  | _ => true
  end.

(** ToString, as applied by [+] and by template literals, where it does
    not throw: an array is its elements joined by commas, [undefined]
    and [null] among them as the empty string; an object without a
    [toString] of its own is [[object Object]]. *)
Fixpoint toStr (v : prim) : string :=
  match v with
  | PUndefined => "undefined"
  | PNull => "null"
  | PBool true => "true"
  | PBool false => "false"
  | PNum n => num_toString n
  | PStr s => s
  | PArr l =>
      String.concat ","
        (List.map
           (fun x =>
              match x with
              | PUndefined | PNull => ""
              | _ => toStr x
              end) l)
  | PObj _ => "[object Object]"
  end.

(** ToString, with the TypeError of a value ToPrimitive fails on. *)
Definition coerce (v : prim) : Result string :=
  if coercible v then Ok (toStr v)
  else Throw "Cannot convert object to primitive value".

(** [value.toString()]: a TypeError on [undefined] and [null], and on an
    object whose own property [toString] hides the method. *)
Definition callToString (v : prim) : Result string :=
  match v with
  | PUndefined =>
      Throw "Cannot read properties of undefined (reading 'toString')"
  | PNull => Throw "Cannot read properties of null (reading 'toString')"
  | PObj o =>
      if hasOwn o "toString" then Throw "value.toString is not a function"
      else Ok (toStr v)
  | PArr _ => coerce v
  | _ => Ok (toStr v)
  end.

(** [v === s] for a string literal [s]. *)
Definition strictEqStr (v : prim) (s : string) : bool :=
  match v with PStr t => String.eqb t s | _ => false end.

(** [v > 0]: an array or an object is compared as the string it converts
    to. *)
Definition gt0 (v : prim) : Result bool :=
  match v with
  | PNum n => Ok (num_gt0 n)
  | PStr s => Ok (str_gt0 s)
  | PBool b => Ok b
  | PUndefined | PNull => Ok false
  | PArr _ | PObj _ => bind (coerce v) (fun s => Ok (str_gt0 s))
  end.

(** [a || b]. *)
Definition or_else (a b : prim) : prim :=
  if truthy a then a else b.

End Values.

(** The built-ins on [new Date(v)] for a [v] that is not an array or an
    object: the three locale renderings, and the numbers
    [getFullYear()], [getMonth() + 1] and [getDate()].  None of them
    throws. *)
Class JsDate {N : JsNum} : Type := {
  toLocaleDateString : prim -> string;
  toLocaleString : prim -> string;
  toLocaleTimeString : prim -> string;
  getFullYear : prim -> num;
  getMonth1 : prim -> num;
  getDate : prim -> num
}.

(** A clock-free stand-in for the concrete runs: a date prints as the
    value it was built from. *)
#[export] Instance Date_Z : @JsDate Num_Z := {
  toLocaleDateString := fun v => toStr v;
  toLocaleString := fun v => toStr v;
  toLocaleTimeString := fun v => toStr v;
  getFullYear := fun _ => 2024%Z;
  getMonth1 := fun _ => 8%Z;
  getDate := fun _ => 9%Z
}.

(** [String.prototype.toLowerCase] on one code unit below 256. *)
Definition lowerChar (c : ascii) : ascii :=
  let n := nat_of_ascii c in
  if (Nat.leb 65 n && Nat.leb n 90)%bool then ascii_of_nat (n + 32)
  else if (Nat.leb 192 n && Nat.leb n 222 && negb (Nat.eqb n 215))%bool
       then ascii_of_nat (n + 32)
  else c.

Fixpoint toLowerCase (s : string) : string :=
  match s with
  | EmptyString => EmptyString
  | String c rest => String (lowerChar c) (toLowerCase rest)
  end.

(** [c.repeat(n)] for a string [c]. *)
Fixpoint repeat (c : string) (n : nat) : string :=
  match n with
  | O => ""
  | S k => c ++ repeat c k
  end.

(** [s.substring(0, n)] for an integer [n]; a negative [n] counts as 0. *)
Definition substring0 (s : string) (n : Z) : string :=
  String.substring 0 (Z.to_nat n) s.

(** [s.padStart(2, '0')]. *)
Definition padStart2 (s : string) : string :=
  repeat "0" (2 - String.length s) ++ s.

(** [text.includes(pat)]. *)
Definition includes (text pat : string) : bool :=
  match String.index 0 pat text with
  | Some _ => true
  | None => false
  end.

(** [text.replace(/pat/g, rep)] for a literal, non-empty [pat]: the
    occurrences are replaced from left to right and do not overlap;
    [skip] counts the characters of the current occurrence still to drop. *)
Fixpoint replaceFrom (pat rep : string) (skip : nat) (text : string) : string :=
  match text with
  | EmptyString => EmptyString
  | String c rest =>
      match skip with
      | S k => replaceFrom pat rep k rest
      | O =>
          if String.prefix pat text
          then rep ++ replaceFrom pat rep (String.length pat - 1) rest
          else String c (replaceFrom pat rep 0 rest)
      end
  end.

Definition replaceAll (pat rep text : string) : string :=
  replaceFrom pat rep 0 text.

End Js.

Import Js.

Declare Scope js_scope.
Delimit Scope js_scope with js.
Notation "x <- c ;; k" := (Js.bind c (fun x => k))
  (at level 61, c at next level, right associativity) : js_scope.
Local Open Scope js_scope.

(** ** The renderer: [lib/receiptFormatter.js] *)

Module ReceiptFormatter.

(** The control characters of the ESC/POS commands. *)
Definition ESC : string := String "027" "".
Definition GS : string := String "029" "".
Definition NUL : string := String "000" "".
Definition SOH : string := String "001" "".
Definition LF : string := String "010" "".
Definition CR : string := String "013" "".

(** [this.ESC_POS], receiptFormatter.js lines 13-29. *)
Module ESC_POS.
Definition INIT : string := ESC ++ "@".
Definition NORMAL_TEXT : string := ESC ++ "!" ++ NUL.
Definition SMALL_TEXT : string := ESC ++ "!" ++ SOH.
Definition BOLD_ON : string := ESC ++ "E" ++ SOH.
Definition BOLD_OFF : string := ESC ++ "E" ++ NUL.
Definition CENTER_ON : string := ESC ++ "a" ++ SOH.
Definition CENTER_OFF : string := ESC ++ "a" ++ NUL.
Definition CUT_PAPER : string := GS ++ "VA0".
Definition LINE_FEED : string := LF.
Definition CHARSET_PC437 : string := ESC ++ "t" ++ NUL.
Definition CHARSET_PC850 : string := ESC ++ "t" ++ String "002" "".
Definition CHARSET_PC860 : string := ESC ++ "t" ++ String "003" "".
Definition CHARSET_PC863 : string := ESC ++ "t" ++ String "004" "".
Definition INTERNATIONAL_SPAIN : string := ESC ++ "R" ++ String "012" "".
End ESC_POS.

(** One entry of [config.receiptTypes]. *)
Record TypeConfig : Type := {
  header : option string;
  footer : option string
}.

(** [config.receipt] of config.json, which is not under src/: the
    properties the formatter reads, each absent ([None]) or present. *)
Record Config : Type := {
  cfg_paperWidth : option nat;
  restaurantName : option string;
  address : option string;
  phone : option string;
  taxLabel : option string;
  footerMessage : option string;
  dateFormat : option string;
  receiptTypes : option (list (string * TypeConfig))
}.

(** [c || d] for an optional configuration string: the empty string is
    falsy. *)
Definition cfg_or (c : option string) (d : string) : string :=
  match c with
  | Some s => if String.eqb s "" then d else s
  | None => d
  end.

(** The truthiness of an optional configuration string. *)
Definition cfg_truthy (c : option string) : bool :=
  match c with
  | Some s => negb (String.eqb s "")
  | None => false
  end.

Inductive Level : Type := Info | Warn | Error.

(** A call of [this.logger]: level, message and the properties of the
    metadata object. *)
Record LogEntry {N : JsNum} : Type := {
  level : Level;
  message : string;
  meta : obj
}.

(** [receipt.items] as the sources look at it: an array, with its
    elements, or a value that is not an array. *)
Inductive ItemsField {N : JsNum} : Type :=
| ItemsPrim (p : prim)
| ItemsArray (l : list prim).

(** A receipt document: the own properties of the JSON object.  A
    receipt that is a truthy value other than an object (a number, a
    string, an array) has none of the properties the sources read, and
    is the receipt without properties. *)
Record Receipt {N : JsNum} : Type := {
  fields : obj
}.

(** [receipt.items]. *)
Definition items {N : JsNum} (receipt : Receipt) : ItemsField :=
  match get (fields receipt) "items" with
  | PArr l => ItemsArray l
  | p => ItemsPrim p
  end.

Section Formatter.
Context {N : JsNum} {R : JsRuntime} {D : JsDate}.
Variable config : Config.

(** [this.paperWidth = config.paperWidth || 48], line 9. *)
Definition paperWidth : nat :=
  match cfg_paperWidth config with
  | Some (S n) => S n
  | _ => 48
  end.

(** [formatLine], lines 476-490. *)
Definition formatLine (label : string) (value : prim) : Result string :=
  let totalLength := Z.of_nat paperWidth in
  let labelLength := Z.of_nat (String.length label) in
  v <- callToString value ;;
  let valueLength := Z.of_nat (String.length v) in
  let spacesNeeded := (totalLength - labelLength - valueLength)%Z in
  if (0 <? spacesNeeded)%Z
  then Ok (label ++ Js.repeat " " (Z.to_nat spacesNeeded) ++ toStr value)
  else
    let maxLabelLength := (totalLength - valueLength - 1)%Z in
    let truncatedLabel := substring0 label maxLabelLength in
    Ok (truncatedLabel ++ " " ++ toStr value).

(** [centerText], lines 492-502. *)
Definition centerText (text : string) : string :=
  let textLength := String.length text in
  let totalLength := paperWidth in
  if Nat.leb totalLength textLength
  then String.substring 0 totalLength text
  else
    let spacesNeeded := Nat.div (totalLength - textLength) 2 in
    Js.repeat " " spacesNeeded ++ text.

(** [createSeparator], lines 504-506. *)
Definition createSeparator (char : string) : string :=
  Js.repeat char paperWidth ++ LF.

(** [formatCurrency], lines 508-513. *)
Definition formatCurrency (amount : prim) : string :=
  match amount with
  | PNum n => "$" ++ num_toFixed0 n
  | _ => "$0"
  end.

(** The value [new Date(v)] is built from: an array or an object is
    converted to a string first. *)
Definition dateOf (v : prim) : prim :=
  match v with
  | PArr _ | PObj _ => PStr (toStr v)
  | _ => v
  end.

(** [formatDate], lines 515-538.  The renderings never throw; [new Date]
    throws on an array or an object that cannot be converted to a
    primitive value, and the [catch] of line 534 then returns the value
    itself. *)
Definition formatDate (dateString : prim) : prim :=
  if coercible dateString
  then
    let date := dateOf dateString in
    let format := cfg_or (dateFormat config) "default" in
    PStr
      (if String.eqb format "short" then toLocaleDateString date
       else if String.eqb format "long" then toLocaleString date
       else if String.eqb format "custom" then
         num_toString (getFullYear date) ++ "-" ++
         padStart2 (num_toString (getMonth1 date)) ++ "-" ++
         padStart2 (num_toString (getDate date)) ++ " " ++
         toLocaleTimeString date
       else toLocaleString date)
  else dateString.

(** The object literal [methods] of [formatPaymentMethod], with the two
    lower-case properties it inherits from [Object.prototype], printed as
    V8 prints them. *)
Definition methods (key : string) : option string :=
  if String.eqb key "cash" then Some "Efectivo"
  else if String.eqb key "card" then Some "Tarjeta"
  else if String.eqb key "transfer" then Some "Transferencia"
  else if String.eqb key "credit" then Some ("Cr" ++ String "233" "dito")
  else if String.eqb key "debit" then Some ("D" ++ String "233" "bito")
  else if String.eqb key "constructor"
       then Some "function Object() { [native code] }"
  else if String.eqb key "__proto__" then Some "[object Object]"
  else None.

(** [formatPaymentMethod], lines 540-550; the result is given as the
    string [formatLine] prints for it. *)
Definition formatPaymentMethod (method : prim) : Result string :=
  match method with
  | PStr m =>
      match methods (toLowerCase m) with
      | Some label => Ok label
      | None => Ok m
      end
  | PUndefined =>
      Throw "Cannot read properties of undefined (reading 'toLowerCase')"
  | PNull => Throw "Cannot read properties of null (reading 'toLowerCase')"
  | _ => Throw "method.toLowerCase is not a function"
  end.

(** [getDefaultHeader], lines 379-387. *)
Definition getDefaultHeader (type : string) : string :=
  if String.eqb type "cash_transfer" then "TRANSFER DE EFECTIVO"
  else if String.eqb type "shift_closure" then "CIERRE DE TURNO"
  else if String.eqb type "shift_handoff" then "ENTREGA DE TURNO"
  else if String.eqb type "cash_expense" then "GASTO DE CAJA"
  else "".

(** [getDefaultFooter], lines 390-398. *)
Definition getDefaultFooter (type : string) : string :=
  if String.eqb type "cash_transfer" then "CONSERVAR PARA AUDITORIA"
  else if String.eqb type "shift_closure" then "CIERRE COMPLETADO"
  else if String.eqb type "shift_handoff" then "CONSERVAR PARA AUDITORIA"
  else if String.eqb type "cash_expense" then "CONSERVAR PARA AUDITORIA"
  else "".

(** [this.config.receiptTypes && this.config.receiptTypes[type]]. *)
Fixpoint lookupType (l : list (string * TypeConfig)) (type : string)
  : option TypeConfig :=
  match l with
  | [] => None
  | (k, c) :: rest => if String.eqb k type then Some c else lookupType rest type
  end.

Definition typeConfig (type : string) : option TypeConfig :=
  match receiptTypes config with
  | Some l => lookupType l type
  | None => None
  end.

(** [getReceiptTypeHeader], lines 367-370. *)
Definition getReceiptTypeHeader (type : string) : string :=
  match typeConfig type with
  | Some c => cfg_or (header c) (getDefaultHeader type)
  | None => getDefaultHeader type
  end.

(** [getReceiptTypeFooter], lines 373-376. *)
Definition getReceiptTypeFooter (type : string) : string :=
  match typeConfig type with
  | Some c => cfg_or (footer c) (getDefaultFooter type)
  | None => getDefaultFooter type
  end.

(** [BUNUELISIMO] with its N-tilde, the default restaurant name of the
    four internal receipts. *)
Definition BUNUELISIMO : string := "BU" ++ String "209" "UELISIMO".

(** The default footer of the sales receipt, line 171. *)
Definition defaultFooter : string :=
  "Disfruta tu bu" ++ String "241" ("uel" ++ String "237" "simo!").

(** The values a [for (const item of receipt.items)] visits: the elements
    of an array; for a string its characters, one string each; nothing
    else is iterable. *)
Definition iterate (it : ItemsField) : Result (list prim) :=
  match it with
  | ItemsArray l | ItemsPrim (PArr l) => Ok l
  | ItemsPrim (PStr s) =>
      Ok (List.map (fun c => PStr (String c "")) (list_ascii_of_string s))
  | ItemsPrim _ => Throw "receipt.items is not iterable"
  end.

(** The body of the loop over the items, lines 124-128: [item.name]
    throws on an element that is [null]; the template literal converts
    the name, then the quantity, to a string. *)
Fixpoint formatItems (l : list prim) (output : string) : Result string :=
  match l with
  | [] => Ok output
  | item :: rest =>
      if nullish item
      then Throw ("Cannot read properties of " ++ toStr item
                  ++ " (reading 'name')")
      else
        name <- coerce (propOf item "name") ;;
        quantity <- coerce (propOf item "quantity") ;;
        let itemName := name ++ " x" ++ quantity in
        let itemTotal := formatCurrency (propOf item "total") in
        line <- formatLine itemName (PStr itemTotal) ;;
        formatItems rest (output ++ line ++ LF)
  end.

(** [formatSalesReceipt], lines 91-178. *)
Definition formatSalesReceipt (receipt : Receipt) : Result string :=
  let r := fields receipt in
  let output := "" in
  (* Header section *)
  let output := output ++ (ESC_POS.BOLD_ON ++ ESC_POS.CENTER_ON) in
  let output := output ++ createSeparator "=" in
  let output :=
    output ++ (cfg_or (restaurantName config) "RESTAURANT NAME" ++ LF) in
  let output :=
    if cfg_truthy (address config)
    then output ++ (cfg_or (address config) "" ++ LF) else output in
  let output :=
    if cfg_truthy (phone config)
    then output ++ (cfg_or (phone config) "" ++ LF) else output in
  let output := output ++ createSeparator "=" in
  let output := output ++ (ESC_POS.BOLD_OFF ++ ESC_POS.CENTER_OFF) in
  let output := output ++ ESC_POS.NORMAL_TEXT in
  (* Order info section *)
  l <- formatLine "Pedido #:" (get r "orderNumber") ;;
  let output := output ++ (l ++ LF) in
  l <- formatLine "Fecha:" (formatDate (get r "date")) ;;
  let output := output ++ (l ++ LF) in
  output <-
    (if truthy (get r "cashier")
     then l <- formatLine "Cajero:" (get r "cashier") ;;
          Ok (output ++ (l ++ LF))
     else Ok output) ;;
  let output := output ++ createSeparator "-" in
  (* Items section *)
  its <- iterate (items receipt) ;;
  output <- formatItems its output ;;
  let output := output ++ createSeparator "-" in
  (* Totals section *)
  l <- formatLine "Subtotal:" (PStr (formatCurrency (get r "subtotal"))) ;;
  let output := output ++ (l ++ LF) in
  taxed <- (if truthy (get r "tax") then gt0 (get r "tax") else Ok false) ;;
  output <-
    (if taxed
     then
       let taxLabel := cfg_or (taxLabel config) "IVA:" in
       l <- formatLine taxLabel (PStr (formatCurrency (get r "tax"))) ;;
       Ok (output ++ (l ++ LF))
     else Ok output) ;;
  let output := output ++ ESC_POS.BOLD_ON in
  l <- formatLine "TOTAL:" (PStr (formatCurrency (get r "total"))) ;;
  let output := output ++ (l ++ LF) in
  let output := output ++ ESC_POS.BOLD_OFF in
  let output := output ++ ESC_POS.NORMAL_TEXT in
  let output := output ++ createSeparator "-" in
  (* Payment section *)
  paymentMethod <- formatPaymentMethod (get r "paymentMethod") ;;
  l <- formatLine "Pago:" (PStr paymentMethod) ;;
  let output := output ++ (l ++ LF) in
  output <-
    (if (strictEqStr (get r "paymentMethod") "cash"
         && truthy (get r "tendered"))%bool
     then
       l <- formatLine "Recibido:"
              (PStr (formatCurrency (get r "tendered"))) ;;
       let output := output ++ (l ++ LF) in
       if truthy (get r "change")
       then l <- formatLine "Devuelta:"
                   (PStr (formatCurrency (get r "change"))) ;;
            Ok (output ++ (l ++ LF))
       else Ok output
     else Ok output) ;;
  output <-
    (if (strictEqStr (get r "paymentMethod") "transfer"
         && truthy (get r "transferReference"))%bool
     then l <- formatLine "Referencia:" (get r "transferReference") ;;
          Ok (output ++ (l ++ LF))
     else Ok output) ;;
  let output := output ++ createSeparator "=" in
  (* Footer section *)
  let output := output ++ ESC_POS.CENTER_ON in
  let output :=
    if cfg_truthy (footerMessage config)
    then output ++ (cfg_or (footerMessage config) "" ++ LF)
    else output ++ (defaultFooter ++ LF) in
  let output := output ++ ESC_POS.CENTER_OFF in
  let output := output ++ createSeparator "=" in
  Ok output.

(** The header block shared by the four internal receipts, e.g. lines
    185-193. *)
Definition typeHeader (type : string) : string :=
  let output := "" in
  let output := output ++ (ESC_POS.BOLD_ON ++ ESC_POS.CENTER_ON) in
  let output := output ++ createSeparator "=" in
  let output := output ++ (cfg_or (restaurantName config) BUNUELISIMO ++ LF) in
  let output := output ++ (getReceiptTypeHeader type ++ LF) in
  let output := output ++ createSeparator "=" in
  let output := output ++ (ESC_POS.BOLD_OFF ++ ESC_POS.CENTER_OFF) in
  output ++ ESC_POS.NORMAL_TEXT.

(** The footer block shared by the four internal receipts, e.g. lines
    222-228. *)
Definition typeFooter (type : string) (output : string) : string :=
  let output := output ++ createSeparator "=" in
  let output := output ++ ESC_POS.CENTER_ON in
  let output := output ++ (getReceiptTypeFooter type ++ LF) in
  let output := output ++ ESC_POS.CENTER_OFF in
  output ++ createSeparator "=".

(** [formatCashTransferReceipt], lines 181-231. *)
Definition formatCashTransferReceipt (receipt : Receipt) : Result string :=
  let r := fields receipt in
  let output := typeHeader "cash_transfer" in
  l <- formatLine "Transfer #:" (get r "transferId") ;;
  let output := output ++ (l ++ LF) in
  output <-
    (if truthy (get r "shiftInfo")
     then l <- formatLine "Turno:" (get r "shiftInfo") ;;
          Ok (output ++ (l ++ LF))
     else Ok output) ;;
  l <- formatLine "Fecha:" (formatDate (get r "date")) ;;
  let output := output ++ (l ++ LF) in
  let output := output ++ createSeparator "-" in
  l <- formatLine "Enviado por:" (get r "senderName") ;;
  let output := output ++ (l ++ LF) in
  l <- formatLine "Firma:" (PStr "____________________") ;;
  let output := output ++ (l ++ (LF ++ LF)) in
  l <- formatLine "Recibido por:" (get r "receiverName") ;;
  let output := output ++ (l ++ LF) in
  l <- formatLine "Firma:" (PStr "____________________") ;;
  let output := output ++ (l ++ LF) in
  let output := output ++ createSeparator "-" in
  let output := output ++ (ESC_POS.BOLD_ON ++ ESC_POS.CENTER_ON) in
  let output := output ++ ("Monto Transferido:" ++ LF) in
  let output := output ++ (formatCurrency (get r "amount") ++ LF) in
  let output := output ++ (ESC_POS.BOLD_OFF ++ ESC_POS.CENTER_OFF) in
  let output := output ++ createSeparator "-" in
  output <-
    (if truthy (get r "notes")
     then l <- formatLine "Notas:" (get r "notes") ;;
          Ok (output ++ (l ++ LF))
     else Ok output) ;;
  Ok (typeFooter "cash_transfer" output).

(** [formatShiftClosureReceipt], lines 234-276. *)
Definition formatShiftClosureReceipt (receipt : Receipt) : Result string :=
  let r := fields receipt in
  let output := typeHeader "shift_closure" in
  l <- formatLine "Turno #:" (get r "shiftId") ;;
  let output := output ++ (l ++ LF) in
  l <- formatLine "Tipo:" (get r "shiftType") ;;
  let output := output ++ (l ++ LF) in
  l <- formatLine "Fecha:" (get r "shiftDate") ;;
  let output := output ++ (l ++ LF) in
  startTime <- coerce (get r "startTime") ;;
  endTime <- coerce (get r "endTime") ;;
  l <- formatLine "Hora:" (PStr (startTime ++ " - " ++ endTime)) ;;
  let output := output ++ (l ++ LF) in
  let output := output ++ createSeparator "-" in
  l <- formatLine "Cajero:" (get r "cashierName") ;;
  let output := output ++ (l ++ LF) in
  l <- formatLine "Inicio:" (PStr (formatCurrency (get r "startingCash"))) ;;
  let output := output ++ (l ++ LF) in
  l <- formatLine "Ventas Turno:" (PStr (formatCurrency (get r "shiftSales"))) ;;
  let output := output ++ (l ++ LF) in
  l <- formatLine "Efectivo Esperado:"
         (PStr (formatCurrency (get r "endingCashExpected"))) ;;
  let output := output ++ (l ++ LF) in
  l <- formatLine "Efectivo Contado:"
         (PStr (formatCurrency (get r "endingCashCounted"))) ;;
  let output := output ++ (l ++ LF) in
  l <- formatLine "Variacion:" (PStr (formatCurrency (get r "variance"))) ;;
  let output := output ++ (l ++ LF) in
  let output := output ++ createSeparator "-" in
  l <- formatLine "Transferencias:"
         (PStr (formatCurrency (get r "transfersOut"))) ;;
  let output := output ++ (l ++ LF) in
  Ok (typeFooter "shift_closure" output).

(** [formatShiftHandoffReceipt], lines 279-320. *)
Definition formatShiftHandoffReceipt (receipt : Receipt) : Result string :=
  let r := fields receipt in
  let output := typeHeader "shift_handoff" in
  l <- formatLine "Entrega #:" (get r "handoffId") ;;
  let output := output ++ (l ++ LF) in
  l <- formatLine "Fecha:" (formatDate (get r "handoffDate")) ;;
  let output := output ++ (l ++ LF) in
  let output := output ++ createSeparator "-" in
  l <- formatLine "Sale:" (get r "outgoingCashier") ;;
  let output := output ++ (l ++ LF) in
  l <- formatLine "Firma:" (PStr "____________________") ;;
  let output := output ++ (l ++ (LF ++ LF)) in
  l <- formatLine "Recibe:" (get r "incomingCashier") ;;
  let output := output ++ (l ++ LF) in
  l <- formatLine "Firma:" (PStr "____________________") ;;
  let output := output ++ (l ++ LF) in
  let output := output ++ createSeparator "-" in
  l <- formatLine "Efectivo Entregado:"
         (PStr (formatCurrency (get r "handoffAmount"))) ;;
  let output := output ++ (l ++ LF) in
  l <- formatLine "Efectivo Verificado:"
         (PStr (formatCurrency (get r "verifiedAmount"))) ;;
  let output := output ++ (l ++ LF) in
  l <- formatLine "Diferencia:" (PStr (formatCurrency (get r "variance"))) ;;
  let output := output ++ (l ++ LF) in
  l <- formatLine "Estado:" (get r "status") ;;
  let output := output ++ (l ++ LF) in
  Ok (typeFooter "shift_handoff" output).

(** [formatCashExpenseReceipt], lines 323-364. *)
Definition formatCashExpenseReceipt (receipt : Receipt) : Result string :=
  let r := fields receipt in
  let output := typeHeader "cash_expense" in
  l <- formatLine "Gasto #:" (get r "cashExpenseId") ;;
  let output := output ++ (l ++ LF) in
  l <- formatLine "Comprobante:" (get r "expenseId") ;;
  let output := output ++ (l ++ LF) in
  l <- formatLine "Turno:" (get r "shiftInfo") ;;
  let output := output ++ (l ++ LF) in
  l <- formatLine "Fecha:" (formatDate (get r "date")) ;;
  let output := output ++ (l ++ LF) in
  let output := output ++ createSeparator "-" in
  l <- formatLine "Cajero:" (get r "cashierName") ;;
  let output := output ++ (l ++ LF) in
  l <- formatLine ("Categor" ++ String "237" "a:") (get r "category") ;;
  let output := output ++ (l ++ LF) in
  l <- formatLine ("Descripci" ++ String "243" "n:") (get r "description") ;;
  let output := output ++ (l ++ LF) in
  l <- formatLine "Monto:" (PStr (formatCurrency (get r "amount"))) ;;
  let output := output ++ (l ++ LF) in
  let output := output ++ createSeparator "-" in
  l <- formatLine "Firma Cajero:" (PStr "________________") ;;
  let output := output ++ (l ++ LF) in
  l <- formatLine "Fecha:" (PStr "___________________") ;;
  let output := output ++ (l ++ LF) in
  Ok (typeFooter "cash_expense" output).

(** A log entry without metadata. *)
Definition logMsg (lv : Level) (msg : string) : LogEntry :=
  {| level := lv; message := msg; meta := [] |}.

(** [processLogo], lines 461-474: [logoAccessible] tells whether
    [fs.access(this.logoPath)] succeeds. *)
Definition processLogo (logoAccessible : bool)
  : list LogEntry * option string :=
  if logoAccessible
  then ([], Some (ESC_POS.CENTER_ON ++ "[LOGO]" ++ ESC_POS.CENTER_OFF))
  else ([logMsg Warn "Logo processing failed, skipping logo:"], None).

(** The five type tags of the [switch] of [formatReceipt]. *)
Definition knownTypes : list string :=
  ["sales"; "cash_transfer"; "shift_closure"; "shift_handoff";
   "cash_expense"]%list.

Definition isKnownType (type : string) : bool :=
  List.existsb (String.eqb (toLowerCase type)) knownTypes.

(** The [switch (type.toLowerCase())] of lines 49-69: the warnings it logs
    and the body it renders. *)
Definition formatByType (receipt : Receipt) (type : string)
  : list LogEntry * Result string :=
  let tag := toLowerCase type in
  if String.eqb tag "sales" then ([], formatSalesReceipt receipt)
  else if String.eqb tag "cash_transfer"
       then ([], formatCashTransferReceipt receipt)
  else if String.eqb tag "shift_closure"
       then ([], formatShiftClosureReceipt receipt)
  else if String.eqb tag "shift_handoff"
       then ([], formatShiftHandoffReceipt receipt)
  else if String.eqb tag "cash_expense"
       then ([], formatCashExpenseReceipt receipt)
  else
    ([logMsg Warn ("Unknown receipt type: " ++ type ++
                   ", falling back to sales format")],
     formatSalesReceipt receipt).

(** The metadata of the closing [logger.info], lines 77-81. *)
Definition formattedMeta (receipt : Receipt) (type : string) : obj :=
  let r := fields receipt in
  [("type", PStr type);
   ("orderNumber",
    or_else (or_else (or_else (or_else (get r "orderNumber")
                                       (get r "transferId"))
                               (get r "shiftId"))
                      (get r "handoffId"))
            (get r "expenseId"));
   ("total",
    or_else (or_else (get r "total") (get r "amount"))
            (get r "handoffAmount"))]%list.

(** [formatReceipt], lines 32-88: the log it writes and the byte stream
    it returns, or the error it throws. *)
Definition formatReceipt (logoAccessible : bool) (receipt : Receipt)
  (type : string) : list LogEntry * Result string :=
  let output := "" in
  let output := output ++ ESC_POS.INIT in
  let output := output ++ ESC_POS.CHARSET_PC437 in
  let output := output ++ ESC_POS.NORMAL_TEXT in
  let '(logoLog, logoText) := processLogo logoAccessible in
  let output :=
    match logoText with
    | Some t => output ++ (t ++ LF)
    | None => output
    end in
  let '(typeLog, body) := formatByType receipt type in
  match body with
  | Ok b =>
      let output := output ++ b in
      let output := output ++ (LF ++ LF ++ LF) in
      let output := output ++ ESC_POS.CUT_PAPER in
      ((logoLog ++ typeLog ++
        [{| level := Info; message := "Receipt formatted successfully";
            meta := formattedMeta receipt type |}])%list,
       Ok output)
  | Throw m =>
      ((logoLog ++ typeLog ++ [logMsg Error "Receipt formatting error:"])%list,
       Throw ("Failed to format receipt: " ++ m))
  end.

(** [stripEscPosCodes], lines 422-439. *)
Definition stripEscPosCodes (text : string) : string :=
  let text := replaceAll (ESC ++ "@") "[INIT]" text in
  let text := replaceAll (ESC ++ "!" ++ NUL) "[NORMAL]" text in
  let text := replaceAll (ESC ++ "!" ++ SOH) "[SMALL]" text in
  let text := replaceAll (ESC ++ "!8") "[NORMAL38]" text in
  let text := replaceAll (ESC ++ "E" ++ SOH) "[BOLD-ON]" text in
  let text := replaceAll (ESC ++ "E" ++ NUL) "[BOLD-OFF]" text in
  let text := replaceAll (ESC ++ "a" ++ SOH) "[CENTER-ON]" text in
  let text := replaceAll (ESC ++ "a" ++ NUL) "[CENTER-OFF]" text in
  let text := replaceAll (ESC ++ "t" ++ NUL) "[PC437]" text in
  let text := replaceAll (ESC ++ "t" ++ String "002" "") "[PC850]" text in
  let text := replaceAll (ESC ++ "t" ++ String "003" "") "[PC860]" text in
  let text := replaceAll (ESC ++ "t" ++ String "004" "") "[PC863]" text in
  let text := replaceAll (ESC ++ "R" ++ String "012" "") "[SPAIN-INTL]" text in
  let text := replaceAll (GS ++ "VA0") "[CUT-PAPER]" text in
  replaceAll CR "" text.

(** [listEscPosCodes], lines 442-459.  The arrow of the PC437 entry is
    kept as the bytes of its UTF-8 encoding. *)
Definition listEscPosCodes (text : string) : list string :=
  let codes := ([] : list string) in
  let push (pat name : string) (codes : list string) : list string :=
    if includes text pat then (codes ++ [name])%list else codes in
  let codes := push (ESC ++ "@") "INIT (\x1B@)" codes in
  let codes := push (ESC ++ "!" ++ NUL) "NORMAL_FONT (\x1B!\x00)" codes in
  let codes := push (ESC ++ "!" ++ SOH) "SMALL_FONT (\x1B!\x01)" codes in
  let codes := push (ESC ++ "!8") "NORMAL38_FONT (\x1B!\x38)" codes in
  let codes := push (ESC ++ "E" ++ SOH) "BOLD_ON (\x1BE\x01)" codes in
  let codes := push (ESC ++ "E" ++ NUL) "BOLD_OFF (\x1BE\x00)" codes in
  let codes := push (ESC ++ "a" ++ SOH) "CENTER_ON (\x1Ba\x01)" codes in
  let codes := push (ESC ++ "a" ++ NUL) "CENTER_OFF (\x1Ba\x00)" codes in
  let codes :=
    push (ESC ++ "t" ++ NUL)
      "CHARSET_PC437 (\x1Bt\x00) + iconv UTF-8→CP437" codes in
  let codes :=
    push (ESC ++ "t" ++ String "002" "") "CHARSET_PC850 (\x1Bt\x02)" codes in
  let codes :=
    push (ESC ++ "t" ++ String "003" "") "CHARSET_PC860 (\x1Bt\x03)" codes in
  let codes :=
    push (ESC ++ "t" ++ String "004" "") "CHARSET_PC863 (\x1Bt\x04)" codes in
  let codes :=
    push (ESC ++ "R" ++ String "012" "")
      "INTERNATIONAL_SPAIN (\x1BR\x0C)" codes in
  let codes := push (GS ++ "VA0") "CUT_PAPER (\x1DVA0)" codes in
  codes.

(** The object [previewReceipt] returns. *)
Record Preview : Type := {
  raw : string;
  preview : string;
  escPosCodes : list string;
  type : string
}.

(** [previewReceipt], lines 401-419. *)
Definition previewReceipt (logoAccessible : bool) (receipt : Receipt)
  (type : string) : list LogEntry * Result Preview :=
  let '(log, formatted) := formatReceipt logoAccessible receipt type in
  match formatted with
  | Ok formattedReceipt =>
      let previewText := stripEscPosCodes formattedReceipt in
      (log,
       Ok {| raw := formattedReceipt;
             preview := previewText;
             escPosCodes := listEscPosCodes formattedReceipt;
             type := type |})
  | Throw m => ((log ++ [logMsg Error "Receipt preview error:"])%list, Throw m)
  end.

End Formatter.

End ReceiptFormatter.

(** ** The service: [server.js] *)

Module POSPrinterService.
Import ReceiptFormatter.

(** The three values [parsePrinterStatus] gives to [status]. *)
Inductive Status : Type := online | offline | error.

Definition isOnline (st : Status) : bool :=
  match st with online => true | _ => false end.

(** An entry of the array [getAvailablePrinters()] resolves to. *)
Record PrinterInfo : Type := {
  name : string;
  status : Status;
  isDefault : bool;
  model : string;
  location : string;
  description : string
}.

(** The object [processPrintJob] returns; [queued] and [timestamp] are
    absent from some results. *)
Record PrintResult : Type := {
  success : bool;
  message : string;
  printerId : string;
  queued : option bool;
  timestamp : option string
}.

(** What the operating system answers during one activation of
    [processPrintJob]: the printers [getAvailablePrinters()] resolves to
    (or its rejection), whether the logo file is accessible, whether
    [printerManager.print(text, name)] resolves or rejects, [Date.now()]
    and [new Date().toISOString()]. *)
Record Env : Type := {
  env_printers : Result (list PrinterInfo);
  env_logo : bool;
  env_print : string -> string -> Result unit;
  env_now : Z;
  env_iso : string
}.

Section Service.
Context {N : JsNum} {R : JsRuntime} {D : JsDate}.
Variable config : Config.

(** An entry of [this.printQueue], line 467; [enqueuedAt] is its
    property [timestamp]. *)
Record Job : Type := {
  receipt : Receipt;
  printerName : option string;
  enqueuedAt : Z
}.

(** The mutable fields of [POSPrinterService], lines 46-50. *)
Record Service : Type := {
  printQueue : list Job;
  maxQueueSize : nat;
  isProcessingQueue : bool;
  startTime : Z;
  lastPrintTime : option string
}.

(** The constructor, lines 44-57. *)
Definition constructor (now : Z) : Service :=
  {| printQueue := [];
     maxQueueSize := 10;
     isProcessingQueue := false;
     startTime := now;
     lastPrintTime := None |}.

Definition set_printQueue (q : list Job) (s : Service) : Service :=
  {| printQueue := q;
     maxQueueSize := maxQueueSize s;
     isProcessingQueue := isProcessingQueue s;
     startTime := startTime s;
     lastPrintTime := lastPrintTime s |}.

Definition set_isProcessingQueue (b : bool) (s : Service) : Service :=
  {| printQueue := printQueue s;
     maxQueueSize := maxQueueSize s;
     isProcessingQueue := b;
     startTime := startTime s;
     lastPrintTime := lastPrintTime s |}.

Definition set_lastPrintTime (t : option string) (s : Service) : Service :=
  {| printQueue := printQueue s;
     maxQueueSize := maxQueueSize s;
     isProcessingQueue := isProcessingQueue s;
     startTime := startTime s;
     lastPrintTime := t |}.

(** An activation of [processPrintJob] suspended at one of its awaits:
    at [getAvailablePrinters()] (line 451), or, with the target chosen,
    at [formatReceipt] and [print] (lines 483-486), between which it
    touches no field of the service. *)
Inductive PrintJobK : Type :=
| AwaitPrinters (receipt : Receipt) (printerName : option string)
| AwaitSpooler (receipt : Receipt) (printerName : option string)
    (targetPrinter : PrinterInfo).

(** A drain pass suspended at [await this.processPrintJob(...)], line
    526: the job it shifted and the activation it waits for. *)
Record Drain : Type := {
  job : Job;
  inner : PrintJobK
}.

(** An activation after a resumption: suspended again, or completed with
    the object it returns or the error it throws. *)
Inductive Progress : Type :=
| Suspended (k : PrintJobK)
| Completed (r : Result PrintResult).

(** [printers.find(p => p.isDefault) || printers[0]]. *)
Definition defaultPrinter (printers : list PrinterInfo)
  : option PrinterInfo :=
  match List.find isDefault printers with
  | Some p => Some p
  | None => List.hd_error printers
  end.

(** The target printer, lines 454-456:
    [printerName ? printers.find(p => p.name === printerName)
                 : printers.find(p => p.isDefault) || printers[0]];
    [null] and the empty string are falsy. *)
Definition targetPrinter (printers : list PrinterInfo)
  (printerName : option string) : option PrinterInfo :=
  match printerName with
  | Some n =>
      if String.eqb n "" then defaultPrinter printers
      else List.find (fun p => String.eqb (name p) n) printers
  | None => defaultPrinter printers
  end.

(** The loop of [processQueue] from its test, lines 523-526 and 541: on
    an empty queue the pass ends and clears the flag; otherwise it shifts
    the oldest job and suspends on the activation it starts for it. *)
Definition drainLoop (s : Service) : Service * option Drain :=
  match printQueue s with
  | [] => (set_isProcessingQueue false s, None)
  | j :: rest =>
      (set_printQueue rest s,
       Some {| job := j;
               inner := AwaitPrinters (receipt j) (printerName j) |})
  end.

(** [processQueue()] up to its first await, lines 515-526. *)
Definition processQueue_start (s : Service) : Service * option Drain :=
  if (isProcessingQueue s || Nat.eqb (List.length (printQueue s)) 0)%bool
  then (s, None)
  else drainLoop (set_isProcessingQueue true s).

(** The object pushed on the queue, line 467. *)
Definition newJob (e : Env) (receipt : Receipt)
  (printerName : option string) : Job :=
  {| receipt := receipt;
     printerName := printerName;
     enqueuedAt := env_now e |}.

(** The object returned for a queued job, lines 470-475; [position] is
    [this.printQueue.length] after the push. *)
Definition queuedResult (target : PrinterInfo) (position : nat)
  : PrintResult :=
  {| success := false;
     message := "Printer offline, queued for printing. Queue position: "
                ++ nat_toString position;
     printerId := name target;
     queued := Some true;
     timestamp := None |}.

(** The object returned for a printed job, lines 501-506. *)
Definition printedResult (target : PrinterInfo) (s : Service)
  : PrintResult :=
  {| success := true;
     message := "Receipt printed successfully";
     printerId := name target;
     queued := None;
     timestamp := lastPrintTime s |}.

(** What [processPrintJob] does once it has the printers: it throws,
    returns the queued result, or goes on to print on the target. *)
Inductive Decision : Type :=
| Rejected (message : string)
| Queued (result : PrintResult)
| Proceed (target : PrinterInfo).

(** [processPrintJob] resumed with the printers, lines 452-479. *)
Definition afterPrinters (e : Env) (receipt : Receipt)
  (printerName : option string) (s : Service) : Decision * Service :=
  match env_printers e with
  | Throw m => (Rejected m, s)
  | Ok printers =>
      match targetPrinter printers printerName with
      | None => (Rejected "No printers available", s)
      | Some target =>
          if negb (isOnline (status target))
          then
            if Nat.ltb (List.length (printQueue s)) (maxQueueSize s)
            then
              let s' :=
                set_printQueue
                  (printQueue s ++ [newJob e receipt printerName])%list s in
              (Queued (queuedResult target (List.length (printQueue s'))), s')
            else (Rejected "Printer offline and queue is full", s)
          else (Proceed target, s)
      end
  end.

(** [processPrintJob] from the formatting on, lines 483-506: the drain
    pass it starts, if any, is returned with the state. *)
Definition afterSpooler (e : Env) (receipt : Receipt)
  (target : PrinterInfo) (s : Service)
  : Result PrintResult * Service * option Drain :=
  match snd (formatReceipt config (env_logo e) receipt "sales") with
  | Throw m => (Throw m, s, None)
  | Ok formattedReceipt =>
      match env_print e formattedReceipt (name target) with
      | Throw m => (Throw m, s, None)
      | Ok _ =>
          let s1 := set_lastPrintTime (Some (env_iso e)) s in
          let '(s2, started) :=
            if negb (isProcessingQueue s1)
            then processQueue_start s1
            else (s1, None) in
          (Ok (printedResult target s2), s2, started)
      end
  end.

(** One resumption of a suspended activation. *)
Definition resume (e : Env) (k : PrintJobK) (s : Service)
  : Progress * Service * option Drain :=
  match k with
  | AwaitPrinters receipt printerName =>
      match afterPrinters e receipt printerName s with
      | (Rejected m, s') => (Completed (Throw m), s', None)
      | (Queued r, s') => (Completed (Ok r), s', None)
      | (Proceed target, s') =>
          (Suspended (AwaitSpooler receipt printerName target), s', None)
      end
  | AwaitSpooler receipt printerName target =>
      let '(r, s', started) := afterSpooler e receipt target s in
      (Completed r, s', started)
  end.

(** [processPrintJob], lines 446-513, run from its call to its
    completion with nothing else scheduled in between: the result or the
    error, the state, and the drain pass it left running. *)
Definition processPrintJob (e : Env) (receipt : Receipt)
  (printerName : option string) (s : Service)
  : Result PrintResult * Service * option Drain :=
  match afterPrinters e receipt printerName s with
  | (Rejected m, s') => (Throw m, s', None)
  | (Queued r, s') => (Ok r, s', None)
  | (Proceed target, s') => afterSpooler e receipt target s'
  end.

(** A suspended activation run to its completion with nothing else
    scheduled in between. *)
Definition complete (e : Env) (k : PrintJobK) (s : Service)
  : Result PrintResult * Service * option Drain :=
  match k with
  | AwaitPrinters receipt printerName =>
      processPrintJob e receipt printerName s
  | AwaitSpooler receipt _ target => afterSpooler e receipt target s
  end.

(** [!result.success && result.queued], line 528. *)
Definition queuedAgain (result : PrintResult) : bool :=
  (negb (success result)
   && match queued result with Some b => b | None => false end)%bool.

(** The pass once the activation it awaited has completed, lines
    528-541: on a queued result it puts the job back and leaves the loop,
    otherwise (printed, or an error caught) it goes round the loop. *)
Definition afterAttempt (d : Drain) (r : Result PrintResult) (s : Service)
  : Service * option Drain :=
  match r with
  | Ok result =>
      if queuedAgain result
      then (set_isProcessingQueue false
              (set_printQueue (job d :: printQueue s) s), None)
      else drainLoop s
  | Throw _ => drainLoop s
  end.

(** One resumption of a suspended drain pass: the state, the pass if it
    is still running, and a pass started by its activation. *)
Definition resumeDrain (e : Env) (d : Drain) (s : Service)
  : Service * option Drain * option Drain :=
  match resume e (inner d) s with
  | (Suspended k, s', started) =>
      (s', Some {| job := job d; inner := k |}, started)
  | (Completed r, s', started) =>
      let '(s'', d') := afterAttempt d r s' in
      (s'', d', started)
  end.

(** One whole attempt of a pass on the job it holds, with nothing else
    scheduled in between: the awaited activation is resumed until it
    completes, then the pass goes on to its next await or to its end. *)
Definition attempt (e : Env) (d : Drain) (s : Service)
  : Service * option Drain * option Drain :=
  match resumeDrain e d s with
  | (s', Some d', None) =>
      match inner d' with
      | AwaitSpooler _ _ _ => resumeDrain e d' s'
      | AwaitPrinters _ _ => (s', Some d', None)
      end
  | other => other
  end.

(** A pass run attempt by attempt, the [i]-th one answered by [envs i];
    [None] when the fuel runs out first. *)
Fixpoint runDrain (fuel : nat) (envs : nat -> Env) (i : nat) (d : Drain)
  (s : Service) : option Service :=
  match fuel with
  | O => None
  | S fuel' =>
      match attempt (envs i) d s with
      | (s', Some d', _) => runDrain fuel' envs (S i) d' s'
      | (s', None, _) => Some s'
      end
  end.

(** The jobs such a pass attempts, in the order of the attempts. *)
Fixpoint attempted (fuel : nat) (envs : nat -> Env) (i : nat) (d : Drain)
  (s : Service) : list Job :=
  match fuel with
  | O => []
  | S fuel' =>
      (job d ::
       match attempt (envs i) d s with
       | (s', Some d', _) => attempted fuel' envs (S i) d' s'
       | (_, None, _) => []
       end)%list
  end.

(** The answers [e] let the job [j] be printed: its printer is online,
    its receipt is rendered and the spooler accepts the bytes. *)
Definition printable (e : Env) (j : Job) : Prop :=
  exists (printers : list PrinterInfo) (target : PrinterInfo)
         (formatted : string),
    env_printers e = Ok printers
    /\ targetPrinter printers (printerName j) = Some target
    /\ isOnline (status target) = true
    /\ snd (formatReceipt config (env_logo e) (receipt j) "sales")
       = Ok formatted
    /\ env_print e formatted (name target) = Ok tt.

(** [processQueue], lines 515-542, run to its end with nothing else
    scheduled in between.  The fuel is the number of jobs in the queue:
    every attempt but the last removes one. *)
Definition processQueue (envs : nat -> Env) (s : Service) : option Service :=
  match processQueue_start s with
  | (s', None) => Some s'
  | (s', Some d) => runDrain (S (List.length (printQueue s'))) envs 0 d s'
  end.

(** *** The routes *)

(** The object [validateReceiptData] returns. *)
Record Validation : Type := {
  valid : bool;
  errors : list string
}.

(** The callback of [receipt.items.forEach], lines 435-440; [index] is
    the position of [item], from 0. *)
Definition validateItem (item : prim) (index : nat) : Result (list string) :=
  if nullish item
  then Throw ("Cannot read properties of " ++ toStr item
              ++ " (reading 'name')")
  else
    let n := nat_toString (index + 1) in
    Ok ((if negb (truthy (propOf item "name"))
         then [("Item " ++ n ++ ": name is required")%string] else []) ++
        (if negb (isNumber (propOf item "quantity"))
         then [("Item " ++ n ++ ": quantity must be a number")%string]
         else []) ++
        (if negb (isNumber (propOf item "price"))
         then [("Item " ++ n ++ ": price must be a number")%string]
         else []) ++
        (if negb (isNumber (propOf item "total"))
         then [("Item " ++ n ++ ": total must be a number")%string]
         else []))%list.

(** The [forEach] of line 434: the errors of the items in turn, up to
    the first callback that throws. *)
Fixpoint validateItems (l : list prim) (index : nat)
  : Result (list string) :=
  match l with
  | [] => Ok []
  | item :: rest =>
      errors <- validateItem item index ;;
      more <- validateItems rest (S index) ;;
      Ok (errors ++ more)%list
  end.

(** [!receipt.items || !Array.isArray(receipt.items) ||
     receipt.items.length === 0], line 425. *)
Definition itemsMissing (it : ItemsField) : bool :=
  match it with
  | ItemsArray [] | ItemsPrim (PArr []) => true
  | ItemsArray (_ :: _) | ItemsPrim (PArr (_ :: _)) => false
  | ItemsPrim _ => true
  end.

(** [validateReceiptData], lines 415-444; [None] is a [receipt] that is
    [undefined] or [null].  A truthy [items] that is not an array has no
    [forEach], and the call throws. *)
Definition validateReceiptData (receipt : option Receipt)
  : Result Validation :=
  match receipt with
  | None => Ok {| valid := false; errors := ["Receipt data is required"] |}
  | Some receipt =>
      let r := fields receipt in
      let errors :=
        ((if negb (truthy (get r "orderNumber"))
          then ["Order number is required"] else []) ++
         (if negb (truthy (get r "date"))
          then ["Date is required"] else []) ++
         (if itemsMissing (items receipt)
          then ["Items array is required and must not be empty"] else []) ++
         (if negb (isNumber (get r "subtotal"))
          then ["Subtotal must be a number"] else []) ++
         (if negb (isNumber (get r "tax"))
          then ["Tax must be a number"] else []) ++
         (if negb (isNumber (get r "total"))
          then ["Total must be a number"] else []) ++
         (if negb (truthy (get r "paymentMethod"))
          then ["Payment method is required"] else []))%list in
      itemErrors <-
        match items receipt with
        | ItemsArray l | ItemsPrim (PArr l) => validateItems l 0
        | ItemsPrim p =>
            if truthy p
            then Throw "receipt.items.forEach is not a function"
            else Ok []
        end ;;
      let errors := (errors ++ itemErrors)%list in
      Ok {| valid := Nat.eqb (List.length errors) 0; errors := errors |}
  end.

(** The JSON bodies of the responses of [/print] and [/preview]. *)
Inductive Body : Type :=
| PrintBody (result : PrintResult)
| ErrorBody (error : string) (timestamp : string)
| PreviewBody (preview : string) (escPosCodes : list string)
    (rawLength : nat) (timestamp : string).

Record Response : Type := {
  statusCode : nat;
  body : Body
}.

(** The 400 of both routes, e.g. lines 343-347. *)
Definition invalidResponse (v : Validation) (now : string) : Response :=
  {| statusCode := 400;
     body := ErrorBody ("Invalid receipt data: "
                        ++ String.concat ", " (errors v)) now |}.

(** The 500 of both routes, e.g. lines 359-363. *)
Definition errorResponse (m : string) (now : string) : Response :=
  {| statusCode := 500; body := ErrorBody m now |}.

(** The handler of [POST /print], lines 334-365, with nothing else
    scheduled before it responds; [receipt] is the property of the
    request body and [now] the timestamp of the response. *)
Definition printRoute (e : Env) (now : string) (receipt : option Receipt)
  (s : Service) : Response * Service * option Drain :=
  match validateReceiptData receipt with
  | Throw m => (errorResponse m now, s, None)
  | Ok validation =>
      match receipt with
      | Some r =>
          if negb (valid validation)
          then (invalidResponse validation now, s, None)
          else
            match processPrintJob e r None s with
            | (Ok result, s', started) =>
                ({| statusCode := 200;
                    body := PrintBody
                              {| success := success result;
                                 message := message result;
                                 printerId := printerId result;
                                 queued := queued result;
                                 timestamp := Some now |} |},
                 s', started)
            | (Throw m, s', started) => (errorResponse m now, s', started)
            end
      | None => (invalidResponse validation now, s, None)
      end
  end.

(** The handler of [POST /preview], lines 228-264: [logoAccessible] is
    the only thing it asks of the operating system. *)
Definition previewRoute (logoAccessible : bool) (now : string)
  (receipt : option Receipt) (s : Service) : Response * Service :=
  match validateReceiptData receipt with
  | Throw m => (errorResponse m now, s)
  | Ok validation =>
      match receipt with
      | Some r =>
          if negb (valid validation)
          then (invalidResponse validation now, s)
          else
            match snd (previewReceipt config logoAccessible r "sales") with
            | Ok p =>
                ({| statusCode := 200;
                    body := PreviewBody (preview p) (escPosCodes p)
                              (String.length (raw p)) now |}, s)
            | Throw m => (errorResponse m now, s)
            end
      | None => (invalidResponse validation now, s)
      end
  end.

(** What a response of [/preview] shows of the rendering: the stripped
    text, the list of codes and the length of the raw bytes. *)
Definition rendered (r : Response) : option (string * list string * nat) :=
  match body r with
  | PreviewBody p codes len _ => Some (p, codes, len)
  | _ => None
  end.

(** The callback of the timer of [startPrinterDetection], lines 632-643,
    once [refreshPrinters()] has settled; [refreshed] tells whether it
    resolved. *)
Definition detectionTick (refreshed : bool) (s : Service)
  : Service * option Drain :=
  if refreshed
  then if Nat.ltb 0 (List.length (printQueue s))
       then processQueue_start s
       else (s, None)
  else (s, None).

(** *** The service under interleaving *)

(** The service with the activations that are suspended: those started
    by requests, and the drain passes. *)
Record System : Type := {
  service : Service;
  requests : list PrintJobK;
  drains : list Drain
}.

Definition initial (now : Z) : System :=
  {| service := constructor now; requests := []; drains := [] |}.

Definition opt_list {A : Type} (o : option A) : list A :=
  match o with
  | Some a => [a]
  | None => []
  end.

Definition progress_list (p : Progress) : list PrintJobK :=
  match p with
  | Suspended k => [k]
  | Completed _ => []
  end.

(** One turn of the event loop: a request calls [processPrintJob], which
    suspends at its first await; a suspended activation of a request is
    resumed; a suspended drain pass is resumed; the timer fires. *)
Inductive step : System -> System -> Prop :=
| step_submit (sys : System) (receipt : Receipt)
    (printerName : option string) :
    step sys
      {| service := service sys;
         requests := (requests sys ++ [AwaitPrinters receipt printerName])%list;
         drains := drains sys |}
| step_request (sys : System) (e : Env) (before after : list PrintJobK)
    (k : PrintJobK) (p : Progress) (s' : Service) (started : option Drain) :
    requests sys = (before ++ k :: after)%list ->
    resume e k (service sys) = (p, s', started) ->
    step sys
      {| service := s';
         requests := (before ++ progress_list p ++ after)%list;
         drains := (drains sys ++ opt_list started)%list |}
| step_drain (sys : System) (e : Env) (before after : list Drain)
    (d : Drain) (s' : Service) (d' started : option Drain) :
    drains sys = (before ++ d :: after)%list ->
    resumeDrain e d (service sys) = (s', d', started) ->
    step sys
      {| service := s';
         requests := requests sys;
         drains := (before ++ opt_list d' ++ after ++ opt_list started)%list |}
| step_timer (sys : System) (refreshed : bool) (s' : Service)
    (started : option Drain) :
    detectionTick refreshed (service sys) = (s', started) ->
    step sys
      {| service := s';
         requests := requests sys;
         drains := (drains sys ++ opt_list started)%list |}.

(** The states the service can be in after it was constructed. *)
Inductive reachable : System -> Prop :=
| reachable_initial (now : Z) : reachable (initial now)
| reachable_step (sys sys' : System) :
    reachable sys -> step sys sys' -> reachable sys'.

(** *** The invariant *)

(** The service is idle: the flag is clear, and at most 11 jobs are
    queued. *)
Definition idle (s : Service) : Prop :=
  maxQueueSize s = 10 /\ isProcessingQueue s = false
  /\ List.length (printQueue s) <= 11.

(** The service is draining: the flag is set, and at most 10 jobs are
    queued. *)
Definition draining (s : Service) : Prop :=
  maxQueueSize s = 10 /\ isProcessingQueue s = true
  /\ List.length (printQueue s) <= 10.

(** The invariant of the service: the capacity is 10; either no pass is
    running, the flag is clear and at most 11 jobs are queued, or exactly
    one pass is running, the flag is set and at most 10 jobs are queued. *)
Definition invariant (sys : System) : Prop :=
  maxQueueSize (service sys) = 10
  /\ ((isProcessingQueue (service sys) = false
       /\ drains sys = []%list
       /\ List.length (printQueue (service sys)) <= 11)
      \/ (isProcessingQueue (service sys) = true
          /\ (exists d : Drain, drains sys = [d]%list)
          /\ List.length (printQueue (service sys)) <= 10)).

(** *** Schedules *)

(** A turn of the event loop, named: a request arrives; the [i]-th
    suspended request is resumed; the [i]-th suspended pass is resumed;
    the timer fires. *)
Inductive Event : Type :=
| Submit (receipt : Receipt) (printerName : option string)
| ResumeRequest (i : nat) (e : Env)
| ResumeDrain (i : nat) (e : Env)
| Timer (refreshed : bool).

(** The turn [ev] taken from [sys]; [None] when there is no [i]-th
    activation to resume. *)
Definition exec (ev : Event) (sys : System) : option System :=
  match ev with
  | Submit receipt printerName =>
      Some {| service := service sys;
              requests :=
                (requests sys ++ [AwaitPrinters receipt printerName])%list;
              drains := drains sys |}
  | ResumeRequest i e =>
      match List.nth_error (requests sys) i with
      | Some k =>
          let '(p, s', started) := resume e k (service sys) in
          Some {| service := s';
                  requests :=
                    (List.firstn i (requests sys) ++ progress_list p ++
                     List.skipn (S i) (requests sys))%list;
                  drains := (drains sys ++ opt_list started)%list |}
      | None => None
      end
  | ResumeDrain i e =>
      match List.nth_error (drains sys) i with
      | Some d =>
          let '(s', d', started) := resumeDrain e d (service sys) in
          Some {| service := s';
                  requests := requests sys;
                  drains :=
                    (List.firstn i (drains sys) ++ opt_list d' ++
                     List.skipn (S i) (drains sys) ++ opt_list started)%list |}
      | None => None
      end
  | Timer refreshed =>
      let '(s', started) := detectionTick refreshed (service sys) in
      Some {| service := s';
              requests := requests sys;
              drains := (drains sys ++ opt_list started)%list |}
  end.

(** The turns of [evs] taken one after the other. *)
Fixpoint execAll (evs : list Event) (sys : System) : option System :=
  match evs with
  | [] => Some sys
  | ev :: rest =>
      match exec ev sys with
      | Some sys' => execAll rest sys'
      | None => None
      end
  end.

End Service.

End POSPrinterService.

(** ** Sample data for the concrete runs *)

Module Example.
Import ReceiptFormatter POSPrinterService.

(** A configuration with every property absent. *)
Definition config0 : Config :=
  {| cfg_paperWidth := None;
     restaurantName := None;
     address := None;
     phone := None;
     taxLabel := None;
     footerMessage := None;
     dateFormat := None;
     receiptTypes := None |}.

(** The items of the sample sale. *)
Definition saleItems : list (@prim Num_Z) :=
  [PObj [("name", PStr "Test Item 1");
         ("quantity", PNum 2%Z);
         ("price", PNum 10%Z);
         ("total", PNum 20%Z)]%list]%list.

(** A sales receipt with one item, numbered [orderNumber]. *)
Definition sale (orderNumber : string) : Receipt :=
  {| fields :=
       [("orderNumber", PStr orderNumber);
        ("date", PStr "2024-08-09T12:04:43.000Z");
        ("cashier", PStr "Test Cashier");
        ("subtotal", PNum 25%Z);
        ("tax", PNum 2%Z);
        ("total", PNum 27%Z);
        ("paymentMethod", PStr "cash");
        ("tendered", PNum 30%Z);
        ("change", PNum 3%Z);
        ("items", PArr saleItems)]%list |}.

(** A cash-transfer receipt: it has none of the properties of a sale. *)
Definition transfer : Receipt :=
  {| fields :=
       [("transferId", PStr "TR-001");
        ("date", PStr "2024-08-09T12:04:43.000Z");
        ("senderName", PStr "Ana");
        ("receiverName", PStr "Luis");
        ("amount", PNum 50000%Z)]%list |}.

(** The one printer of the installation, in the given status. *)
Definition rongta (st : Status) : PrinterInfo :=
  {| name := "Rongta";
     status := st;
     isDefault := true;
     model := "Unknown";
     location := "";
     description := "" |}.

(** The answers of a system whose printer is in status [st] and whose
    spooler accepts every job, at time [now]. *)
Definition env (st : Status) (now : Z) : Env :=
  {| env_printers := Ok [rongta st]%list;
     env_logo := false;
     env_print := fun _ _ => Ok tt;
     env_now := now;
     env_iso := "2024-08-09T12:05:00.000Z" |}.

(** The same with a spooler that rejects every job. *)
Definition envRejecting (now : Z) : Env :=
  {| env_printers := Ok [rongta online]%list;
     env_logo := false;
     env_print := fun _ _ => Throw "Print command failed: lp: Error";
     env_now := now;
     env_iso := "2024-08-09T12:05:00.000Z" |}.

(** A system with no printer at all. *)
Definition envNoPrinter (now : Z) : Env :=
  {| env_printers := Ok []%list;
     env_logo := false;
     env_print := fun _ _ => Ok tt;
     env_now := now;
     env_iso := "2024-08-09T12:05:00.000Z" |}.

(** The service after [/print] was called for [sale n], for each [n] of
    [numbers] in turn, with the printer offline at time 5. *)
Definition submitted (numbers : list string) : Service :=
  List.fold_left
    (fun s n =>
       snd (fst (processPrintJob config0 (env offline 5) (sale n) None s)))
    numbers (constructor 0).

Definition ten : list string :=
  ["1"; "2"; "3"; "4"; "5"; "6"; "7"; "8"; "9"; "10"]%list.

(** The turns of a [/print] request for [sale n] that runs alone while
    the printer is offline. *)
Definition offlineRequest (n : string) : list Event :=
  [Submit (sale n) None; ResumeRequest 0 (env offline 5)]%list.

(** Ten such requests, then the timer firing and its pass resumed while
    the printer is still offline. *)
Definition tenThenTimer : list Event :=
  (List.flat_map offlineRequest ten ++
   [Timer true; ResumeDrain 0 (env offline 9)])%list.

(** The state a schedule leads to from the initial one; the initial
    state itself when the schedule cannot be run. *)
Definition after (evs : list Event) : System :=
  match execAll config0 evs (initial 0) with
  | Some sys => sys
  | None => initial 0
  end.

(** The state after [tenThenTimer]. *)
Definition overfull : System := Eval vm_compute in after tenThenTimer.

(** The state after one job was queued and the timer has fired. *)
Definition onePass : System :=
  Eval vm_compute in after (offlineRequest "A" ++ [Timer true])%list.

(** The service with two, nine and ten jobs queued. *)
Definition twoQueued : Service :=
  Eval vm_compute in submitted ["A"; "B"]%list.

Definition nineQueued : Service :=
  Eval vm_compute in
    submitted ["1"; "2"; "3"; "4"; "5"; "6"; "7"; "8"; "9"]%list.

Definition tenQueued : Service := Eval vm_compute in submitted ten.

(** The service after a request for [sale "C"] was printed with the two
    jobs queued. *)
Definition printedWithBacklog : Service :=
  Eval vm_compute in
    snd (fst (processPrintJob config0 (env online 7) (sale "C") None
                twoQueued)).

(** The bytes [sale "A"] is rendered to. *)
Definition saleBytes : string :=
  Eval vm_compute in
    match snd (formatReceipt config0 false (sale "A") "sales") with
    | Ok bytes => bytes
    | Throw _ => ""
    end.

(** The order numbers and times of the jobs of a queue. *)
Definition summary (q : list Job) : list (string * Z) :=
  List.map
    (fun j => (toStr (get (fields (receipt j)) "orderNumber"), enqueuedAt j))
    q.

End Example.

(** ** Notions derived from the service *)

Module Pending.
Import ReceiptFormatter POSPrinterService.

Section Pending.
Context {N : JsNum}.

(** The jobs the service still owes a print, oldest first: the job each
    running pass has shifted and holds in its local [job], then the jobs
    of [this.printQueue]. *)
Definition pending (sys : System) : list Job :=
  (List.map job (drains sys) ++ printQueue (service sys))%list.

(** The turns of the event loop other than the resumption of a pass. *)
Definition notDrain (ev : Event) : bool :=
  match ev with
  | ResumeDrain _ _ => false
  | _ => true
  end.

End Pending.

Section Submission.
Context {N : JsNum} {R : JsRuntime} {D : JsDate}.
Variable config : Config.

(** Whether a call of [processPrintJob] gets as far as the spooler and
    the spooler takes the job: [getAvailablePrinters()] resolves, a
    target is found in its answer and is online, the receipt is rendered,
    and [printerManager.print(text, name)] resolves on the rendered
    bytes and the name of the target. *)
Definition spoolerAccepts (e : Env) (receipt : Receipt)
  (printerName : option string) : bool :=
  match env_printers e with
  | Ok printers =>
      match targetPrinter printers printerName with
      | Some target =>
          (isOnline (status target)
           && match snd (formatReceipt config (env_logo e) receipt "sales")
              with
              | Ok formattedReceipt =>
                  match env_print e formattedReceipt (name target) with
                  | Ok _ => true
                  | Throw _ => false
                  end
              | Throw _ => false
              end)%bool
      | None => false
      end
  | Throw _ => false
  end.

End Submission.

End Pending.

(** ** lib/validation.js *)

(** The validation module, the last part of receiptFormatter-dev.js,
    lines 953-1143: one validator for each type of receipt and the
    function that chooses among them. *)

Module Validators.
Import ReceiptFormatter POSPrinterService.

(** [n <= 0] and [n < 0] on numbers; both false on [NaN]. *)
Class JsOrder {N : JsNum} : Type := {
  num_le0 : num -> bool;
  num_lt0 : num -> bool
}.

#[export] Instance Order_Z : @JsOrder Num_Z := {
  num_le0 := fun z => Z.leb z 0;
  num_lt0 := fun z => Z.ltb z 0
}.

Section Validators.
Context {N : JsNum} {R : JsRuntime} {O : JsOrder}.

(** [if (!receipt.key) errors.push(message)]. *)
Definition required (r : obj) (key message : string) : list string :=
  if negb (truthy (get r key)) then [message] else [].

(** [if (typeof receipt.key !== 'number') errors.push(message)]. *)
Definition number (r : obj) (key message : string) : list string :=
  if negb (isNumber (get r key)) then [message] else [].

(** [typeof v !== 'number' || v <= 0] and
    [typeof v !== 'number' || v < 0]. *)
Definition notPositive (v : prim) : bool :=
  match v with PNum n => num_le0 n | _ => true end.

Definition isNegative (v : prim) : bool :=
  match v with PNum n => num_lt0 n | _ => true end.

Definition positive (r : obj) (key message : string) : list string :=
  if notPositive (get r key) then [message] else [].

Definition nonNegative (r : obj) (key message : string) : list string :=
  if isNegative (get r key) then [message] else [].

(** The object every validator returns, e.g. line 992. *)
Definition result (errors : list string) : Validation :=
  {| valid := Nat.eqb (List.length errors) 0; errors := errors |}.

(** The answer to a [receipt] that is [undefined] or [null], e.g. lines
    966-969. *)
Definition noReceipt : Validation :=
  {| valid := false; errors := ["Receipt data is required"] |}.

(** [validateSalesReceipt], lines 963-992. *)
Definition validateSalesReceipt (receipt : option Receipt)
  : Result Validation :=
  match receipt with
  | None => Ok noReceipt
  | Some receipt =>
      let r := fields receipt in
      let errors :=
        (required r "orderNumber" "Order number is required" ++
         required r "date" "Date is required" ++
         (if itemsMissing (items receipt)
          then ["Items array is required and must not be empty"] else []) ++
         number r "subtotal" "Subtotal must be a number" ++
         number r "tax" "Tax must be a number" ++
         number r "total" "Total must be a number" ++
         required r "paymentMethod" "Payment method is required")%list in
      itemErrors <-
        match items receipt with
        | ItemsArray l | ItemsPrim (PArr l) => validateItems l 0
        | ItemsPrim p =>
            if truthy p
            then Throw "receipt.items.forEach is not a function"
            else Ok []
        end ;;
      Ok (result (errors ++ itemErrors)%list)
  end.

(** [validateCashTransferReceipt], lines 999-1018. *)
Definition validateCashTransferReceipt (receipt : option Receipt)
  : Validation :=
  match receipt with
  | None => noReceipt
  | Some receipt =>
      let r := fields receipt in
      result
        (required r "transferId" "Transfer ID is required" ++
         required r "date" "Date is required" ++
         required r "senderName" "Sender name is required" ++
         required r "receiverName" "Receiver name is required" ++
         positive r "amount" "Amount must be a positive number" ++
         required r "locationName" "Location name is required" ++
         required r "printTime" "Print time is required")%list
  end.

(** [validateShiftClosureReceipt], lines 1025-1049. *)
Definition validateShiftClosureReceipt (receipt : option Receipt)
  : Validation :=
  match receipt with
  | None => noReceipt
  | Some receipt =>
      let r := fields receipt in
      result
        (required r "shiftId" "Shift ID is required" ++
         required r "shiftType" "Shift type is required" ++
         required r "shiftDate" "Shift date is required" ++
         required r "cashierName" "Cashier name is required" ++
         required r "startTime" "Start time is required" ++
         required r "endTime" "End time is required" ++
         number r "startingCash" "Starting cash must be a number" ++
         number r "endingCashExpected"
           "Ending cash expected must be a number" ++
         number r "endingCashCounted"
           "Ending cash counted must be a number" ++
         number r "variance" "Variance must be a number" ++
         number r "shiftSales" "Shift sales must be a number" ++
         number r "transfersOut" "Transfers out must be a number" ++
         required r "locationName" "Location name is required" ++
         required r "printTime" "Print time is required")%list
  end.

(** [validateShiftHandoffReceipt], lines 1056-1080. *)
Definition validateShiftHandoffReceipt (receipt : option Receipt)
  : Validation :=
  match receipt with
  | None => noReceipt
  | Some receipt =>
      let r := fields receipt in
      result
        (required r "handoffId" "Handoff ID is required" ++
         required r "handoffDate" "Handoff date is required" ++
         required r "outgoingCashier" "Outgoing cashier is required" ++
         required r "incomingCashier" "Incoming cashier is required" ++
         nonNegative r "handoffAmount"
           "Handoff amount must be a non-negative number" ++
         nonNegative r "verifiedAmount"
           "Verified amount must be a non-negative number" ++
         number r "variance" "Variance must be a number" ++
         required r "status" "Status is required" ++
         required r "locationName" "Location name is required" ++
         required r "printTime" "Print time is required")%list
  end.

(** [validateCashExpenseReceipt], lines 1087-1109. *)
Definition validateCashExpenseReceipt (receipt : option Receipt)
  : Validation :=
  match receipt with
  | None => noReceipt
  | Some receipt =>
      let r := fields receipt in
      result
        (required r "expenseId" "Expense ID is required" ++
         required r "cashExpenseId" "Cash expense ID is required" ++
         required r "date" "Date is required" ++
         required r "cashierName" "Cashier name is required" ++
         required r "category" "Category is required" ++
         required r "description" "Description is required" ++
         positive r "amount" "Amount must be a positive number" ++
         required r "shiftInfo" "Shift info is required" ++
         required r "locationName" "Location name is required" ++
         required r "printTime" "Print time is required")%list
  end.

(** [validateReceipt], lines 1117-1134: what it writes with
    [console.warn] and what it returns or throws. *)
Definition validateReceipt (receipt : option Receipt) (type : string)
  : list string * Result Validation :=
  let tag := toLowerCase type in
  if String.eqb tag "sales" then ([], validateSalesReceipt receipt)
  else if String.eqb tag "cash_transfer"
       then ([], Ok (validateCashTransferReceipt receipt))
  else if String.eqb tag "shift_closure"
       then ([], Ok (validateShiftClosureReceipt receipt))
  else if String.eqb tag "shift_handoff"
       then ([], Ok (validateShiftHandoffReceipt receipt))
  else if String.eqb tag "cash_expense"
       then ([], Ok (validateCashExpenseReceipt receipt))
  else
    (["Unknown receipt type: " ++ type ++
      ", falling back to sales validation"],
     validateSalesReceipt receipt).

End Validators.

End Validators.

(** ** lib/printerManager.js *)

(** [PrinterManager], the third part of receiptFormatter-dev.js, lines
    622-950: how a status line of [lpstat] is read, and [print], the
    call [processPrintJob] awaits as [printerManager.print]. *)

Module PrinterManager.
Import POSPrinterService.

(** The fields of the manager that [print] reads. *)
Record Manager : Type := {
  printers : list PrinterInfo;
  defaultPrinter : option string;
  cupsAvailable : bool
}.

(** What [execAsync] of the [lp] command settles to: the two outputs of
    the command, or the error of a command that fails. *)
Inductive Settled : Type :=
| Resolved (stdout stderr : string)
| Failed (message : string).

(** The answers of the operating system to one call of [print]:
    [fs.writeFile] of the temporary file, and [lp] for a printer and the
    text written. *)
Record Os : Type := {
  os_writeFile : string -> Result unit;
  os_lp : string -> string -> Settled
}.

(** The object [print] returns, lines 826-830. *)
Record Submitted : Type := {
  success : bool;
  printer : string;
  jobId : string
}.

(** [printer.status] as a template literal prints it. *)
Definition statusText (st : Status) : string :=
  match st with
  | online => "online"
  | offline => "offline"
  | error => "error"
  end.

(** [parsePrinterStatus], lines 765-777. *)
Definition parsePrinterStatus (text : string) : Status :=
  let lowerStatus := toLowerCase text in
  if (includes lowerStatus "idle" || includes lowerStatus "ready")%bool
  then online
  else if (includes lowerStatus "disabled"
           || includes lowerStatus "stopped")%bool
  then offline
  else if (includes lowerStatus "busy" || includes lowerStatus "printing")%bool
  then online
  else error.

(** The longest prefix of characters that pass [f], and the rest. *)
Fixpoint span (f : ascii -> bool) (text : string) : string * string :=
  match text with
  | EmptyString => (EmptyString, EmptyString)
  | String c rest =>
      if f c
      then let '(taken, remaining) := span f rest in (String c taken, remaining)
      else (EmptyString, text)
  end.

Definition isDash (c : ascii) : bool := Ascii.eqb c "-".

Definition isDigit (c : ascii) : bool :=
  (Nat.leb 48 (nat_of_ascii c) && Nat.leb (nat_of_ascii c) 57)%bool.

(** [[^-]+-(\d+)] matched at the start of [text]: the greedy run of
    characters other than a dash can only end at the first dash, which
    must be followed by a digit; the group is the digits that follow. *)
Definition idAfter (text : string) : option string :=
  match span (fun c => negb (isDash c)) text with
  | (String _ _, String _ afterDash) =>
      match span isDigit afterDash with
      | (EmptyString, _) => None
      | (digits, _) => Some digits
      end
  | _ => None
  end.

(** [text] without its first [n] characters. *)
Fixpoint drop (n : nat) (text : string) : string :=
  match n, text with
  | S k, String _ rest => drop k rest
  | _, _ => text
  end.

(** [stdout.match(/request id is [^-]+-(\d+)/)]: the group of the
    leftmost match. *)
Fixpoint jobIdMatch (stdout : string) : option string :=
  match stdout with
  | EmptyString => None
  | String _ rest =>
      if String.prefix "request id is " stdout
      then match idAfter (drop 14 stdout) with
           | Some digits => Some digits
           | None => jobIdMatch rest
           end
      else jobIdMatch rest
  end.

(** [print] from the call of [lp] on, lines 809-830. *)
Definition submit (os : Os) (targetPrinter receiptText : string)
  : Result Submitted :=
  match os_lp os targetPrinter receiptText with
  | Failed m => Throw m
  | Resolved stdout stderr =>
      if (negb (String.eqb stderr "")
          && negb (includes stderr "request id"))%bool
      then Throw ("Print command failed: " ++ stderr)
      else
        let jobId :=
          match jobIdMatch stdout with
          | Some digits => digits
          | None => "unknown"
          end in
        Ok {| success := true; printer := targetPrinter; jobId := jobId |}
  end.

(** [print], lines 784-850.  Removing the temporary file changes
    nothing of the outcome: a failure of it is only logged. *)
Definition print (pm : Manager) (os : Os) (receiptText : string)
  (printerName : option string) : Result Submitted :=
  if negb (cupsAvailable pm) then Throw "CUPS not available"
  else
    let targetPrinter :=
      match printerName with
      | Some n => if String.eqb n "" then defaultPrinter pm else Some n
      | None => defaultPrinter pm
      end in
    match targetPrinter with
    | None => Throw "No printer specified and no default printer available"
    | Some target =>
        if String.eqb target ""
        then Throw "No printer specified and no default printer available"
        else
          match List.find (fun p => String.eqb (name p) target) (printers pm)
          with
          | None => Throw ("Printer '" ++ target ++ "' not found")
          | Some p =>
              if negb (isOnline (status p))
              then Throw ("Printer '" ++ target ++ "' is "
                          ++ statusText (status p))
              else
                _ <- os_writeFile os receiptText ;;
                submit os target receiptText
          end
    end.

(** [printerManager.print] as [processPrintJob] awaits it: the result is
    not looked at, only whether there is one. *)
Definition spooler (pm : Manager) (os : Os) (receiptText printerName : string)
  : Result unit :=
  match print pm os receiptText (Some printerName) with
  | Ok _ => Ok tt
  | Throw m => Throw m
  end.

End PrinterManager.

(** ** Notions about the output of [lp] *)

Module Lp.

(** Every character of [text] passes [f]. *)
Fixpoint allChars (f : ascii -> bool) (text : string) : bool :=
  match text with
  | EmptyString => true
  | String c rest => (f c && allChars f rest)%bool
  end.

(** [text] begins with a character that passes [f]. *)
Definition startsWith (f : ascii -> bool) (text : string) : bool :=
  match text with
  | EmptyString => false
  | String c _ => f c
  end.

End Lp.

(** ** The development server *)

(** The queue of the development server (the second unnamed part of the
    sources): [POST /print], lines 285-325, is the only code that touches
    [printQueue]; [processQueue], lines 210-219, is never called.  The
    development formatter and the upper-casing of the type tag are
    parameters: what is proved holds whatever they return or throw. *)

Module DevServer.
Import ReceiptFormatter POSPrinterService Validators.

Section DevServer.
Context {N : JsNum} {R : JsRuntime} {O : JsOrder}.

(** [config.printing?.maxQueueSize], when it is a number. *)
Variable configured : option nat.

(** [receiptFormatter.formatReceipt(receipt, type)] of
    lib/receiptFormatter-dev, and [type.toUpperCase()]. *)
Variable formatReceipt : Receipt -> string -> Result string.
Variable toUpperCase : string -> string.

(** [config.printing?.maxQueueSize || 10], line 65. *)
Definition maxQueueSize : nat :=
  match configured with
  | Some (S n) => S n
  | _ => 10
  end.

(** An entry of [printQueue], line 310; [dev_type] is the [type] of the
    request body, any JSON value, with its default. *)
Record DevJob : Type := {
  dev_receipt : Receipt;
  dev_printerName : option string;
  dev_type : prim
}.

(** The properties [POST /print] reads of the request body, line 287. *)
Record Request : Type := {
  body_receipt : option Receipt;
  body_type : prim;
  body_printerName : option string
}.

(** The responses of [POST /print]: the result of [processPrintJob],
    lines 193-199, or a status with an error. *)
Inductive Answer : Type :=
| Printed (message printerId jobId timestamp : string)
| Refused (statusCode : nat) (error timestamp : string).

(** [type = 'sales'], the default of lines 287, 167 and 176 and of
    [validateReceipt] and [formatReceipt]: it replaces an absent [type]
    only. *)
Definition typeOrDefault (t : prim) : prim :=
  match t with
  | PUndefined => PStr "sales"
  | _ => t
  end.

(** The receiver of [type.toLowerCase()]: a TypeError for a [type] that
    is not a string. *)
Definition asString (t : prim) : Result string :=
  match t with
  | PStr tag => Ok tag
  | PUndefined =>
      Throw "Cannot read properties of undefined (reading 'toLowerCase')"
  | PNull => Throw "Cannot read properties of null (reading 'toLowerCase')"
  | _ => Throw "type.toLowerCase is not a function"
  end.

(** [validateReceiptData], lines 167-173. *)
Definition validateReceiptData (receipt : Receipt) (type : prim)
  : Result bool :=
  tag <- asString (typeOrDefault type) ;;
  validation <- snd (validateReceipt (Some receipt) tag) ;;
  if negb (valid validation)
  then Throw ("Invalid receipt data: "
              ++ String.concat ", " (errors validation))
  else Ok true.

(** [processPrintJob], lines 176-207; [devPrinter.print], lines 76-99,
    always resolves.  [now] is [Date.now()] as a string and [iso] the
    time of the response. *)
Definition processPrintJob (now iso : string) (receipt : Receipt)
  (type : prim) : Result Answer :=
  tag <- asString (typeOrDefault type) ;;
  formattedReceipt <- formatReceipt receipt tag ;;
  let jobName := toUpperCase tag ++ "-" ++ now in
  Ok (Printed "Receipt printed successfully (DEV MODE)" "DEV-PRINTER"
        jobName iso).

(** The handler of [POST /print], lines 285-325. *)
Definition print (now iso : string) (req : Request) (printQueue : list DevJob)
  : Answer * list DevJob :=
  let type := typeOrDefault (body_type req) in
  match body_receipt req with
  | None => (Refused 400 "Receipt data is required" iso, printQueue)
  | Some receipt =>
      match validateReceiptData receipt type with
      | Throw m => (Refused 400 m iso, printQueue)
      | Ok _ =>
          if Nat.leb maxQueueSize (List.length printQueue)
          then (Refused 503 "Print queue is full" iso, printQueue)
          else
            let printQueue :=
              (printQueue ++
               [{| dev_receipt := receipt;
                   dev_printerName := body_printerName req;
                   dev_type := type |}])%list in
            match processPrintJob now iso receipt type with
            | Ok result => (result, printQueue)
            | Throw m => (Refused 400 m iso, printQueue)
            end
      end
  end.

(** The number a decimal literal of the source denotes. *)
Variable literal : Z -> num.

(** The five test routes, lines 367-526: [/test-print],
    [/test-transfer], [/test-shift-closure], [/test-shift-handoff] and
    [/test-cash-expense]. *)
Inductive TestRoute : Type :=
| TestPrint
| TestTransfer
| TestShiftClosure
| TestShiftHandoff
| TestCashExpense.

(** The tag each test route hands to [processPrintJob], lines 396, 424,
    457, 486 and 515. *)
Definition testType (route : TestRoute) : string :=
  match route with
  | TestPrint => "sales"
  | TestTransfer => "cash_transfer"
  | TestShiftClosure => "shift_closure"
  | TestShiftHandoff => "shift_handoff"
  | TestCashExpense => "cash_expense"
  end.

(** [iso.split('T')[0]], line 441: the text before the first [T]. *)
Fixpoint beforeT (iso : string) : string :=
  match iso with
  | EmptyString => ""
  | String c rest =>
      if Ascii.eqb c "T" then "" else String c (beforeT rest)
  end.

(** The receipt each test route builds, lines 369-394, 411-422, 437-455,
    470-484 and 499-513; [date] and [printTime] are the two readings of
    [new Date().toISOString()] of the object literal. *)
Definition testReceipt (route : TestRoute) (date printTime : string)
  : Receipt :=
  match route with
  | TestPrint =>
      {| fields :=
           [("orderNumber", PStr "DEV-001");
            ("date", PStr date);
            ("cashier", PStr "Development User");
            ("items",
             PArr [PObj [("name", PStr ("Bu" ++ String "241" "uelo tradicional"));
                         ("quantity", PNum (literal 2));
                         ("price", PNum (literal 1500));
                         ("total", PNum (literal 3000))];
                   PObj [("name", PStr ("Caf" ++ String "233" " con leche"));
                         ("quantity", PNum (literal 1));
                         ("price", PNum (literal 800));
                         ("total", PNum (literal 800))]]);
            ("subtotal", PNum (literal 3800));
            ("tax", PNum (literal 304));
            ("total", PNum (literal 4104));
            ("paymentMethod", PStr "cash");
            ("tendered", PNum (literal 5000));
            ("change", PNum (literal 896))] |}
  | TestTransfer =>
      {| fields :=
           [("transferId", PStr "DEV-TRANS-001");
            ("date", PStr date);
            ("shiftInfo", PStr "Development Shift");
            ("senderName", PStr ("Juan P" ++ String "233" "rez"));
            ("receiverName", PStr ("Mar" ++ String "237" ("a Garc" ++ String "237" "a")));
            ("amount", PNum (literal 1250000));
            ("notes", PStr "Development transfer for testing");
            ("locationName", PStr ("Bu" ++ String "241" "uelisimo - Development"));
            ("printTime", PStr printTime)] |}
  | TestShiftClosure =>
      {| fields :=
           [("shiftId", PStr "DEV-SHIFT-001");
            ("shiftType", PStr "Development Turno");
            ("shiftDate", PStr (beforeT date));
            ("cashierName", PStr ("Ana L" ++ String "243" "pez"));
            ("startTime", PStr "09:00");
            ("endTime", PStr "17:00");
            ("startingCash", PNum (literal 500000));
            ("endingCashExpected", PNum (literal 1350000));
            ("endingCashCounted", PNum (literal 1348000));
            ("variance", PNum (literal (-2000)));
            ("shiftSales", PNum (literal 850000));
            ("transfersOut", PNum (literal 800000));
            ("locationName", PStr ("Bu" ++ String "241" "uelisimo - Development"));
            ("printTime", PStr printTime)] |}
  | TestShiftHandoff =>
      {| fields :=
           [("handoffId", PStr "DEV-HAND-001");
            ("handoffDate", PStr date);
            ("outgoingCashier", PStr "Carlos Ruiz");
            ("incomingCashier", PStr "Laura Silva");
            ("handoffAmount", PNum (literal 548000));
            ("verifiedAmount", PNum (literal 548000));
            ("variance", PNum (literal 0));
            ("status", PStr "VERIFICADO");
            ("locationName", PStr ("Bu" ++ String "241" "uelisimo - Development"));
            ("printTime", PStr printTime)] |}
  | TestCashExpense =>
      {| fields :=
           [("expenseId", PStr "DEV-EXP-001");
            ("cashExpenseId", PStr "DEV-CASH-001");
            ("date", PStr date);
            ("cashierName", PStr ("Roberto D" ++ String "237" "az"));
            ("category", PStr "Desarrollo");
            ("description", PStr "Gasto de desarrollo para testing");
            ("amount", PNum (literal 25000));
            ("shiftInfo", PStr "Development Shift");
            ("locationName", PStr ("Bu" ++ String "241" "uelisimo - Development"));
            ("printTime", PStr printTime)] |}
  end.

(** The handler of a test route: [processPrintJob] on the receipt of the
    route, with neither validation nor the queue; 500 when it throws. *)
Definition test (route : TestRoute) (now date printTime iso : string)
  (printQueue : list DevJob) : Answer * list DevJob :=
  match processPrintJob now iso (testReceipt route date printTime)
          (PStr (testType route)) with
  | Ok result => (result, printQueue)
  | Throw m => (Refused 500 m iso, printQueue)
  end.

(** A call of one of the routes that print, with the times it reads. *)
Inductive Call : Type :=
| PostPrint (now iso : string) (req : Request)
| PostTest (route : TestRoute) (now date printTime iso : string).

Definition isPostPrint (c : Call) : bool :=
  match c with
  | PostPrint _ _ _ => true
  | PostTest _ _ _ _ _ => false
  end.

Definition handle (c : Call) (printQueue : list DevJob)
  : Answer * list DevJob :=
  match c with
  | PostPrint now iso req => print now iso req printQueue
  | PostTest route now date printTime iso =>
      test route now date printTime iso printQueue
  end.

(** Calls served one after the other; the answers and the queue they
    leave. *)
Fixpoint serve (calls : list Call) (printQueue : list DevJob)
  : list Answer * list DevJob :=
  match calls with
  | [] => ([], printQueue)
  | c :: rest =>
      let '(answer, printQueue) := handle c printQueue in
      let '(answers, printQueue) := serve rest printQueue in
      (answer :: answers, printQueue)
  end.

(** The status of an answer. *)
Definition statusOf (a : Answer) : nat :=
  match a with
  | Printed _ _ _ _ => 200
  | Refused statusCode _ _ => statusCode
  end.

End DevServer.

End DevServer.

(** ** What the validation of a sale asks for *)

Module Accepts.
Import ReceiptFormatter POSPrinterService.

Section Accepts.
Context {N : JsNum} {R : JsRuntime}.

(** The four conditions of lines 435-438 on one item. *)
Definition itemOk (item : prim) : bool :=
  (truthy (propOf item "name") && isNumber (propOf item "quantity")
   && isNumber (propOf item "price") && isNumber (propOf item "total"))%bool.

(** The conditions of lines 423-429 on the receipt, and those on each of
    its items. *)
Definition saleOk (receipt : Receipt) : bool :=
  let r := fields receipt in
  (truthy (get r "orderNumber") && truthy (get r "date")
   && negb (itemsMissing (items receipt))
   && isNumber (get r "subtotal") && isNumber (get r "tax")
   && isNumber (get r "total") && truthy (get r "paymentMethod")
   && match items receipt with
      | ItemsArray l | ItemsPrim (PArr l) => List.forallb itemOk l
      | ItemsPrim _ => true
      end)%bool.

End Accepts.

End Accepts.

(** ** What the templates ask for *)

Module Renders.
Import ReceiptFormatter.

Section Renders.
Context {N : JsNum} {R : JsRuntime}.

Definition isString (v : prim) : bool :=
  match v with PStr _ => true | _ => false end.

Definition isOk {A : Type} (r : Result A) : bool :=
  match r with Ok _ => true | Throw _ => false end.

(** [value.toString()] returns: the value is neither [undefined] nor
    [null], and is not, and does not hold in an array, an object with a
    property [toString] of its own. *)
Definition callable (v : prim) : bool :=
  (negb (nullish v) && coercible v)%bool.

(** An [items] a [for ... of] can visit: an array or a string. *)
Definition iterable (it : ItemsField) : bool :=
  match it with
  | ItemsArray _ | ItemsPrim (PArr _) => true
  | ItemsPrim (PStr _) => true
  | ItemsPrim _ => false
  end.

(** How a template uses a property of the receipt: handed to
    [formatLine] as it is; converted to a string by [formatDate] or by a
    template literal; or handed to [formatLine] only if it is truthy. *)
Inductive Use : Type := Called | Converted | IfTruthy.

(** The use does not throw on [v]. *)
Definition meets (use : Use) (v : prim) : bool :=
  match use with
  | Called => callable v
  | Converted => coercible v
  | IfTruthy => (negb (truthy v) || coercible v)%bool
  end.

(** The properties each template of an internal receipt prints other
    than through [formatCurrency], with their use, in the order of the
    lines: lines 196-206 and 218 / 249-256 / 294-309 / 338-347 of
    receiptFormatter.js. *)
Definition printed (type : string) : list (Use * string) :=
  if String.eqb type "cash_transfer"
  then [(Called, "transferId"); (IfTruthy, "shiftInfo"); (Converted, "date");
        (Called, "senderName"); (Called, "receiverName");
        (IfTruthy, "notes")]
  else if String.eqb type "shift_closure"
  then [(Called, "shiftId"); (Called, "shiftType"); (Called, "shiftDate");
        (Converted, "startTime"); (Converted, "endTime");
        (Called, "cashierName")]
  else if String.eqb type "shift_handoff"
  then [(Called, "handoffId"); (Converted, "handoffDate");
        (Called, "outgoingCashier"); (Called, "incomingCashier");
        (Called, "status")]
  else if String.eqb type "cash_expense"
  then [(Called, "cashExpenseId"); (Called, "expenseId");
        (Called, "shiftInfo"); (Converted, "date"); (Called, "cashierName");
        (Called, "category"); (Called, "description")]
  else [].

(** Every use of [uses] is met by the property of [o] it names. *)
Definition allMet (o : obj) (uses : list (Use * string)) : bool :=
  List.forallb (fun use => meets (fst use) (get o (snd use))) uses.

(** The loop of lines 124-128 does not throw on [item]: it is not
    [null], and its name and its quantity convert to strings. *)
Definition itemRenders (item : prim) : bool :=
  (negb (nullish item) && coercible (propOf item "name")
   && coercible (propOf item "quantity"))%bool.

(** Nothing the sales template does, lines 114-162, throws on the
    receipt. *)
Definition salesRenders (receipt : Receipt) : bool :=
  let r := fields receipt in
  (meets Called (get r "orderNumber")
   && (meets Converted (get r "date")
   && (meets IfTruthy (get r "cashier")
   && (match iterate (items receipt) with
       | Ok l => List.forallb itemRenders l
       | Throw _ => false
       end
   && (meets IfTruthy (get r "tax")
   && (isString (get r "paymentMethod")
   && (negb (strictEqStr (get r "paymentMethod") "transfer")
       || meets IfTruthy (get r "transferReference"))))))))%bool.

(** An item that is an object of scalars, or a scalar. *)
Definition flatItem (item : prim) : bool :=
  match item with
  | PObj o => List.forallb (fun binding => scalar (snd binding)) o
  | _ => scalar item
  end.

(** A receipt of scalars: every property is a string, a number, a
    boolean or [null], but for [items], which may also be an array of
    flat items. *)
Definition flat (receipt : Receipt) : bool :=
  List.forallb
    (fun binding =>
       if String.eqb (fst binding) "items"
       then match snd binding with
            | PArr l => List.forallb flatItem l
            | v => scalar v
            end
       else scalar (snd binding))
    (fields receipt).

End Renders.

End Renders.

(** ** The codes of the preview *)

Module Codes.
Import ReceiptFormatter.

(** The fourteen codes that [stripEscPosCodes] (lines 424-437) and
    [listEscPosCodes] (lines 444-457) go through, in the order of both:
    the bytes, the tag that replaces them and the name they are listed
    under. *)
Definition codeTable : list (string * string * string) :=
  [((ESC ++ "@")%string, "[INIT]", "INIT (\x1B@)");
   ((ESC ++ "!" ++ NUL)%string, "[NORMAL]", "NORMAL_FONT (\x1B!\x00)");
   ((ESC ++ "!" ++ SOH)%string, "[SMALL]", "SMALL_FONT (\x1B!\x01)");
   ((ESC ++ "!8")%string, "[NORMAL38]", "NORMAL38_FONT (\x1B!\x38)");
   ((ESC ++ "E" ++ SOH)%string, "[BOLD-ON]", "BOLD_ON (\x1BE\x01)");
   ((ESC ++ "E" ++ NUL)%string, "[BOLD-OFF]", "BOLD_OFF (\x1BE\x00)");
   ((ESC ++ "a" ++ SOH)%string, "[CENTER-ON]", "CENTER_ON (\x1Ba\x01)");
   ((ESC ++ "a" ++ NUL)%string, "[CENTER-OFF]", "CENTER_OFF (\x1Ba\x00)");
   ((ESC ++ "t" ++ NUL)%string, "[PC437]",
    "CHARSET_PC437 (\x1Bt\x00) + iconv UTF-8→CP437");
   ((ESC ++ "t" ++ String "002" "")%string, "[PC850]",
    "CHARSET_PC850 (\x1Bt\x02)");
   ((ESC ++ "t" ++ String "003" "")%string, "[PC860]",
    "CHARSET_PC860 (\x1Bt\x03)");
   ((ESC ++ "t" ++ String "004" "")%string, "[PC863]",
    "CHARSET_PC863 (\x1Bt\x04)");
   ((ESC ++ "R" ++ String "012" "")%string, "[SPAIN-INTL]",
    "INTERNATIONAL_SPAIN (\x1BR\x0C)");
   ((GS ++ "VA0")%string, "[CUT-PAPER]", "CUT_PAPER (\x1DVA0)")]%list.

(** One step of [listEscPosCodes] and one of [stripEscPosCodes]. *)
Definition listCode (text : string) (codes : list string)
  (code : string * string * string) : list string :=
  let '(pat, _, name) := code in
  if includes text pat then (codes ++ [name])%list else codes.

Definition stripCode (text : string) (code : string * string * string)
  : string :=
  let '(pat, tag, _) := code in replaceAll pat tag text.

(** The codes [formatReceipt] puts around every receipt: lines 36-38 and
    72. *)
Definition frameCodes : list string :=
  ["INIT (\x1B@)"; "NORMAL_FONT (\x1B!\x00)";
   "CHARSET_PC437 (\x1Bt\x00) + iconv UTF-8→CP437";
   "CUT_PAPER (\x1DVA0)"]%list.

End Codes.

(** ** Further sample data *)

Module Sample.
Import ReceiptFormatter POSPrinterService Example.

(** The job a request for [sale n] leaves in the queue while the printer
    is offline at time 5, and the pass that holds it. *)
Definition queuedJob (n : string) : Job :=
  newJob (env offline 5) (sale n) None.

Definition held (n : string) : Drain :=
  {| job := queuedJob n; inner := AwaitPrinters (sale n) None |}.

(** One job queued, and a second request that has arrived and waits for
    the list of printers. *)
Definition oneQueuedOneWaiting : System :=
  Eval vm_compute in
    after (offlineRequest "A" ++ [Submit (sale "B") None])%list.

(** The same once the second request was resumed with the printer still
    offline. *)
Definition bothQueued : System :=
  Eval vm_compute in
    match exec config0 (ResumeRequest 0 (env offline 6)) oneQueuedOneWaiting
    with
    | Some sys => sys
    | None => oneQueuedOneWaiting
    end.

(** The sample sale paid by [method]. *)
Definition paidBy (method : @prim Num_Z) : Receipt :=
  {| fields :=
       [("orderNumber", PStr "A");
        ("date", PStr "2024-08-09T12:04:43.000Z");
        ("subtotal", PNum 25%Z);
        ("tax", PNum 2%Z);
        ("total", PNum 27%Z);
        ("paymentMethod", method);
        ("items", PArr saleItems)]%list |}.

(** The sample sale with the number 1 as its payment method. *)
Definition paidByNumber : Receipt := paidBy (@PNum Num_Z 1%Z).

(** The sample sale with [it] as its [items]. *)
Definition withItems (it : @prim Num_Z) : Receipt :=
  {| fields := (("items", it) :: fields (sale "A"))%list |}.

(** The JSON object with the one property [toString], the number 1: its
    own property hides the method of the prototype. *)
Definition noToString : @prim Num_Z := PObj [("toString", PNum 1%Z)]%list.

(** The sample sale with [n] as its order number. *)
Definition saleNumbered (n : @prim Num_Z) : Receipt :=
  {| fields := (("orderNumber", n) :: fields (sale "A"))%list |}.

(** A cash transfer with every property its validator asks for. *)
Definition validTransfer : Receipt :=
  {| fields :=
       [("transferId", PStr "TR-001");
        ("date", PStr "2024-08-09T12:04:43.000Z");
        ("senderName", PStr "Ana");
        ("receiverName", PStr "Luis");
        ("amount", PNum 50000%Z);
        ("locationName", PStr "Centro");
        ("printTime", PStr "2024-08-09T12:05:00.000Z")]%list |}.

(** The valid transfer with [id] as its [transferId]. *)
Definition transferWithId (id : @prim Num_Z) : Receipt :=
  {| fields := (("transferId", id) :: fields validTransfer)%list |}.

(** A request to the development server for the valid transfer, and the
    job it leaves in the queue. *)
Definition devRequest : DevServer.Request :=
  {| DevServer.body_receipt := Some validTransfer;
     DevServer.body_type := PStr "cash_transfer";
     DevServer.body_printerName := None |}.

Definition devJob : DevServer.DevJob :=
  {| DevServer.dev_receipt := validTransfer;
     DevServer.dev_printerName := None;
     DevServer.dev_type := PStr "cash_transfer" |}.

(** A manager that knows the one printer, online, and an operating
    system whose [lp] accepts every job as job 12 of the printer. *)
Definition manager : PrinterManager.Manager :=
  {| PrinterManager.printers := [rongta online]%list;
     PrinterManager.defaultPrinter := Some "Rongta";
     PrinterManager.cupsAvailable := true |}.

Definition accepting : PrinterManager.Os :=
  {| PrinterManager.os_writeFile := fun _ => Ok tt;
     PrinterManager.os_lp :=
       fun printer _ =>
         PrinterManager.Resolved
           ("request id is " ++ printer ++ "-12 (1 file(s))") "" |}.

(** The printer as a status line of [lpstat] describes it. *)
Definition rongtaSaid (text : string) : PrinterInfo :=
  {| name := "Rongta";
     status := PrinterManager.parsePrinterStatus text;
     isDefault := true;
     model := "Unknown";
     location := "";
     description := "" |}.

(** The validation that finds nothing wrong. *)
Definition accepted : Validation := {| valid := true; errors := [] |}.

(** The bytes a receipt is rendered to, empty when rendering throws. *)
Definition bytesOf (receipt : Receipt) (type : string) : string :=
  match snd (formatReceipt config0 false receipt type) with
  | Ok bytes => bytes
  | Throw _ => ""
  end.

End Sample.

(** * Properties *)

Import ReceiptFormatter POSPrinterService.

(** ** One call of [processPrintJob] *)

Section PrintJob.
Context {N : JsNum} {R : JsRuntime} {D : JsDate}.
Variable config : Config.

(** With the target not online and room in the queue, the job is pushed
    and the queued result returned. *)
Lemma afterPrinters_queued (e : Env) (receipt : Receipt)
  (printerName : option string) (s : Service)
  (printers : list PrinterInfo) (target : PrinterInfo) :
  env_printers e = Ok printers ->
  targetPrinter printers printerName = Some target ->
  isOnline (status target) = false ->
  List.length (printQueue s) < maxQueueSize s ->
  afterPrinters e receipt printerName s =
    (Queued (queuedResult target (S (List.length (printQueue s)))),
     set_printQueue (printQueue s ++ [newJob e receipt printerName])%list s).
Proof.
  intros Hp Ht Hoff Hlen. unfold afterPrinters.
  rewrite Hp, Ht, Hoff. cbn [negb].
  apply Nat.ltb_lt in Hlen. rewrite Hlen.
  cbn [printQueue set_printQueue].
  rewrite List.length_app. cbn [List.length].
  replace (List.length (printQueue s) + 1) with (S (List.length (printQueue s)))
    by lia.
  reflexivity.
Qed.

(** With the target not online and no room, it throws and changes
    nothing. *)
Lemma afterPrinters_full (e : Env) (receipt : Receipt)
  (printerName : option string) (s : Service)
  (printers : list PrinterInfo) (target : PrinterInfo) :
  env_printers e = Ok printers ->
  targetPrinter printers printerName = Some target ->
  isOnline (status target) = false ->
  maxQueueSize s <= List.length (printQueue s) ->
  afterPrinters e receipt printerName s =
    (Rejected "Printer offline and queue is full", s).
Proof.
  intros Hp Ht Hoff Hlen. unfold afterPrinters.
  rewrite Hp, Ht, Hoff. cbn [negb].
  apply Nat.ltb_ge in Hlen. rewrite Hlen. reflexivity.
Qed.

(** With the target online, nothing is decided before the spooler. *)
Lemma afterPrinters_online (e : Env) (receipt : Receipt)
  (printerName : option string) (s : Service)
  (printers : list PrinterInfo) (target : PrinterInfo) :
  env_printers e = Ok printers ->
  targetPrinter printers printerName = Some target ->
  isOnline (status target) = true ->
  afterPrinters e receipt printerName s = (Proceed target, s).
Proof.
  intros Hp Ht Hon. unfold afterPrinters. rewrite Hp, Ht, Hon. reflexivity.
Qed.

(** The decimal form of the position of a job pushed on a queue that is
    not full. *)
Lemma nat_toString_position (n : nat) :
  n < 10 ->
  nat_toString (S n)
  = List.nth n ["1"; "2"; "3"; "4"; "5"; "6"; "7"; "8"; "9"; "10"]%list "".
Proof.
  intros H. do 10 (destruct n as [|n]; [reflexivity|]). lia.
Qed.

(** (C4) Whenever the printer [processPrintJob] resolves is not online:
    with fewer than 10 jobs queued, the job made of the receipt, the
    printer name of the call and the current time is appended to the
    queue, no other field of the service changes, no pass is started,
    and the result is the queued one: [success] false, [queued] true,
    the name of the resolved printer, and a message giving as position
    the new length of the queue, 1 for the first job up to 10 for the
    tenth; with 10 jobs queued the call fails with the queue-full error
    and the service is unchanged. *)
Theorem offline_enqueue_or_full
  (e : Env) (receipt : Receipt) (printerName : option string) (s : Service)
  (printers : list PrinterInfo) (target : PrinterInfo) :
  env_printers e = Ok printers ->
  targetPrinter printers printerName = Some target ->
  isOnline (status target) = false ->
  maxQueueSize s = 10 ->
  (List.length (printQueue s) < 10 ->
   processPrintJob config e receipt printerName s =
     (Ok {| success := false;
            message :=
              "Printer offline, queued for printing. Queue position: "
              ++ List.nth (List.length (printQueue s))
                   ["1"; "2"; "3"; "4"; "5"; "6"; "7"; "8"; "9"; "10"]%list
                   "";
            printerId := name target;
            queued := Some true;
            timestamp := None |},
      {| printQueue :=
           (printQueue s
            ++ [{| receipt := receipt;
                   printerName := printerName;
                   enqueuedAt := env_now e |}])%list;
         maxQueueSize := 10;
         isProcessingQueue := isProcessingQueue s;
         startTime := startTime s;
         lastPrintTime := lastPrintTime s |},
      None)
   /\ processPrintJob config e receipt printerName s =
        (Ok (queuedResult target (S (List.length (printQueue s)))),
         set_printQueue (printQueue s ++ [newJob e receipt printerName])%list
           s,
         None))
  /\ (List.length (printQueue s) = 9 ->
      exists result s',
        processPrintJob config e receipt printerName s = (Ok result, s', None)
        /\ List.length (printQueue s') = 10
        /\ message result =
             "Printer offline, queued for printing. Queue position: 10")
  /\ (List.length (printQueue s) = 10 ->
      processPrintJob config e receipt printerName s =
        (Throw "Printer offline and queue is full", s, None)).
Proof.
  intros Hp Ht Hoff Hmax. split; [|split].
  - intros Hlen. unfold processPrintJob.
    rewrite (afterPrinters_queued e receipt printerName s printers target)
      by (try assumption; lia).
    split; [|reflexivity].
    unfold queuedResult, newJob, set_printQueue.
    rewrite (nat_toString_position _ Hlen), Hmax. reflexivity.
  - intros Hlen. unfold processPrintJob.
    rewrite (afterPrinters_queued e receipt printerName s printers target)
      by (try assumption; lia).
    eexists. eexists. split; [reflexivity|]. split.
    + cbn [printQueue set_printQueue]. rewrite List.length_app.
      cbn [List.length]. lia.
    + rewrite Hlen. reflexivity.
  - intros Hlen. unfold processPrintJob.
    rewrite (afterPrinters_full e receipt printerName s printers target)
      by (try assumption; lia).
    reflexivity.
Qed.

(** The spooler rejecting the job ends the activation with its error and
    leaves the service as it was. *)
Lemma afterSpooler_rejected (e : Env) (receipt : Receipt)
  (target : PrinterInfo) (s : Service) (formatted reason : string) :
  snd (formatReceipt config (env_logo e) receipt "sales") = Ok formatted ->
  env_print e formatted (name target) = Throw reason ->
  afterSpooler config e receipt target s = (Throw reason, s, None).
Proof.
  intros Hf Hp. unfold afterSpooler. rewrite Hf, Hp. reflexivity.
Qed.

(** (C5) Whenever the resolved printer is online and the spooler rejects
    the rendered receipt, [processPrintJob] throws the spooler's error,
    the service is exactly as before the call (nothing is queued), no
    drain pass is started, and the activation is over: nothing is left
    that could submit the job again.  [POST /print] reports the error to
    the caller with status 500. *)
Theorem spooler_failure_reported
  (e : Env) (receipt : Receipt) (printerName : option string) (s : Service)
  (printers : list PrinterInfo) (target : PrinterInfo)
  (formatted reason : string) :
  env_printers e = Ok printers ->
  targetPrinter printers printerName = Some target ->
  isOnline (status target) = true ->
  snd (formatReceipt config (env_logo e) receipt "sales") = Ok formatted ->
  env_print e formatted (name target) = Throw reason ->
  processPrintJob config e receipt printerName s = (Throw reason, s, None)
  /\ resume config e (AwaitPrinters receipt printerName) s =
       (Suspended (AwaitSpooler receipt printerName target), s, None)
  /\ resume config e (AwaitSpooler receipt printerName target) s =
       (Completed (Throw reason), s, None)
  /\ (forall (now : string) (v : Validation),
        printerName = None ->
        validateReceiptData (Some receipt) = Ok v ->
        valid v = true ->
        printRoute config e now (Some receipt) s =
          ({| statusCode := 500; body := ErrorBody reason now |}, s, None)).
Proof.
  intros Hp Ht Hon Hf Hs.
  assert (Hrun : processPrintJob config e receipt printerName s
                 = (Throw reason, s, None)).
  { unfold processPrintJob.
    rewrite (afterPrinters_online e receipt printerName s printers target)
      by assumption.
    now apply afterSpooler_rejected with (formatted := formatted). }
  split; [exact Hrun|]. split; [|split].
  - cbn [resume].
    rewrite (afterPrinters_online e receipt printerName s printers target)
      by assumption.
    reflexivity.
  - cbn [resume].
    rewrite (afterSpooler_rejected e receipt target s formatted reason)
      by assumption.
    reflexivity.
  - intros now v Hname Hv Hvalid. subst printerName. unfold printRoute.
    rewrite Hv, Hvalid. cbn [negb]. rewrite Hrun. reflexivity.
Qed.

(** [find] answers [None] exactly when no element passes the test. *)
Lemma find_none_forall {A : Type} (f : A -> bool) (l : list A) :
  (forall x, List.In x l -> f x = false) -> List.find f l = None.
Proof.
  induction l as [|a l IH]; intros H; [reflexivity|].
  cbn [List.find]. rewrite (H a (or_introl eq_refl)).
  apply IH. intros x Hx. apply H. now right.
Qed.

(** [find] answers the first element that passes the test. *)
Lemma find_first {A : Type} (f : A -> bool) (before after : list A) (x : A) :
  (forall y, List.In y before -> f y = false) ->
  f x = true ->
  List.find f (before ++ x :: after)%list = Some x.
Proof.
  induction before as [|a l IH]; intros H Hx; cbn [List.app List.find].
  - now rewrite Hx.
  - rewrite (H a (or_introl eq_refl)). apply IH; [|assumption].
    intros y Hy. apply H. now right.
Qed.

(** A name that no printer of the snapshot bears resolves to nothing. *)
Lemma targetPrinter_unknown (printers : list PrinterInfo) (n : string) :
  n <> "" ->
  (forall p, List.In p printers -> name p <> n) ->
  targetPrinter printers (Some n) = None.
Proof.
  intros Hn H. unfold targetPrinter.
  apply String.eqb_neq in Hn. rewrite Hn.
  apply find_none_forall. intros p Hp. apply String.eqb_neq. now apply H.
Qed.

(** (C3, as the code has it) A call whose printer name matches no printer
    of the snapshot fails with the error [No printers available], the
    very error of a call on an empty snapshot, and leaves the service
    unchanged; a call without a name (absent or empty) resolves to the
    first printer flagged default, and to the first printer of the
    snapshot when none is flagged. *)
Theorem unknown_printer_rejected
  (e : Env) (receipt : Receipt) (n : string) (s : Service)
  (printers : list PrinterInfo) :
  env_printers e = Ok printers ->
  n <> "" ->
  (forall p, List.In p printers -> name p <> n) ->
  processPrintJob config e receipt (Some n) s =
    (Throw "No printers available", s, None)
  /\ (forall (e0 : Env) (printerName : option string),
        env_printers e0 = Ok []%list ->
        processPrintJob config e0 receipt printerName s =
          (Throw "No printers available", s, None))
  /\ (forall (printerName : option string) (before after : list PrinterInfo)
             (p : PrinterInfo),
        printerName = None \/ printerName = Some "" ->
        (forall q, List.In q before -> isDefault q = false) ->
        isDefault p = true ->
        targetPrinter (before ++ p :: after)%list printerName = Some p)
  /\ (forall (printerName : option string) (snapshot : list PrinterInfo),
        printerName = None \/ printerName = Some "" ->
        (forall q, List.In q snapshot -> isDefault q = false) ->
        targetPrinter snapshot printerName = List.hd_error snapshot).
Proof.
  intros Hp Hn Hnone. repeat split.
  - unfold processPrintJob, afterPrinters.
    rewrite Hp, (targetPrinter_unknown printers n Hn Hnone). reflexivity.
  - intros e0 printerName He0. unfold processPrintJob, afterPrinters.
    rewrite He0. destruct printerName as [m|]; cbn [targetPrinter].
    + destruct (String.eqb m ""); reflexivity.
    + reflexivity.
  - intros printerName before after p Hname Hbefore Hdef.
    assert (Hd : defaultPrinter (before ++ p :: after)%list = Some p).
    { unfold defaultPrinter. now rewrite (find_first isDefault before after p). }
    destruct Hname as [-> | ->]; cbn [targetPrinter]; [|cbn]; exact Hd.
  - intros printerName snapshot Hname Hnodef.
    assert (Hd : defaultPrinter snapshot = List.hd_error snapshot).
    { unfold defaultPrinter. now rewrite (find_none_forall isDefault snapshot). }
    destruct Hname as [-> | ->]; cbn [targetPrinter]; [|cbn]; exact Hd.
Qed.

(** What one call of [processPrintJob] changes, by outcome: an error
    changes nothing; a queued result changes the queue only; a printed
    result sets [lastPrintTime]. *)
Lemma processPrintJob_outcomes (e : Env) (receipt : Receipt)
  (printerName : option string) (s s' : Service) (r : Result PrintResult)
  (started : option Drain) :
  processPrintJob config e receipt printerName s = (r, s', started) ->
  match r with
  | Throw _ => s' = s /\ started = None
  | Ok result =>
      if success result
      then (s', started) =
             (if negb (isProcessingQueue s)
              then processQueue_start
                     (set_lastPrintTime (Some (env_iso e)) s)
              else (set_lastPrintTime (Some (env_iso e)) s, None))
      else s' = set_printQueue (printQueue s') s /\ started = None
           /\ queued result = Some true
  end.
Proof.
  unfold processPrintJob, afterPrinters.
  destruct (env_printers e) as [printers|m].
  2:{ intros H; inversion H; subst. now split. }
  destruct (targetPrinter printers printerName) as [target|].
  2:{ intros H; inversion H; subst. now split. }
  destruct (negb (isOnline (status target))).
  - destruct (Nat.ltb (List.length (printQueue s)) (maxQueueSize s)).
    + intros H; inversion H; subst. cbn. repeat split.
    + intros H; inversion H; subst. now split.
  - unfold afterSpooler.
    destruct (snd (formatReceipt config (env_logo e) receipt "sales")) as [f|m].
    2:{ intros H; inversion H; subst. now split. }
    destruct (env_print e f (name target)) as [u|m].
    2:{ intros H; inversion H; subst. now split. }
    cbn [isProcessingQueue set_lastPrintTime].
    destruct (negb (isProcessingQueue s)).
    + destruct (processQueue_start (set_lastPrintTime (Some (env_iso e)) s))
        as [s2 st].
      intros H; inversion H; subst. reflexivity.
    + intros H; inversion H; subst. reflexivity.
Qed.

(** [processQueue()] either returns at once, changing nothing, or it
    finds the flag clear and a job [j] at the head of the queue, sets the
    flag, shifts [j] and suspends on its activation. *)
Lemma processQueue_start_cases (s : Service) :
  processQueue_start s = (s, None)
  \/ exists (j : Job) (rest : list Job),
       isProcessingQueue s = false
       /\ printQueue s = (j :: rest)%list
       /\ processQueue_start s =
            (set_printQueue rest (set_isProcessingQueue true s),
             Some {| job := j;
                     inner := AwaitPrinters (receipt j) (printerName j) |}).
Proof.
  unfold processQueue_start, drainLoop.
  destruct (isProcessingQueue s) eqn:Hflag; cbn [orb]; [now left|].
  destruct (printQueue s) as [|j rest] eqn:Hq; cbn [List.length Nat.eqb];
    [now left|].
  right. exists j, rest. cbn [printQueue set_isProcessingQueue].
  rewrite Hq. repeat split.
Qed.

(** [spoolerAccepts] says that every step up to the spooler succeeded
    and [printerManager.print] resolved. *)
Lemma spoolerAccepts_iff (e : Env) (receipt : Receipt)
  (printerName : option string) :
  Pending.spoolerAccepts config e receipt printerName = true
  <-> exists (printers : list PrinterInfo) (target : PrinterInfo)
             (formattedReceipt : string),
        env_printers e = Ok printers
        /\ targetPrinter printers printerName = Some target
        /\ isOnline (status target) = true
        /\ snd (formatReceipt config (env_logo e) receipt "sales")
           = Ok formattedReceipt
        /\ env_print e formattedReceipt (name target) = Ok tt.
Proof.
  unfold Pending.spoolerAccepts. split.
  - destruct (env_printers e) as [printers|m] eqn:Hp; [|discriminate].
    destruct (targetPrinter printers printerName) as [target|] eqn:Ht;
      [|discriminate].
    destruct (isOnline (status target)) eqn:Hon; [|discriminate].
    destruct (snd (formatReceipt config (env_logo e) receipt "sales"))
      as [f|m] eqn:Hf; [|discriminate].
    destruct (env_print e f (name target)) as [[]|m] eqn:Hprint;
      [|discriminate].
    intros _. exists printers, target, f. repeat split; assumption.
  - intros (printers & target & f & -> & -> & -> & -> & ->). reflexivity.
Qed.

(** One call of [processPrintJob], by whether the spooler accepts the
    job: if it does, the result is the printed one, [lastPrintTime] is
    the current time, and [processQueue()] is called when the flag is
    clear; if it does not, the result is an error or the queued one,
    and only the queue can have changed. *)
Lemma processPrintJob_spooler (e : Env) (receipt : Receipt)
  (printerName : option string) (s : Service) :
  if Pending.spoolerAccepts config e receipt printerName
  then exists target : PrinterInfo,
         let s1 := set_lastPrintTime (Some (env_iso e)) s in
         let after := if negb (isProcessingQueue s)
                      then processQueue_start s1 else (s1, None) in
         processPrintJob config e receipt printerName s
         = (Ok (printedResult target (fst after)), fst after, snd after)
  else exists (r : Result PrintResult) (queue : list Job),
         processPrintJob config e receipt printerName s
         = (r, set_printQueue queue s, None)
         /\ match r with
            | Ok result => success result = false
            | Throw _ => queue = printQueue s
            end.
Proof.
  unfold Pending.spoolerAccepts, processPrintJob, afterPrinters.
  destruct (env_printers e) as [printers|m].
  2:{ exists (Throw m), (printQueue s). destruct s; now split. }
  destruct (targetPrinter printers printerName) as [target|].
  2:{ eexists (Throw _), (printQueue s). destruct s; now split. }
  destruct (isOnline (status target)); cbn [negb andb].
  - unfold afterSpooler.
    destruct (snd (formatReceipt config (env_logo e) receipt "sales"))
      as [f|m].
    2:{ exists (Throw m), (printQueue s). destruct s; now split. }
    destruct (env_print e f (name target)) as [u|m].
    2:{ exists (Throw m), (printQueue s). destruct s; now split. }
    exists target. cbn [isProcessingQueue set_lastPrintTime].
    destruct (negb (isProcessingQueue s)); [|reflexivity].
    destruct (processQueue_start (set_lastPrintTime (Some (env_iso e)) s));
      reflexivity.
  - destruct (Nat.ltb (List.length (printQueue s)) (maxQueueSize s)).
    + eexists (Ok _), _. split; [reflexivity|]. reflexivity.
    + eexists (Throw _), (printQueue s). destruct s; now split.
Qed.

(** (C9, as the code has it) One call of [processPrintJob] sets
    [lastPrintTime] to the current time exactly when the spooler accepts
    the job, that is when the printers are listed, the target is found
    and online, the receipt is rendered and [printerManager.print]
    resolves on the rendered bytes; the result is then the printed one,
    and on every other outcome the result is an error or the queued one
    and [lastPrintTime] is what it was.  The call never changes
    [maxQueueSize] or [startTime].  It starts a drain pass exactly when
    the spooler accepts the job while the flag is clear and the queue is
    not empty, and the draining flag is set exactly then: after the call
    the flag is set when it was set before or a pass was started, and
    clear otherwise. *)
Theorem lastPrintTime_frame
  (e : Env) (receipt : Receipt) (printerName : option string)
  (s s' : Service) (r : Result PrintResult) (started : option Drain) :
  processPrintJob config e receipt printerName s = (r, s', started) ->
  maxQueueSize s' = maxQueueSize s
  /\ startTime s' = startTime s
  /\ lastPrintTime s'
     = (if Pending.spoolerAccepts config e receipt printerName
        then Some (env_iso e) else lastPrintTime s)
  /\ (Pending.spoolerAccepts config e receipt printerName = true
      <-> exists (printers : list PrinterInfo) (target : PrinterInfo)
                 (formattedReceipt : string),
            env_printers e = Ok printers
            /\ targetPrinter printers printerName = Some target
            /\ isOnline (status target) = true
            /\ snd (formatReceipt config (env_logo e) receipt "sales")
               = Ok formattedReceipt
            /\ env_print e formattedReceipt (name target) = Ok tt)
  /\ (Pending.spoolerAccepts config e receipt printerName = true
      <-> exists result : PrintResult, r = Ok result /\ success result = true)
  /\ (started <> None
      <-> Pending.spoolerAccepts config e receipt printerName = true
          /\ isProcessingQueue s = false
          /\ printQueue s <> []%list)
  /\ isProcessingQueue s'
     = (isProcessingQueue s
        || (Pending.spoolerAccepts config e receipt printerName
            && negb (Nat.eqb (List.length (printQueue s)) 0)))%bool
  /\ match r with
     | Ok result =>
         if success result
         then lastPrintTime s' = Some (env_iso e)
              /\ (isProcessingQueue s' = isProcessingQueue s \/ started <> None)
              /\ (started <> None ->
                  isProcessingQueue s = false /\ isProcessingQueue s' = true)
         else lastPrintTime s' = lastPrintTime s
              /\ isProcessingQueue s' = isProcessingQueue s
              /\ started = None
     | Throw _ =>
         lastPrintTime s' = lastPrintTime s
         /\ isProcessingQueue s' = isProcessingQueue s
         /\ printQueue s' = printQueue s
         /\ started = None
     end.
Proof.
  intros H.
  assert (Hold :
    maxQueueSize s' = maxQueueSize s
    /\ startTime s' = startTime s
    /\ match r with
       | Ok result =>
           if success result
           then lastPrintTime s' = Some (env_iso e)
                /\ (isProcessingQueue s' = isProcessingQueue s
                    \/ started <> None)
                /\ (started <> None ->
                    isProcessingQueue s = false /\ isProcessingQueue s' = true)
           else lastPrintTime s' = lastPrintTime s
                /\ isProcessingQueue s' = isProcessingQueue s
                /\ started = None
       | Throw _ =>
           lastPrintTime s' = lastPrintTime s
           /\ isProcessingQueue s' = isProcessingQueue s
           /\ printQueue s' = printQueue s
           /\ started = None
       end).
  { pose proof H as H'. apply processPrintJob_outcomes in H'.
    destruct r as [result|m].
    - destruct (success result).
      + destruct (isProcessingQueue s) eqn:Hflag; cbn [negb] in H'.
        * inversion H'; subst. cbn. rewrite Hflag.
          split; [reflexivity|]. split; [reflexivity|].
          split; [reflexivity|]. split; [now left|].
          intros Hc. now elim Hc.
        * destruct (processQueue_start_cases
                      (set_lastPrintTime (Some (env_iso e)) s))
            as [Hsame | (j & rest & _ & _ & Hstart)].
          -- rewrite Hsame in H'. inversion H'; subst. cbn. rewrite Hflag.
             split; [reflexivity|]. split; [reflexivity|].
             split; [reflexivity|]. split; [now left|].
             intros Hc. now elim Hc.
          -- rewrite Hstart in H'. inversion H'; subst. cbn.
             split; [reflexivity|]. split; [reflexivity|].
             split; [reflexivity|]. split; [right; discriminate|].
             intros _. now split.
      + destruct H' as (Hs & Hst & _). rewrite Hs. cbn. repeat split.
        exact Hst.
    - destruct H' as (-> & ->). repeat split. }
  destruct Hold as (Hmax & Hst & Hmatch).
  split; [exact Hmax|]. split; [exact Hst|].
  assert (Hnew :
    lastPrintTime s'
    = (if Pending.spoolerAccepts config e receipt printerName
       then Some (env_iso e) else lastPrintTime s)
    /\ (Pending.spoolerAccepts config e receipt printerName = true
        <-> exists result : PrintResult,
              r = Ok result /\ success result = true)
    /\ (started <> None
        <-> Pending.spoolerAccepts config e receipt printerName = true
            /\ isProcessingQueue s = false
            /\ printQueue s <> []%list)
    /\ isProcessingQueue s'
       = (isProcessingQueue s
          || (Pending.spoolerAccepts config e receipt printerName
              && negb (Nat.eqb (List.length (printQueue s)) 0)))%bool).
  { pose proof (processPrintJob_spooler e receipt printerName s) as Hsp.
    destruct (Pending.spoolerAccepts config e receipt printerName).
    - destruct Hsp as [target Hrun]. cbv zeta in Hrun.
      rewrite Hrun in H. clear Hrun.
      destruct (isProcessingQueue s) eqn:Hflag; cbn [negb fst snd] in H.
      + inversion H; subst. cbn. rewrite Hflag. cbn.
        split; [reflexivity|]. split.
        { split; [intros _; eexists; split; reflexivity | reflexivity]. }
        split; [|reflexivity].
        split; [intros Hc; now elim Hc | intros (_ & Hc & _); discriminate].
      + unfold processQueue_start, drainLoop in H.
        cbn [isProcessingQueue set_lastPrintTime set_isProcessingQueue
             printQueue orb] in H.
        rewrite Hflag in H. cbn [orb] in H.
        destruct (printQueue s) as [|j rest] eqn:Hq;
          cbn [List.length Nat.eqb fst snd negb andb orb] in H |- *.
        * inversion H; subst. cbn. rewrite Hflag.
          split; [reflexivity|]. split.
          { split; [intros _; eexists; split; reflexivity | reflexivity]. }
          split; [|reflexivity].
          split; [intros Hc; now elim Hc | intros (_ & _ & Hc); now elim Hc].
        * inversion H; subst. cbn.
          split; [reflexivity|]. split.
          { split; [intros _; eexists; split; reflexivity | reflexivity]. }
          split; [|reflexivity].
          split; [intros _; repeat split; discriminate | discriminate].
    - destruct Hsp as (r0 & queue & Hrun & Hr0).
      rewrite Hrun in H. inversion H; subst. cbn.
      split; [reflexivity|]. split.
      { split; [discriminate|]. intros (result & -> & Hs).
        rewrite Hs in Hr0. discriminate. }
      split; [|now rewrite Bool.orb_false_r].
      split; [intros Hc; now elim Hc | intros (Hc & _); discriminate]. }
  destruct Hnew as (Hl & Hr & Hs & Hf).
  split; [exact Hl|]. split; [apply spoolerAccepts_iff|].
  split; [exact Hr|]. split; [exact Hs|]. split; [exact Hf|exact Hmatch].
Qed.

(** (C10) Whenever [POST /print] carries a valid receipt, the resolved
    printer is not online and the queue has room, the response has
    status 200 and its body has [success] false together with [queued]
    true. *)
Theorem queued_response_reports_failure
  (e : Env) (now : string) (receipt : Receipt) (s : Service)
  (v : Validation) (printers : list PrinterInfo) (target : PrinterInfo) :
  validateReceiptData (Some receipt) = Ok v ->
  valid v = true ->
  env_printers e = Ok printers ->
  targetPrinter printers None = Some target ->
  isOnline (status target) = false ->
  List.length (printQueue s) < maxQueueSize s ->
  exists (result : PrintResult) (s' : Service),
    printRoute config e now (Some receipt) s =
      ({| statusCode := 200; body := PrintBody result |}, s', None)
    /\ success result = false
    /\ queued result = Some true
    /\ printQueue s' = (printQueue s ++ [newJob e receipt None])%list.
Proof.
  intros Hv Hvalid Hp Ht Hoff Hlen. unfold printRoute.
  rewrite Hv, Hvalid. cbn [negb]. unfold processPrintJob.
  rewrite (afterPrinters_queued e receipt None s printers target)
    by assumption.
  eexists. eexists. split; [reflexivity|]. cbn. repeat split.
Qed.

End PrintJob.

(** ** One drain pass *)

Section DrainPass.
Context {N : JsNum} {R : JsRuntime} {D : JsDate}.
Variable config : Config.

(** The loop only ever suspends on an activation it has just started. *)
Lemma drainLoop_inner (s s' : Service) (d' : Drain) :
  drainLoop s = (s', Some d') ->
  inner d' = AwaitPrinters (receipt (job d')) (printerName (job d'))
  /\ printQueue s = (job d' :: printQueue s')%list
  /\ s' = set_printQueue (printQueue s') s.
Proof.
  unfold drainLoop. destruct (printQueue s) as [|j rest] eqn:Hq.
  - discriminate.
  - intros H; inversion H; subst. cbn. repeat split.
Qed.

Lemma afterAttempt_inner (d : Drain) (r : Result PrintResult)
  (s s' : Service) (d' : Drain) :
  afterAttempt d r s = (s', Some d') ->
  inner d' = AwaitPrinters (receipt (job d')) (printerName (job d')).
Proof.
  unfold afterAttempt. destruct r as [result|m].
  - destruct (queuedAgain result); [discriminate|].
    intros H. now apply drainLoop_inner in H.
  - intros H. now apply drainLoop_inner in H.
Qed.

(** An attempt is the awaited activation run to its completion, followed
    by the rest of the iteration of the loop. *)
Lemma attempt_complete (e : Env) (d : Drain) (s : Service) :
  attempt config e d s =
    let '(r, s', started) := complete config e (inner d) s in
    let '(s'', d') := afterAttempt d r s' in
    (s'', d', started).
Proof.
  unfold attempt, resumeDrain, complete.
  destruct d as [j [receipt printerName | receipt printerName target]];
    cbn [inner job resume].
  - unfold processPrintJob.
    destruct (afterPrinters e receipt printerName s) as [[m | r | target] s'].
    + cbn [afterAttempt]. unfold drainLoop.
      destruct (printQueue s') as [|j' rest]; reflexivity.
    + cbn [afterAttempt job]. destruct (queuedAgain r); [reflexivity|].
      unfold drainLoop. destruct (printQueue s') as [|j' rest]; reflexivity.
    + cbn [inner resume job].
      destruct (afterSpooler config e receipt target s') as [[r s''] started].
      reflexivity.
  - destruct (afterSpooler config e receipt target s) as [[r s'] started].
    destruct (afterAttempt {| job := j;
                              inner := AwaitSpooler receipt printerName target |}
                r s') as [s'' [d'|]] eqn:Ha.
    + rewrite (afterAttempt_inner _ _ _ _ _ Ha). destruct started; reflexivity.
    + reflexivity.
Qed.

(** While the flag is set, the end of [processPrintJob] either throws
    and changes nothing, or records the time of the print and returns the
    printed result; it starts no pass. *)
Lemma afterSpooler_flagged (e : Env) (receipt : Receipt)
  (target : PrinterInfo) (s : Service) :
  isProcessingQueue s = true ->
  (exists m, afterSpooler config e receipt target s = (Throw m, s, None))
  \/ afterSpooler config e receipt target s =
       (Ok (printedResult target (set_lastPrintTime (Some (env_iso e)) s)),
        set_lastPrintTime (Some (env_iso e)) s, None).
Proof.
  intros Hflag. unfold afterSpooler.
  destruct (snd (formatReceipt config (env_logo e) receipt "sales")) as [f|m];
    [|left; now exists m].
  destruct (env_print e f (name target)) as [u|m]; [|left; now exists m].
  right. cbn [isProcessingQueue set_lastPrintTime]. rewrite Hflag. reflexivity.
Qed.

(** The three ways an activation completes while the flag is set: it
    throws and changes nothing; it pushes a copy of its job and returns
    the queued result; it records the time and returns the printed
    result.  It never starts a pass. *)
Lemma complete_flagged (e : Env) (k : PrintJobK) (s : Service) :
  isProcessingQueue s = true ->
  (exists m, complete config e k s = (Throw m, s, None))
  \/ (exists receipt printerName target,
        k = AwaitPrinters receipt printerName
        /\ List.length (printQueue s) < maxQueueSize s
        /\ complete config e k s =
             (Ok (queuedResult target (S (List.length (printQueue s)))),
              set_printQueue
                (printQueue s ++ [newJob e receipt printerName])%list s,
              None))
  \/ (exists target,
        complete config e k s =
          (Ok (printedResult target (set_lastPrintTime (Some (env_iso e)) s)),
           set_lastPrintTime (Some (env_iso e)) s, None)).
Proof.
  intros Hflag. destruct k as [receipt printerName | receipt printerName target];
    cbn [complete].
  - unfold processPrintJob, afterPrinters.
    destruct (env_printers e) as [printers|m]; [|left; now exists m].
    destruct (targetPrinter printers printerName) as [target|];
      [|left; now eexists].
    destruct (negb (isOnline (status target))).
    + destruct (Nat.ltb (List.length (printQueue s)) (maxQueueSize s)) eqn:Hlt;
        [|left; now eexists].
      right; left. exists receipt, printerName, target.
      apply Nat.ltb_lt in Hlt. repeat split; [assumption|].
      cbn [printQueue set_printQueue]. rewrite List.length_app.
      cbn [List.length].
      replace (List.length (printQueue s) + 1)
        with (S (List.length (printQueue s))) by lia.
      reflexivity.
    + destruct (afterSpooler_flagged e receipt target s Hflag) as [[m H]|H];
        rewrite H; [left; now exists m | right; right; now exists target].
  - destruct (afterSpooler_flagged e receipt target s Hflag) as [[m H]|H];
      rewrite H; [left; now exists m | right; right; now exists target].
Qed.

(** The requeue.  When the pass holds the job [j] it shifted and the
    printer of [j] is still not online, with room in the queue, the
    attempt leaves in the queue [j] at the front, the jobs that were
    behind it, and a second copy of [j] at the back; the pass ends and
    the flag is cleared. *)
Lemma attempt_requeue (e : Env) (j : Job) (s : Service)
  (printers : list PrinterInfo) (target : PrinterInfo) :
  env_printers e = Ok printers ->
  targetPrinter printers (printerName j) = Some target ->
  isOnline (status target) = false ->
  List.length (printQueue s) < maxQueueSize s ->
  attempt config e
    {| job := j; inner := AwaitPrinters (receipt j) (printerName j) |} s =
    (set_isProcessingQueue false
       (set_printQueue
          (j :: printQueue s ++ [newJob e (receipt j) (printerName j)])%list s),
     None, None).
Proof.
  intros Hp Ht Hoff Hlen. rewrite attempt_complete. cbn [inner complete].
  unfold processPrintJob.
  rewrite (afterPrinters_queued e (receipt j) (printerName j) s printers target)
    by assumption.
  reflexivity.
Qed.

(** The print.  When the printer of the held job is online and the
    spooler accepts it, the job is gone for good and the pass goes on
    with the job now at the head of the queue, or ends on an empty
    queue. *)
Lemma attempt_printed (e : Env) (j : Job) (s : Service)
  (printers : list PrinterInfo) (target : PrinterInfo) (formatted : string) :
  isProcessingQueue s = true ->
  env_printers e = Ok printers ->
  targetPrinter printers (printerName j) = Some target ->
  isOnline (status target) = true ->
  snd (formatReceipt config (env_logo e) (receipt j) "sales") = Ok formatted ->
  env_print e formatted (name target) = Ok tt ->
  attempt config e
    {| job := j; inner := AwaitPrinters (receipt j) (printerName j) |} s =
    match printQueue s with
    | [] =>
        (set_isProcessingQueue false
           (set_lastPrintTime (Some (env_iso e)) s), None, None)
    | next :: rest =>
        (set_printQueue rest (set_lastPrintTime (Some (env_iso e)) s),
         Some {| job := next;
                 inner := AwaitPrinters (receipt next) (printerName next) |},
         None)
    end.
Proof.
  intros Hflag Hp Ht Hon Hf Hs. rewrite attempt_complete. cbn [inner complete].
  unfold processPrintJob.
  rewrite (afterPrinters_online e (receipt j) (printerName j) s printers target)
    by assumption.
  unfold afterSpooler. rewrite Hf, Hs.
  cbn [isProcessingQueue set_lastPrintTime]. rewrite Hflag. cbn [negb].
  cbn [afterAttempt printedResult queuedAgain success negb andb].
  unfold drainLoop. cbn [printQueue set_lastPrintTime].
  destruct (printQueue s); reflexivity.
Qed.

(** An attempt made while the flag is set either ends the pass, with the
    flag cleared, or leaves it set and goes on with the job that was at
    the head of the queue, the jobs behind it still queued in order. *)
Lemma attempt_progress (e : Env) (d : Drain) (s : Service) :
  isProcessingQueue s = true ->
  exists s',
    (attempt config e d s = (s', None, None)
     /\ isProcessingQueue s' = false)
    \/ (exists d',
          attempt config e d s = (s', Some d', None)
          /\ isProcessingQueue s' = true
          /\ printQueue s = (job d' :: printQueue s')%list).
Proof.
  intros Hflag. rewrite attempt_complete.
  assert (Hloop : forall s0 : Service,
             isProcessingQueue s0 = true ->
             printQueue s0 = printQueue s ->
             exists s',
               (drainLoop s0 = (s', None) /\ isProcessingQueue s' = false)
               \/ (exists d', drainLoop s0 = (s', Some d')
                     /\ isProcessingQueue s' = true
                     /\ printQueue s = (job d' :: printQueue s')%list)).
  { intros s0 Hf0 Hq0. unfold drainLoop.
    destruct (printQueue s0) as [|j rest] eqn:Hq.
    - eexists. left. split; reflexivity.
    - eexists. right. eexists. split; [reflexivity|]. cbn.
      split; [assumption|]. now rewrite <- Hq0. }
  destruct (complete_flagged e (inner d) s Hflag)
    as [[m H] | [(receipt & printerName & target & _ & _ & H) | [target H]]];
    rewrite H.
  - cbn [afterAttempt].
    destruct (Hloop s Hflag eq_refl) as [s' [[H1 H2]|[d' [H1 H2]]]].
    + exists s'. left. now rewrite H1.
    + exists s'. right. exists d'. now rewrite H1.
  - cbn [afterAttempt queuedResult queuedAgain success queued negb andb].
    eexists. left. split; reflexivity.
  - cbn [afterAttempt printedResult queuedAgain success negb andb].
    destruct (Hloop (set_lastPrintTime (Some (env_iso e)) s) Hflag eq_refl)
      as [s' [[H1 H2]|[d' [H1 H2]]]].
    + exists s'. left. now rewrite H1.
    + exists s'. right. exists d'. now rewrite H1.
Qed.

(** A pass given as much fuel as there are jobs, plus one, reaches its
    end, and clears the flag there. *)
Lemma runDrain_total (fuel : nat) (envs : nat -> Env) :
  forall (i : nat) (d : Drain) (s : Service),
    isProcessingQueue s = true ->
    List.length (printQueue s) < fuel ->
    exists s', runDrain config fuel envs i d s = Some s'
               /\ isProcessingQueue s' = false.
Proof.
  induction fuel as [|fuel IH]; intros i d s Hflag Hlen; [lia|].
  cbn [runDrain].
  destruct (attempt_progress (envs i) d s Hflag)
    as [s' [[H1 H2] | [d' (H1 & H2 & H3)]]]; rewrite H1.
  - now exists s'.
  - apply IH; [assumption|]. rewrite H3 in Hlen. cbn in Hlen. lia.
Qed.

(** The order.  The jobs a pass attempts are, in order, the job it
    holds and then the jobs at the head of the queue: it never skips
    one. *)
Lemma attempted_oldest_first (fuel : nat) (envs : nat -> Env) :
  forall (i : nat) (d : Drain) (s : Service),
    isProcessingQueue s = true ->
    exists later : list Job,
      (job d :: printQueue s)%list
      = (attempted config fuel envs i d s ++ later)%list.
Proof.
  induction fuel as [|fuel IH]; intros i d s Hflag; cbn [attempted].
  - now eexists.
  - destruct (attempt_progress (envs i) d s Hflag)
      as [s' [[H1 H2] | [d' (H1 & H2 & H3)]]]; rewrite H1.
    + now eexists.
    + destruct (IH (S i) d' s' H2) as [later Hl].
      exists later. rewrite H3, Hl. reflexivity.
Qed.

(** [processQueue] always reaches its end, and on every exit of a pass
    that started the flag is clear. *)
Lemma processQueue_total (envs : nat -> Env) (s : Service) :
  exists s', processQueue config envs s = Some s'
             /\ (isProcessingQueue s = false -> isProcessingQueue s' = false).
Proof.
  unfold processQueue.
  destruct (processQueue_start_cases s) as [H | (j & rest & Hflag & Hq & H)];
    rewrite H.
  - now exists s.
  - destruct (runDrain_total (S (List.length (printQueue
                 (set_printQueue rest (set_isProcessingQueue true s)))))
                envs 0
                {| job := j;
                   inner := AwaitPrinters (receipt j) (printerName j) |}
                (set_printQueue rest (set_isProcessingQueue true s)))
      as [s' [H1 H2]]; [reflexivity | lia |].
    exists s'. split; [exact H1 | now intros _].
Qed.

(** The requeue, for a whole pass.  A pass that finds the printer of
    the oldest job still not online ends after that one attempt with the
    queue it found, in order, followed by a second copy of the oldest
    job. *)
Lemma processQueue_requeue (envs : nat -> Env) (s : Service) (j : Job)
  (rest : list Job) (printers : list PrinterInfo) (target : PrinterInfo) :
  isProcessingQueue s = false ->
  printQueue s = (j :: rest)%list ->
  env_printers (envs 0) = Ok printers ->
  targetPrinter printers (printerName j) = Some target ->
  isOnline (status target) = false ->
  List.length rest < maxQueueSize s ->
  processQueue config envs s =
    Some (set_printQueue
            (j :: rest ++ [newJob (envs 0) (receipt j) (printerName j)])%list
            s).
Proof.
  intros Hflag Hq Hp Ht Hoff Hlen. unfold processQueue.
  destruct (processQueue_start_cases s) as [H | (j' & rest' & _ & Hq' & H)].
  - unfold processQueue_start in H. rewrite Hflag, Hq in H. cbn in H.
    unfold drainLoop in H. cbn in H. rewrite Hq in H. discriminate H.
  - rewrite Hq in Hq'. inversion Hq'; subst j' rest'. rewrite H.
    cbn [runDrain].
    rewrite (attempt_requeue (envs 0) j _ printers target Hp Ht Hoff)
      by exact Hlen.
    f_equal. destruct s; cbn in *. now subst.
Qed.

(** One turn of the loop of [runDrain] and of [attempted]. *)
Lemma runDrain_S (fuel : nat) (envs : nat -> Env) (i : nat) (d : Drain)
  (s : Service) :
  runDrain config (S fuel) envs i d s =
    match attempt config (envs i) d s with
    | (s', Some d', _) => runDrain config fuel envs (S i) d' s'
    | (s', None, _) => Some s'
    end.
Proof. reflexivity. Qed.

Lemma attempted_S (fuel : nat) (envs : nat -> Env) (i : nat) (d : Drain)
  (s : Service) :
  attempted config (S fuel) envs i d s =
    (job d ::
     match attempt config (envs i) d s with
     | (s', Some d', _) => attempted config fuel envs (S i) d' s'
     | (_, None, _) => []
     end)%list.
Proof. reflexivity. Qed.

(** A pass during which every job can be printed attempts the job it
    holds and then every queued job, oldest first, and ends with the
    queue empty and the flag clear. *)
Lemma runDrain_prints_all (envs : nat -> Env) :
  forall (rest : list Job) (i : nat) (j : Job) (s : Service),
    isProcessingQueue s = true ->
    printQueue s = rest ->
    (forall (k : nat) (j' : Job),
        List.In j' (j :: rest) -> printable config (envs k) j') ->
    exists s',
      runDrain config (S (List.length rest)) envs i
        {| job := j; inner := AwaitPrinters (receipt j) (printerName j) |} s
      = Some s'
      /\ printQueue s' = []%list
      /\ isProcessingQueue s' = false
      /\ attempted config (S (List.length rest)) envs i
           {| job := j; inner := AwaitPrinters (receipt j) (printerName j) |} s
         = (j :: rest)%list.
Proof.
  induction rest as [|next rest IH]; intros i j s Hflag Hq Hall;
    rewrite runDrain_S, attempted_S;
    destruct (Hall i j (or_introl eq_refl))
      as (printers & target & formatted & Hp & Ht & Hon & Hf & Hs);
    rewrite (attempt_printed (envs i) j s printers target formatted
               Hflag Hp Ht Hon Hf Hs), Hq.
  - eexists. repeat split. cbn. exact Hq.
  - destruct (IH (S i) next
                (set_printQueue rest
                   (set_lastPrintTime (Some (env_iso (envs i))) s)))
      as (s' & Hrun & Hempty & Hclear & Hatt).
    + exact Hflag.
    + reflexivity.
    + intros k j' Hin. apply Hall. now right.
    + exists s'. change (List.length (next :: rest)) with (S (List.length rest)).
      rewrite Hrun, Hatt. repeat split; assumption.
Qed.

(** From an idle service whose every queued job can be printed,
    [processQueue] prints them all, oldest first, and leaves the queue
    empty. *)
Lemma processQueue_prints_all (envs : nat -> Env) (s : Service) :
  isProcessingQueue s = false ->
  (forall (k : nat) (j : Job),
      List.In j (printQueue s) -> printable config (envs k) j) ->
  exists s',
    processQueue config envs s = Some s'
    /\ printQueue s' = []%list
    /\ isProcessingQueue s' = false.
Proof.
  intros Hflag Hall. unfold processQueue.
  destruct (processQueue_start_cases s) as [H | (j & rest & _ & Hq & H)];
    rewrite H.
  - exists s. split; [reflexivity|]. split; [|exact Hflag].
    unfold processQueue_start, drainLoop in H. rewrite Hflag in H.
    cbn [orb printQueue set_isProcessingQueue] in H.
    destruct (printQueue s) as [|j rest]; [reflexivity|].
    cbn in H. discriminate H.
  - rewrite Hq in Hall. cbn [printQueue set_printQueue].
    destruct (runDrain_prints_all envs rest 0 j
                (set_printQueue rest (set_isProcessingQueue true s))
                eq_refl eq_refl Hall) as (s' & Hrun & Hempty & Hclear & _).
    now exists s'.
Qed.

End DrainPass.

(** ** The service under interleaving *)

Section Interleaving.
Context {N : JsNum} {R : JsRuntime} {D : JsDate}.
Variable config : Config.

Lemma nth_error_firstn_skipn {A : Type} (l : list A) :
  forall (i : nat) (x : A),
    List.nth_error l i = Some x ->
    l = (List.firstn i l ++ x :: List.skipn (S i) l)%list.
Proof.
  induction l as [|a l IH]; intros [|i] x H; cbn in H; try discriminate.
  - inversion H; subst. reflexivity.
  - cbn [List.firstn List.skipn List.app]. f_equal. now apply IH.
Qed.

(** Every named turn is a turn of the event loop. *)
Lemma exec_step (ev : Event) (sys sys' : System) :
  exec config ev sys = Some sys' -> step config sys sys'.
Proof.
  destruct ev as [receipt printerName | i e | i e | refreshed]; cbn [exec].
  - intros H; inversion H; subst. apply step_submit.
  - destruct (List.nth_error (requests sys) i) as [k|] eqn:Hk; [|discriminate].
    destruct (resume config e k (service sys)) as [[p s'] started] eqn:Hr.
    intros H; inversion H; subst.
    apply (step_request config sys e (List.firstn i (requests sys))
             (List.skipn (S i) (requests sys)) k p s' started);
      [now apply nth_error_firstn_skipn | exact Hr].
  - destruct (List.nth_error (drains sys) i) as [d|] eqn:Hd; [|discriminate].
    destruct (resumeDrain config e d (service sys)) as [[s' d'] started] eqn:Hr.
    intros H; inversion H; subst.
    apply (step_drain config sys e (List.firstn i (drains sys))
             (List.skipn (S i) (drains sys)) d s' d' started);
      [now apply nth_error_firstn_skipn | exact Hr].
  - destruct (detectionTick refreshed (service sys)) as [s' started] eqn:Ht.
    intros H; inversion H; subst.
    now apply (step_timer config sys refreshed s' started).
Qed.

(** A schedule leads from a reachable state to a reachable state. *)
Lemma execAll_reachable (evs : list Event) :
  forall sys sys' : System,
    reachable config sys ->
    execAll config evs sys = Some sys' ->
    reachable config sys'.
Proof.
  induction evs as [|ev evs IH]; intros sys sys' Hr; cbn [execAll].
  - intros H; inversion H; subst. exact Hr.
  - destruct (exec config ev sys) as [sys1|] eqn:He; [|discriminate].
    apply IH. apply (reachable_step config sys sys1 Hr).
    now apply (exec_step ev).
Qed.

(** [processQueue()] called on an idle service leaves it idle and starts
    nothing, or starts one pass and leaves the service draining. *)
Lemma processQueue_start_idle (s s' : Service) (started : option Drain) :
  idle s ->
  processQueue_start s = (s', started) ->
  (started = None /\ idle s') \/ ((exists d, started = Some d) /\ draining s').
Proof.
  intros (Hm & Hf & Hl) H.
  destruct (processQueue_start_cases s) as [Hs | (j & rest & _ & Hq & Hs)];
    rewrite Hs in H; inversion H; subst.
  - left. now repeat split.
  - right. split; [now eexists|]. unfold draining. cbn.
    rewrite Hq in Hl. cbn in Hl. repeat split; [assumption | lia].
Qed.

(** An activation resumed on an idle service. *)
Lemma resume_idle (e : Env) (k : PrintJobK) (s s' : Service) (p : Progress)
  (started : option Drain) :
  idle s ->
  resume config e k s = (p, s', started) ->
  (started = None /\ idle s') \/ ((exists d, started = Some d) /\ draining s').
Proof.
  intros Hidle H. pose proof Hidle as (Hm & Hf & Hl).
  destruct k as [receipt printerName | receipt printerName target];
    cbn [resume] in H.
  - left. unfold afterPrinters in H.
    destruct (env_printers e) as [printers|m];
      [|inversion H; subst; now split].
    destruct (targetPrinter printers printerName) as [target|];
      [|inversion H; subst; now split].
    destruct (negb (isOnline (status target)));
      [|inversion H; subst; now split].
    destruct (Nat.ltb (List.length (printQueue s)) (maxQueueSize s)) eqn:Hlt;
      inversion H; subst; [|now split].
    split; [reflexivity|]. unfold idle. cbn.
    rewrite List.length_app. cbn. apply Nat.ltb_lt in Hlt.
    repeat split; try assumption. lia.
  - unfold afterSpooler in H.
    destruct (snd (formatReceipt config (env_logo e) receipt "sales")) as [f|m];
      [|inversion H; subst; left; now split].
    destruct (env_print e f (name target)) as [u|m];
      [|inversion H; subst; left; now split].
    cbn [isProcessingQueue set_lastPrintTime] in H. rewrite Hf in H.
    cbn [negb] in H.
    destruct (processQueue_start (set_lastPrintTime (Some (env_iso e)) s))
      as [s2 st] eqn:Hstart.
    inversion H; subst.
    apply (processQueue_start_idle _ _ _) in Hstart; [exact Hstart|].
    now repeat split.
Qed.

(** An activation resumed while a pass is running starts no other. *)
Lemma resume_draining (e : Env) (k : PrintJobK) (s s' : Service)
  (p : Progress) (started : option Drain) :
  draining s ->
  resume config e k s = (p, s', started) ->
  started = None /\ draining s'.
Proof.
  intros (Hm & Hf & Hl) H.
  destruct k as [receipt printerName | receipt printerName target];
    cbn [resume] in H.
  - unfold afterPrinters in H.
    destruct (env_printers e) as [printers|m];
      [|inversion H; subst; now repeat split].
    destruct (targetPrinter printers printerName) as [target|];
      [|inversion H; subst; now repeat split].
    destruct (negb (isOnline (status target)));
      [|inversion H; subst; now repeat split].
    destruct (Nat.ltb (List.length (printQueue s)) (maxQueueSize s)) eqn:Hlt;
      inversion H; subst; [|now repeat split].
    split; [reflexivity|]. unfold draining. cbn.
    rewrite List.length_app. cbn. apply Nat.ltb_lt in Hlt.
    repeat split; try assumption. lia.
  - destruct (afterSpooler_flagged config e receipt target s Hf) as [[m Ha]|Ha];
      rewrite Ha in H; inversion H; subst; now repeat split.
Qed.

(** The loop of a pass: it ends and leaves the service idle, or goes on
    and leaves it draining. *)
Lemma drainLoop_draining (s s' : Service) (d' : option Drain) :
  draining s ->
  drainLoop s = (s', d') ->
  (d' = None /\ idle s') \/ ((exists d, d' = Some d) /\ draining s').
Proof.
  intros (Hm & Hf & Hl). unfold drainLoop.
  destruct (printQueue s) as [|j rest] eqn:Hq; intros H; inversion H; subst.
  - left. split; [reflexivity|]. unfold idle. cbn. rewrite Hq. cbn.
    repeat split; [assumption | lia].
  - right. split; [now eexists|]. unfold draining. cbn. cbn in Hl.
    repeat split; [assumption | assumption | lia].
Qed.

(** A pass resumed: it starts no other pass; it ends, with the flag
    cleared, or is still the one pass running. *)
Lemma resumeDrain_draining (e : Env) (d : Drain) (s s' : Service)
  (d' started : option Drain) :
  draining s ->
  resumeDrain config e d s = (s', d', started) ->
  started = None
  /\ ((d' = None /\ idle s') \/ ((exists d'', d' = Some d'') /\ draining s')).
Proof.
  intros Hdr H. unfold resumeDrain in H.
  destruct (resume config e (inner d) s) as [[p s1] st] eqn:Hres.
  pose proof (resume_draining e (inner d) s s1 p st Hdr Hres) as [-> Hdr1].
  destruct p as [k|r].
  - inversion H; subst. split; [reflexivity|]. right. split; [now eexists|].
    exact Hdr1.
  - destruct (afterAttempt d r s1) as [s2 d2] eqn:Ha.
    inversion H; subst. split; [reflexivity|].
    unfold afterAttempt in Ha. destruct r as [result|m].
    + destruct (queuedAgain result).
      * inversion Ha; subst. left. split; [reflexivity|].
        destruct Hdr1 as (Hm & Hf & Hl). unfold idle. cbn.
        repeat split; [assumption | lia].
      * now apply (drainLoop_draining s1).
    + now apply (drainLoop_draining s1).
Qed.

(** The timer on an idle service. *)
Lemma detectionTick_idle (refreshed : bool) (s s' : Service)
  (started : option Drain) :
  idle s ->
  detectionTick refreshed s = (s', started) ->
  (started = None /\ idle s') \/ ((exists d, started = Some d) /\ draining s').
Proof.
  intros Hidle. unfold detectionTick.
  destruct refreshed; [|intros H; inversion H; subst; now left].
  destruct (Nat.ltb 0 (List.length (printQueue s)));
    [|intros H; inversion H; subst; now left].
  now apply (processQueue_start_idle s).
Qed.

(** The timer while a pass is running does nothing. *)
Lemma detectionTick_draining (refreshed : bool) (s : Service) :
  isProcessingQueue s = true ->
  detectionTick refreshed s = (s, None).
Proof.
  intros Hf. unfold detectionTick, processQueue_start. rewrite Hf. cbn [orb].
  destruct refreshed; [|reflexivity].
  destruct (Nat.ltb 0 (List.length (printQueue s))); reflexivity.
Qed.

Lemma invariant_step (sys sys' : System) :
  invariant sys -> step config sys sys' -> invariant sys'.
Proof.
  intros (Hmax & Hcases) Hstep.
  destruct Hstep as
    [sys receipt printerName
    | sys e before after k p s' started Hreq Hres
    | sys e before after d s' d' started Hdr Hres
    | sys refreshed s' started Htick].
  - split; assumption.
  - destruct Hcases as [(Hf & Hd & Hl) | (Hf & [d0 Hd] & Hl)].
    + destruct (resume_idle e k (service sys) s' p started) as
        [[-> (Hm' & Hf' & Hl')] | [[d1 ->] (Hm' & Hf' & Hl')]];
        try assumption; [now repeat split| |].
      * split; [exact Hm'|]. left. cbn. rewrite Hd. now repeat split.
      * split; [exact Hm'|]. right. cbn. rewrite Hd.
        repeat split; try assumption. now exists d1.
    + destruct (resume_draining e k (service sys) s' p started) as
        [-> (Hm' & Hf' & Hl')]; try assumption; [now repeat split|].
      split; [exact Hm'|]. right. cbn. rewrite Hd.
      repeat split; try assumption. now exists d0.
  - destruct Hcases as [(Hf & Hd & Hl) | (Hf & [d0 Hd] & Hl)].
    + rewrite Hd in Hdr. now destruct before.
    + rewrite Hd in Hdr.
      assert (before = []%list /\ after = []%list) as [-> ->].
      { destruct before as [|b [|b' before]]; cbn in Hdr.
        - inversion Hdr; subst. now split.
        - inversion Hdr. 
        - inversion Hdr. }
      destruct (resumeDrain_draining e d (service sys) s' d' started) as
        [-> [[-> (Hm' & Hf' & Hl')] | [[d1 ->] (Hm' & Hf' & Hl')]]];
        try assumption; [now repeat split| |].
      * split; [exact Hm'|]. left. cbn. now repeat split.
      * split; [exact Hm'|]. right. cbn.
        repeat split; try assumption. now exists d1.
  - destruct Hcases as [(Hf & Hd & Hl) | (Hf & [d0 Hd] & Hl)].
    + destruct (detectionTick_idle refreshed (service sys) s' started) as
        [[-> (Hm' & Hf' & Hl')] | [[d1 ->] (Hm' & Hf' & Hl')]];
        try assumption; [now repeat split| |].
      * split; [exact Hm'|]. left. cbn. rewrite Hd. now repeat split.
      * split; [exact Hm'|]. right. cbn. rewrite Hd.
        repeat split; try assumption. now exists d1.
    + rewrite (detectionTick_draining refreshed (service sys) Hf) in Htick.
      inversion Htick; subst. split; [exact Hmax|]. right. cbn. rewrite Hd.
      repeat split; try assumption. now exists d0.
Qed.

(** The invariant holds in every state the service can be in. *)
Lemma reachable_invariant (sys : System) :
  reachable config sys -> invariant sys.
Proof.
  induction 1 as [now | sys sys' _ IH Hstep].
  - split; [reflexivity|]. left. cbn. repeat split. lia.
  - now apply invariant_step with (sys := sys).
Qed.

(** In every state the service can be in at most 11 jobs are queued, and
    at most 10 while a pass is running. *)
Lemma queue_at_most_eleven (sys : System) :
  reachable config sys ->
  List.length (printQueue (service sys)) <= 11
  /\ (isProcessingQueue (service sys) = true ->
      List.length (printQueue (service sys)) <= 10).
Proof.
  intros Hr. destruct (reachable_invariant sys Hr)
    as (_ & [(Hf & _ & Hl) | (Hf & _ & Hl)]).
  - split; [exact Hl|]. intros Hc. congruence.
  - split; [lia | now intros _].
Qed.

(** (C7) In every state the service can be in: at most one drain pass is
    running, and the draining flag is set exactly when one is; while the
    flag is set, [processQueue()] and the timer return at once and leave
    the service untouched; an activation or the timer starts a pass only
    when the flag is clear; and a pass that ends, whichever way it leaves
    its loop, leaves the flag clear and has started no other pass. *)
Theorem at_most_one_drain_pass (sys : System) :
  reachable config sys ->
  List.length (drains sys) <= 1
  /\ (isProcessingQueue (service sys) = true <-> drains sys <> []%list)
  /\ (isProcessingQueue (service sys) = true ->
      processQueue_start (service sys) = (service sys, None)
      /\ forall refreshed : bool,
          detectionTick refreshed (service sys) = (service sys, None))
  /\ (forall (e : Env) (k : PrintJobK) (p : Progress) (s' : Service)
             (d : Drain),
        resume config e k (service sys) = (p, s', Some d) ->
        isProcessingQueue (service sys) = false /\ drains sys = []%list)
  /\ (forall (refreshed : bool) (s' : Service) (d : Drain),
        detectionTick refreshed (service sys) = (s', Some d) ->
        isProcessingQueue (service sys) = false /\ drains sys = []%list)
  /\ (forall (e : Env) (d : Drain) (s' : Service) (started : option Drain),
        List.In d (drains sys) ->
        resumeDrain config e d (service sys) = (s', None, started) ->
        isProcessingQueue s' = false /\ started = None).
Proof.
  intros Hr. destruct (reachable_invariant sys Hr) as (Hmax & Hcases).
  destruct Hcases as [(Hf & Hd & Hl) | (Hf & [d0 Hd] & Hl)].
  - rewrite Hd, Hf. cbn [List.length]. split; [lia|].
    split; [split; [discriminate | intros Hc; now elim Hc]|].
    split; [discriminate|].
    split; [now intros|]. split; [now intros|].
    intros e d s' started Hin. destruct Hin.
  - rewrite Hd, Hf. cbn [List.length]. split; [lia|].
    split; [split; [discriminate | reflexivity]|].
    split.
    { intros _. split.
      - unfold processQueue_start. now rewrite Hf.
      - intros refreshed. now apply detectionTick_draining. }
    split.
    { intros e k p s' d H.
      destruct (resume_draining e k (service sys) s' p (Some d)) as [Hc _];
        [now repeat split | exact H | discriminate Hc]. }
    split.
    { intros refreshed s' d H.
      rewrite (detectionTick_draining refreshed (service sys) Hf) in H.
      discriminate H. }
    intros e d s' started Hin H.
    destruct (resumeDrain_draining e d (service sys) s' None started)
      as [-> [[_ (_ & Hf' & _)] | [[d'' Hc] _]]];
      [now repeat split | exact H | now split | discriminate Hc].
Qed.

End Interleaving.

(** ** The renderer *)

Import Renders.

Section Conversions.
Context {N : JsNum} {R : JsRuntime} {D : JsDate}.
Variable config : Config.

Lemma length_append (a b : string) :
  String.length (a ++ b) = String.length a + String.length b.
Proof. induction a as [|c a IH]; cbn; [reflexivity | now rewrite IH]. Qed.

(** [formatLine] throws only what [value.toString()] throws. *)
Lemma formatLine_throw (label : string) (value : prim) (m : string) :
  formatLine config label value = Throw m -> callToString value = Throw m.
Proof.
  unfold formatLine. destruct (callToString value) as [v|m']; cbn [Js.bind].
  - destruct (Z.ltb 0 _); discriminate.
  - intros H; inversion H; reflexivity.
Qed.

Lemma formatLine_str (label text : string) (m : string) :
  formatLine config label (PStr text) <> Throw m.
Proof.
  intros H. apply formatLine_throw in H. discriminate H.
Qed.

(** [value.toString()] returns exactly on the values that are neither
    [undefined] nor [null] and can be converted. *)
Lemma callToString_isOk (v : prim) : isOk (callToString v) = callable v.
Proof.
  destruct v as [| |b|n|t|l|o]; try reflexivity.
  - unfold callToString, coerce, callable. cbn [nullish negb andb].
    destruct (coercible (PArr l)); reflexivity.
  - unfold callToString, callable. cbn [nullish negb andb coercible].
    destruct (hasOwn o "toString"); reflexivity.
Qed.

(** What [value.toString()] returns is what [+] appends for the value. *)
Lemma callToString_toStr (v : prim) (t : string) :
  callToString v = Ok t -> toStr v = t.
Proof.
  destruct v as [| |b|n|u|l|o]; cbn [callToString];
    try discriminate; try (intros H; now inversion H).
  - unfold coerce. destruct (coercible (PArr l)); [|discriminate].
    intros H; now inversion H.
  - destruct (hasOwn o "toString"); [discriminate|].
    intros H; now inversion H.
Qed.

Lemma formatLine_isOk (label : string) (v : prim) :
  isOk (formatLine config label v) = callable v.
Proof.
  rewrite <- callToString_isOk. unfold formatLine.
  destruct (callToString v); cbn [Js.bind isOk]; [|reflexivity].
  destruct (Z.ltb 0 _); reflexivity.
Qed.

(** A truthy value is neither [undefined] nor [null]. *)
Lemma truthy_callable (v : prim) :
  truthy v = true -> callable v = coercible v.
Proof.
  unfold callable. destruct v; cbn; intros H; try discriminate H; reflexivity.
Qed.

Lemma scalar_coercible (v : prim) : scalar v = true -> coercible v = true.
Proof. destruct v; cbn; intros H; try discriminate H; reflexivity. Qed.

Lemma coerce_isOk (v : prim) : isOk (coerce v) = coercible v.
Proof. unfold coerce. destruct (coercible v); reflexivity. Qed.

(** The date [formatDate] hands to [formatLine] has a [toString] that
    returns exactly when the value can be converted. *)
Lemma callable_formatDate (v : prim) :
  callable (formatDate config v) = coercible v.
Proof.
  unfold formatDate. destruct (coercible v) eqn:Hc; [reflexivity|].
  unfold callable. rewrite Hc. now destruct (nullish v).
Qed.

Lemma gt0_isOk (v : prim) : isOk (gt0 v) = coercible v.
Proof.
  destruct v as [| |b|n|t|l|o]; try reflexivity;
    unfold gt0; rewrite <- coerce_isOk;
    destruct (coerce _); reflexivity.
Qed.

(** The loop over the items throws exactly on an item that is [null] or
    whose name or quantity cannot be converted. *)
Lemma formatItems_isOk (l : list prim) :
  forall output : string,
    isOk (formatItems config l output) = List.forallb itemRenders l.
Proof.
  induction l as [|item l IH]; intros output;
    cbn [formatItems List.forallb]; [reflexivity|].
  unfold itemRenders at 1. destruct (nullish item); [reflexivity|].
  cbn [negb andb]. unfold coerce.
  destruct (coercible (propOf item "name")); [|reflexivity].
  destruct (coercible (propOf item "quantity")); [|reflexivity].
  cbn [Js.bind andb].
  destruct (formatLine config _ (PStr (formatCurrency (propOf item "total"))))
    as [line|m] eqn:E.
  - cbn [Js.bind]. apply IH.
  - now apply formatLine_str in E.
Qed.

End Conversions.

(** One step through a template: a property handed to [formatLine], a
    property converted by a template literal, or a condition on the
    truthiness of a property.  The step either goes on, with its
    condition known to hold, or leaves the template with an error. *)
Ltac line :=
  match goal with
  | |- context [Js.bind (if truthy ?v then _ else _) _] =>
      let T := fresh "T" in
      destruct (truthy v) eqn:T; cbn [negb orb andb]
  | |- context [Js.bind (formatLine ?c ?lb ?w) _] =>
      let E := fresh "E" in
      let P := fresh "P" in
      let Q := fresh "Q" in
      pose proof (formatLine_isOk c lb w) as P;
      destruct (formatLine c lb w) eqn:E; cbn [isOk] in P;
      try rewrite callable_formatDate in P;
      pose proof P as Q;
      try (rewrite truthy_callable in Q by assumption);
      first
        [ discriminate P
        | rewrite <- ?P, <- ?Q; clear P Q;
          cbn [Js.bind isOk andb orb negb]; try reflexivity ]
  | |- context [Js.bind (coerce ?v) _] =>
      let C := fresh "C" in
      unfold coerce at 1; destruct (coercible v) eqn:C;
      cbn [Js.bind isOk andb orb negb]; try reflexivity
  | |- context [Js.bind (gt0 ?v) _] =>
      let E := fresh "E" in
      let P := fresh "P" in
      pose proof (gt0_isOk v) as P;
      destruct (gt0 v) eqn:E; cbn [isOk] in P;
      rewrite <- ?P; clear P;
      cbn [Js.bind isOk andb orb negb]; try reflexivity
  | |- context [Js.bind (Ok ?x) _] => cbn [Js.bind]
  | |- context [Js.bind (if ?b then _ else _) _] => destruct b
  end.

Section Rendering.
Context {N : JsNum} {R : JsRuntime} {D : JsDate}.
Variable config : Config.

Lemma formatCashTransferReceipt_isOk (receipt : Receipt) :
  isOk (formatCashTransferReceipt config receipt)
  = allMet (fields receipt) (printed "cash_transfer").
Proof.
  unfold formatCashTransferReceipt, allMet.
  cbn [printed String.eqb Ascii.eqb Bool.eqb List.forallb meets fst snd].
  repeat line; reflexivity.
Qed.

Lemma formatShiftClosureReceipt_isOk (receipt : Receipt) :
  isOk (formatShiftClosureReceipt config receipt)
  = allMet (fields receipt) (printed "shift_closure").
Proof.
  unfold formatShiftClosureReceipt, allMet.
  cbn [printed String.eqb Ascii.eqb Bool.eqb List.forallb meets fst snd].
  repeat line; reflexivity.
Qed.

Lemma formatShiftHandoffReceipt_isOk (receipt : Receipt) :
  isOk (formatShiftHandoffReceipt config receipt)
  = allMet (fields receipt) (printed "shift_handoff").
Proof.
  unfold formatShiftHandoffReceipt, allMet.
  cbn [printed String.eqb Ascii.eqb Bool.eqb List.forallb meets fst snd].
  repeat line; reflexivity.
Qed.

Lemma formatCashExpenseReceipt_isOk (receipt : Receipt) :
  isOk (formatCashExpenseReceipt config receipt)
  = allMet (fields receipt) (printed "cash_expense").
Proof.
  unfold formatCashExpenseReceipt, allMet.
  cbn [printed String.eqb Ascii.eqb Bool.eqb List.forallb meets fst snd].
  repeat line; reflexivity.
Qed.

(** The sales template throws exactly when one of its steps does. *)
Lemma formatSalesReceipt_isOk (receipt : Receipt) :
  isOk (formatSalesReceipt config receipt) = salesRenders receipt.
Proof.
  unfold formatSalesReceipt, salesRenders. cbn [meets].
  repeat
    first
      [ match goal with
        | |- context [Js.bind (iterate ?it) _] =>
            destruct (iterate it); cbn [Js.bind isOk andb]; try reflexivity
        | |- context [Js.bind (formatItems ?c ?l ?o) _] =>
            let E := fresh "E" in
            let P := fresh "P" in
            pose proof (formatItems_isOk c l o) as P;
            destruct (formatItems c l o) eqn:E; cbn [isOk] in P;
            rewrite <- P; clear P; cbn [Js.bind isOk andb]; try reflexivity
        | |- context [Js.bind (formatPaymentMethod ?v) _] =>
            destruct v;
            cbn [formatPaymentMethod isString strictEqStr Js.bind isOk
                 andb orb negb];
            try reflexivity
        | |- context [match methods ?k with _ => _ end] =>
            destruct (methods k); cbn [Js.bind]
        | |- context [Js.bind (if (?a && truthy ?w)%bool then _ else _) _] =>
            destruct a; cbn [andb orb negb]
        end
      | line ];
  reflexivity.
Qed.

(** [formatReceipt] returns bytes exactly when the body is rendered. *)
Lemma formatReceipt_isOk (logoAccessible : bool) (receipt : Receipt)
  (type : string) :
  isOk (snd (formatReceipt config logoAccessible receipt type))
  = isOk (snd (formatByType config receipt type)).
Proof.
  unfold formatReceipt.
  destruct (processLogo logoAccessible) as [logoLog logoText].
  destruct (formatByType config receipt type) as [typeLog [b|m]]; reflexivity.
Qed.

(** An unknown tag takes the [default] branch of the [switch]. *)
Lemma formatByType_unknown (receipt : Receipt) (type : string) :
  isKnownType type = false ->
  formatByType config receipt type =
    ([logMsg Warn ("Unknown receipt type: " ++ type ++
                   ", falling back to sales format")]%list,
     formatSalesReceipt config receipt).
Proof.
  unfold isKnownType, knownTypes, formatByType. cbn [List.existsb].
  intros H.
  destruct (String.eqb (toLowerCase type) "sales"); [discriminate|].
  destruct (String.eqb (toLowerCase type) "cash_transfer"); [discriminate|].
  destruct (String.eqb (toLowerCase type) "shift_closure"); [discriminate|].
  destruct (String.eqb (toLowerCase type) "shift_handoff"); [discriminate|].
  destruct (String.eqb (toLowerCase type) "cash_expense"); [discriminate|].
  reflexivity.
Qed.


(** The bytes rendered with the logo file in place are 13 characters
    longer than those rendered without it: the placeholder of the logo
    and a line feed. *)
Lemma formatReceipt_logo (receipt : Receipt) (type : string)
  (with_logo without : string) :
  snd (formatReceipt config true receipt type) = Ok with_logo ->
  snd (formatReceipt config false receipt type) = Ok without ->
  String.length with_logo = String.length without + 13.
Proof.
  unfold formatReceipt. cbn [processLogo].
  destruct (formatByType config receipt type) as [typeLog [b|m]];
    cbn [snd]; [|discriminate].
  intros H1 H2. injection H1 as <-. injection H2 as <-.
  cbn [String.length]. rewrite !length_append. cbn. lia.
Qed.

(** [previewReceipt] is [formatReceipt] and the two readings of its
    bytes. *)
Lemma previewReceipt_formatReceipt (logoAccessible : bool)
  (receipt : Receipt) (type : string) :
  snd (previewReceipt config logoAccessible receipt type)
  = match snd (formatReceipt config logoAccessible receipt type) with
    | Ok bytes =>
        Ok {| raw := bytes;
              preview := stripEscPosCodes bytes;
              escPosCodes := listEscPosCodes bytes;
              ReceiptFormatter.type := type |}
    | Throw m => Throw m
    end.
Proof.
  unfold previewReceipt.
  destruct (formatReceipt config logoAccessible receipt type) as [lg [b|e]];
    reflexivity.
Qed.

(** (C8, as the code has it) [POST /preview] leaves the service exactly
    as it was, whatever the queue, the flag and [lastPrintTime] are, and
    takes no answer about printers or the spooler.  Its output depends
    on the receipt, the configuration and on whether the logo file is
    accessible, which [processLogo] asks the file system at every call:
    two calls that get the same answer give the same response whatever
    the state of the service, and at another time the same rendering
    (stripped text, codes, length of the raw bytes); two calls that get
    different answers never give the same raw bytes.  The stripped text
    and the list of codes of [previewReceipt] are computed from the raw
    bytes of [formatReceipt]. *)
Theorem preview_is_pure
  (logo1 logo2 : bool) (now now' : string) (receipt : option Receipt)
  (type : string) (document : Receipt) (s1 s2 : Service) :
  snd (previewRoute config logo1 now receipt s1) = s1
  /\ (logo1 = logo2 ->
      fst (previewRoute config logo1 now receipt s1)
      = fst (previewRoute config logo2 now receipt s2)
      /\ rendered (fst (previewRoute config logo2 now' receipt s2))
         = rendered (fst (previewRoute config logo1 now receipt s1))
      /\ statusCode (fst (previewRoute config logo2 now' receipt s2))
         = statusCode (fst (previewRoute config logo1 now receipt s1))
      /\ snd (previewReceipt config logo1 document type)
         = snd (previewReceipt config logo2 document type))
  /\ (logo1 <> logo2 ->
      forall p1 p2 : Preview,
        snd (previewReceipt config logo1 document type) = Ok p1 ->
        snd (previewReceipt config logo2 document type) = Ok p2 ->
        raw p1 <> raw p2)
  /\ snd (previewReceipt config logo1 document type)
     = match snd (formatReceipt config logo1 document type) with
       | Ok bytes =>
           Ok {| raw := bytes;
                 preview := stripEscPosCodes bytes;
                 escPosCodes := listEscPosCodes bytes;
                 ReceiptFormatter.type := type |}
       | Throw m => Throw m
       end.
Proof.
  split; [|split; [|split]].
  - unfold previewRoute.
    destruct (validateReceiptData receipt) as [v|m]; [|reflexivity].
    destruct receipt as [r|]; [|reflexivity].
    destruct (negb (valid v)); [reflexivity|].
    destruct (snd (previewReceipt config logo1 r "sales")); reflexivity.
  - intros <-. unfold previewRoute.
    destruct (validateReceiptData receipt) as [v|m]; [|now repeat split].
    destruct receipt as [r|]; [|now repeat split].
    destruct (negb (valid v)); [now repeat split|].
    destruct (snd (previewReceipt config logo1 r "sales"));
      now repeat split.
  - intros Hdiff p1 p2. rewrite !previewReceipt_formatReceipt.
    destruct (snd (formatReceipt config logo1 document type))
      as [b1|m1] eqn:H1; [|discriminate].
    destruct (snd (formatReceipt config logo2 document type))
      as [b2|m2] eqn:H2; [|discriminate].
    intros Hp1 Hp2 Heq. inversion Hp1; inversion Hp2; subst.
    cbn [raw] in Heq. subst b2.
    destruct logo1, logo2; try (now elim Hdiff).
    + pose proof (formatReceipt_logo document type b1 b1 H1 H2). lia.
    + pose proof (formatReceipt_logo document type b1 b1 H2 H1). lia.
  - apply previewReceipt_formatReceipt.
Qed.

End Rendering.

(** ** Concrete runs *)

Import Example.

(** The renderer on small inputs: a line is padded to the 48 columns of
    the paper, a label that does not fit is cut, the tag of a type is
    read whatever its case, and the preview names the control codes. *)
Example formatLine_pads :
  formatLine config0 "Pedido #:" (PStr "TEST-001")
  = Ok ("Pedido #:" ++ Js.repeat " " 31 ++ "TEST-001").
Proof. reflexivity. Qed.

Example formatLine_truncates :
  formatLine config0
    "A label that is far too long for the paper width of the printer"
    (PStr "value")
  = Ok "A label that is far too long for the paper value".
Proof. reflexivity. Qed.

Example known_types_ignore_case :
  isKnownType "SALES" = true
  /\ isKnownType "Cash_Transfer" = true
  /\ isKnownType "refund" = false.
Proof. repeat split. Qed.

Example stripEscPosCodes_names_codes :
  stripEscPosCodes
    (ESC_POS.INIT ++ ESC_POS.BOLD_ON ++ "TOTAL" ++ ESC_POS.BOLD_OFF ++ CR
     ++ LF ++ ESC_POS.CUT_PAPER)
  = "[INIT][BOLD-ON]TOTAL[BOLD-OFF]" ++ LF ++ "[CUT-PAPER]".
Proof. reflexivity. Qed.

Example validateReceiptData_rejects_transfer :
  validateReceiptData (Some transfer)
  = Ok {| valid := false;
          errors :=
            ["Order number is required";
             "Items array is required and must not be empty";
             "Subtotal must be a number"; "Tax must be a number";
             "Total must be a number"; "Payment method is required"]%list |}.
Proof. reflexivity. Qed.

(** (C1) A pass over the queue [A; B] while the printer is offline: the
    attempt on [A] is queued again, and the pass ends with the queue
    [A; B; A'], where [A'] is a second copy of [A] pushed at the time of
    the attempt: the queue is not what it was before the attempt. *)
Theorem requeue_duplicates_job :
  let A := newJob (env offline 5) (sale "A") None in
  let B := newJob (env offline 5) (sale "B") None in
  let A' := newJob (env offline 9) (sale "A") None in
  processQueue config0 (fun _ => env offline 9)
    (set_printQueue [A; B]%list (constructor 0))
  = Some (set_printQueue [A; B; A']%list (constructor 0)).
Proof. vm_compute. reflexivity. Qed.

(** The schedule [tenThenTimer] runs, and ends in [overfull]. *)
Lemma tenThenTimer_runs :
  execAll config0 tenThenTimer (initial 0) = Some overfull.
Proof. vm_compute. reflexivity. Qed.

(** (C2) Ten requests accepted while the printer is offline fill the
    queue to its capacity of 10; the timer then starts a pass, whose
    attempt on the oldest job is queued again: the service reaches a
    state with 11 jobs in the queue. *)
Theorem queue_reaches_eleven :
  reachable config0 overfull
  /\ maxQueueSize (service overfull) = 10
  /\ List.length (printQueue (service overfull)) = 11
  /\ summary (printQueue (service overfull))
     = [("1", 5%Z); ("2", 5%Z); ("3", 5%Z); ("4", 5%Z); ("5", 5%Z);
        ("6", 5%Z); ("7", 5%Z); ("8", 5%Z); ("9", 5%Z); ("10", 5%Z);
        ("1", 9%Z)]%list.
Proof.
  split.
  - apply (execAll_reachable config0 tenThenTimer (initial 0) overfull);
      [apply reachable_initial | exact tenThenTimer_runs].
  - vm_compute. repeat split.
Qed.

(** The tenth job queued while the printer is offline gets position 10,
    and the eleventh request is refused. *)
Lemma offline_enqueue_or_full_witness :
  processPrintJob config0 (env offline 5) (sale "10") None nineQueued
  = (Ok {| success := false;
           message :=
             "Printer offline, queued for printing. Queue position: 10";
           printerId := "Rongta";
           queued := Some true;
           timestamp := None |},
     tenQueued, None)
  /\ processPrintJob config0 (env offline 5) (sale "11") None tenQueued
     = (Throw "Printer offline and queue is full", tenQueued, None).
Proof.
  split.
  - destruct (offline_enqueue_or_full config0 (env offline 5) (sale "10") None
                nineQueued [rongta offline]%list (rongta offline)
                eq_refl eq_refl eq_refl eq_refl) as (Hroom & _ & _).
    destruct Hroom as [Hrun _]; [vm_compute; lia|].
    rewrite Hrun. vm_compute. reflexivity.
  - destruct (offline_enqueue_or_full config0 (env offline 5) (sale "11") None
                tenQueued [rongta offline]%list (rongta offline)
                eq_refl eq_refl eq_refl eq_refl) as (_ & _ & Hfull).
    apply Hfull. reflexivity.
Defined.

(** A spooler that rejects the job of an otherwise idle service. *)
Lemma spooler_failure_reported_witness :
  processPrintJob config0 (envRejecting 5) (sale "A") None (constructor 0)
  = (Throw "Print command failed: lp: Error", constructor 0, None).
Proof.
  refine (proj1 (spooler_failure_reported config0 (envRejecting 5) (sale "A")
                   None (constructor 0) [rongta online]%list (rongta online)
                   saleBytes "Print command failed: lp: Error" _ _ _ _ _));
    vm_compute; reflexivity.
Defined.

(** A request for a printer the snapshot does not list. *)
Lemma unknown_printer_rejected_witness :
  processPrintJob config0 (env online 5) (sale "A") (Some "Epson")
    (constructor 0)
  = (Throw "No printers available", constructor 0, None).
Proof.
  assert (Hnone : forall p : PrinterInfo,
             List.In p [rongta online]%list -> name p <> "Epson").
  { intros p [<- | []]. discriminate. }
  assert (Hname : "Epson" <> "") by discriminate.
  exact (proj1 (unknown_printer_rejected config0 (env online 5) (sale "A")
                  "Epson" (constructor 0) [rongta online]%list
                  eq_refl Hname Hnone)).
Defined.

(** (C3, as stated) The failure for a printer that is not in the snapshot
    is not a failure of its own: it is the one of an empty snapshot. *)
Lemma unknown_printer_same_error_as_none :
  ~ (forall (e e0 : Env) (receipt : Receipt) (n : string) (s : Service)
            (printers : list PrinterInfo),
        env_printers e = Ok printers ->
        n <> "" ->
        (forall p, List.In p printers -> name p <> n) ->
        env_printers e0 = Ok []%list ->
        fst (fst (processPrintJob config0 e receipt (Some n) s))
        <> fst (fst (processPrintJob config0 e0 receipt (Some n) s))).
Proof.
  intros H.
  apply (H (env online 5) (envNoPrinter 5) (sale "A") "Epson" (constructor 0)
           [rongta online]%list).
  - reflexivity.
  - discriminate.
  - intros p [<- | []]. discriminate.
  - reflexivity.
  - vm_compute. reflexivity.
Qed.

(** The run of a printed request on a service with two jobs queued: it
    leaves a pass running on the oldest job. *)
Lemma printed_with_backlog :
  processPrintJob config0 (env online 7) (sale "C") None twoQueued
  = (Ok (printedResult (rongta online) printedWithBacklog),
     printedWithBacklog,
     Some {| job := newJob (env offline 5) (sale "A") None;
             inner := AwaitPrinters (sale "A") None |}).
Proof. vm_compute. reflexivity. Qed.

(** A printed request on a service with two jobs queued: the spooler
    accepts the job, the time of the print is recorded, the capacity is
    kept, and the flag is set for the pass the call starts. *)
Lemma lastPrintTime_frame_witness :
  Pending.spoolerAccepts config0 (env online 7) (sale "C") None = true
  /\ lastPrintTime printedWithBacklog = Some (env_iso (env online 7))
  /\ maxQueueSize printedWithBacklog = maxQueueSize twoQueued
  /\ isProcessingQueue twoQueued = false
  /\ isProcessingQueue printedWithBacklog = true.
Proof.
  destruct (lastPrintTime_frame config0 (env online 7) (sale "C") None
              twoQueued printedWithBacklog
              (Ok (printedResult (rongta online) printedWithBacklog))
              (Some {| job := newJob (env offline 5) (sale "A") None;
                       inner := AwaitPrinters (sale "A") None |})
              printed_with_backlog)
    as (Hm & _ & Hl & _ & _ & _ & Hflag & _).
  split; [vm_compute; reflexivity|].
  split; [rewrite Hl; vm_compute; reflexivity|].
  split; [exact Hm|]. split; [reflexivity|].
  rewrite Hflag. vm_compute. reflexivity.
Defined.

(** (C9, as stated) A printed request on a service with jobs queued sets
    the draining flag: [processPrintJob] does change a field other than
    the queue and [lastPrintTime]. *)
Lemma printed_call_sets_flag :
  ~ (forall (e : Env) (receipt : Receipt) (printerName : option string)
            (s : Service),
        isProcessingQueue
          (snd (fst (processPrintJob config0 e receipt printerName s)))
        = isProcessingQueue s).
Proof.
  intros H.
  specialize (H (env online 7) (sale "C") None twoQueued).
  vm_compute in H. discriminate H.
Qed.

(** A valid receipt posted while the printer is offline. *)
Lemma queued_response_reports_failure_witness :
  exists (result : PrintResult) (s' : Service),
    printRoute config0 (env offline 5) "2024-08-09T12:05:01.000Z"
      (Some (sale "A")) (constructor 0)
    = ({| statusCode := 200; body := PrintBody result |}, s', None)
    /\ success result = false
    /\ queued result = Some true
    /\ printQueue s'
       = (printQueue (constructor 0)
          ++ [newJob (env offline 5) (sale "A") None])%list.
Proof.
  apply (queued_response_reports_failure config0 (env offline 5)
           "2024-08-09T12:05:01.000Z" (sale "A") (constructor 0)
           {| valid := true; errors := []%list |}
           [rongta offline]%list (rongta offline)).
  - vm_compute. reflexivity.
  - reflexivity.
  - reflexivity.
  - reflexivity.
  - reflexivity.
  - vm_compute. lia.
Defined.

(** The schedule of one queued job and the timer runs, and ends in
    [onePass]. *)
Lemma onePass_runs :
  execAll config0 (offlineRequest "A" ++ [Timer true])%list (initial 0)
  = Some onePass.
Proof. vm_compute. reflexivity. Qed.

Lemma onePass_reachable : reachable config0 onePass.
Proof.
  apply (execAll_reachable config0 (offlineRequest "A" ++ [Timer true])%list
           (initial 0) onePass); [apply reachable_initial | exact onePass_runs].
Qed.

(** After one job was queued and the timer has fired, one pass is
    running and a second call of [processQueue()] does nothing. *)
Lemma at_most_one_drain_pass_witness :
  List.length (drains onePass) <= 1
  /\ isProcessingQueue (service onePass) = true
  /\ processQueue_start (service onePass) = (service onePass, None).
Proof.
  destruct (at_most_one_drain_pass config0 onePass onePass_reachable)
    as (Hone & _ & Hset & _).
  split; [exact Hone|]. split; [reflexivity|].
  now apply Hset.
Defined.



(** (C8, as stated) The preview of one and the same sale under one and
    the same tag, taken once with the logo file accessible and once
    without: the two calls do not give the same output. *)
Lemma preview_depends_on_logo :
  ~ (forall (logo1 logo2 : bool) (receipt : Receipt) (type : string),
        snd (previewReceipt config0 logo1 receipt type)
        = snd (previewReceipt config0 logo2 receipt type)).
Proof.
  intros H.
  specialize (H true false (sale "A") "sales").
  vm_compute in H. discriminate H.
Qed.

(** * Further properties *)

Import Pending.

(** ** The queue and the drain pass *)

Section Queue.
Context {N : JsNum} {R : JsRuntime} {D : JsDate}.
Variable config : Config.

(** (X1) In every state the service can be in, the capacity is still 10,
    the queue holds at most 11 jobs, and at most 10 while a drain pass is
    running. *)
Theorem queue_never_exceeds_eleven (sys : System) :
  reachable config sys ->
  maxQueueSize (service sys) = 10
  /\ List.length (printQueue (service sys)) <= 11
  /\ (drains sys <> []%list ->
      List.length (printQueue (service sys)) <= 10).
Proof.
  intros Hr. destruct (reachable_invariant config sys Hr)
    as (Hmax & [(Hf & Hd & Hl) | (Hf & _ & Hl)]).
  - split; [exact Hmax|]. split; [exact Hl|]. intros Hc. now elim Hc.
  - split; [exact Hmax|]. split; [lia | now intros _].
Qed.

(** An activation run to its completion never changes the capacity or
    the start time. *)
Lemma complete_frame (e : Env) (k : PrintJobK) (s s' : Service)
  (r : Result PrintResult) (started : option Drain) :
  complete config e k s = (r, s', started) ->
  maxQueueSize s' = maxQueueSize s /\ startTime s' = startTime s.
Proof.
  assert (Hsp : forall receipt target s0 r0 s0' st0,
             afterSpooler config e receipt target s0 = (r0, s0', st0) ->
             maxQueueSize s0' = maxQueueSize s0
             /\ startTime s0' = startTime s0).
  { intros receipt target s0 r0 s0' st0. unfold afterSpooler.
    destruct (snd (formatReceipt config (env_logo e) receipt "sales"));
      [|intros H; inversion H; subst; now split].
    destruct (env_print e a (name target));
      [|intros H; inversion H; subst; now split].
    cbn [isProcessingQueue set_lastPrintTime].
    destruct (negb (isProcessingQueue s0)).
    - destruct (processQueue_start_cases
                  (set_lastPrintTime (Some (env_iso e)) s0))
        as [Hs | (j & rest & _ & _ & Hs)]; rewrite Hs;
        intros H; inversion H; subst; now split.
    - intros H; inversion H; subst; now split. }
  destruct k as [receipt printerName | receipt printerName target];
    cbn [complete].
  - unfold processPrintJob, afterPrinters.
    destruct (env_printers e) as [printers|m];
      [|intros H; inversion H; subst; now split].
    destruct (targetPrinter printers printerName) as [target|];
      [|intros H; inversion H; subst; now split].
    destruct (negb (isOnline (status target))).
    + destruct (Nat.ltb (List.length (printQueue s)) (maxQueueSize s));
        intros H; inversion H; subst; now split.
    + apply Hsp.
  - apply Hsp.
Qed.

(** An attempt never changes the capacity or the start time. *)
Lemma attempt_frame (e : Env) (d : Drain) (s s' : Service)
  (d' started : option Drain) :
  attempt config e d s = (s', d', started) ->
  maxQueueSize s' = maxQueueSize s /\ startTime s' = startTime s.
Proof.
  rewrite attempt_complete.
  destruct (complete config e (inner d) s) as [[r s1] st] eqn:Hc.
  destruct (complete_frame e (inner d) s s1 r st Hc) as (Hm & Ht).
  unfold afterAttempt, drainLoop.
  destruct r as [result|m]; [destruct (queuedAgain result)|];
    try destruct (printQueue s1);
    intros H; inversion H; subst; cbn; now split.
Qed.

Lemma runDrain_frame (fuel : nat) (envs : nat -> Env) :
  forall (i : nat) (d : Drain) (s s' : Service),
    runDrain config fuel envs i d s = Some s' ->
    maxQueueSize s' = maxQueueSize s /\ startTime s' = startTime s.
Proof.
  induction fuel as [|fuel IH]; intros i d s s'; cbn [runDrain];
    [discriminate|].
  destruct (attempt config (envs i) d s) as [[s1 [d1|]] st] eqn:Ha;
    destruct (attempt_frame (envs i) d s s1 _ st Ha) as (Hm & Ht).
  - intros H. destruct (IH _ _ _ _ H) as (Hm' & Ht'). split; congruence.
  - intros H; inversion H; subst. now split.
Qed.

(** (X2) The loop of [processQueue] always comes to its end, whatever
    the printers and the spooler answer: at most one attempt per job it
    found.  The pass leaves the draining flag as it found it, and never
    changes the capacity or the start time; entered with the flag set it
    changes nothing at all. *)
Theorem drain_pass_terminates (envs : nat -> Env) (s : Service) :
  exists s' : Service,
    processQueue config envs s = Some s'
    /\ isProcessingQueue s' = isProcessingQueue s
    /\ maxQueueSize s' = maxQueueSize s
    /\ startTime s' = startTime s
    /\ (isProcessingQueue s = true -> s' = s).
Proof.
  unfold processQueue.
  destruct (processQueue_start_cases s) as [H | (j & rest & Hflag & Hq & H)];
    rewrite H.
  - exists s. repeat split.
  - destruct (runDrain_total config
                (S (List.length (printQueue
                   (set_printQueue rest (set_isProcessingQueue true s)))))
                envs 0
                {| job := j;
                   inner := AwaitPrinters (receipt j) (printerName j) |}
                (set_printQueue rest (set_isProcessingQueue true s)))
      as [s' [H1 H2]]; [reflexivity | lia |].
    exists s'. destruct (runDrain_frame _ _ _ _ _ _ H1) as (Hm & Ht).
    split; [exact H1|]. split; [congruence|]. split; [exact Hm|].
    split; [exact Ht|]. intros Hc. congruence.
Qed.

(** (X3) A pass never skips a job: from a service with the flag clear,
    the jobs it attempts are, in the order of the attempts, the first
    jobs of the queue it found. *)
Theorem pass_never_skips (fuel : nat) (envs : nat -> Env)
  (s s1 : Service) (d : Drain) :
  isProcessingQueue s = false ->
  processQueue_start s = (s1, Some d) ->
  exists later : list Job,
    printQueue s = (attempted config fuel envs 0 d s1 ++ later)%list.
Proof.
  intros Hflag Hstart.
  destruct (processQueue_start_cases s) as [H | (j & rest & _ & Hq & H)];
    rewrite H in Hstart; inversion Hstart; subst.
  destruct (attempted_oldest_first config fuel envs 0
              {| job := j; inner := AwaitPrinters (receipt j) (printerName j) |}
              (set_printQueue rest (set_isProcessingQueue true s)) eq_refl)
    as [later Hl].
  exists later. rewrite Hq. exact Hl.
Qed.

(** (X4) When every queued job can be printed (its printer online, its
    receipt rendered, the spooler accepting), a pass started with the
    flag clear attempts every job of the queue, oldest first, and ends
    with the queue empty and the flag clear. *)
Theorem drain_prints_whole_queue (envs : nat -> Env) (s : Service) :
  isProcessingQueue s = false ->
  (forall (k : nat) (j : Job),
      List.In j (printQueue s) -> printable config (envs k) j) ->
  exists s' : Service,
    processQueue config envs s = Some s'
    /\ printQueue s' = []%list
    /\ isProcessingQueue s' = false
    /\ (forall (s1 : Service) (d : Drain),
          processQueue_start s = (s1, Some d) ->
          attempted config (S (List.length (printQueue s1))) envs 0 d s1
          = printQueue s).
Proof.
  intros Hflag Hall. unfold processQueue.
  destruct (processQueue_start_cases s) as [H | (j & rest & _ & Hq & H)];
    rewrite H.
  - exists s. split; [reflexivity|]. split; [|split; [exact Hflag|]].
    + unfold processQueue_start, drainLoop in H. rewrite Hflag in H.
      cbn [orb printQueue set_isProcessingQueue] in H.
      destruct (printQueue s) as [|j rest]; [reflexivity|].
      cbn in H. discriminate H.
    + intros s1 d Hc. discriminate Hc.
  - rewrite Hq in Hall. cbn [printQueue set_printQueue].
    destruct (runDrain_prints_all config envs rest 0 j
                (set_printQueue rest (set_isProcessingQueue true s))
                eq_refl eq_refl Hall) as (s' & Hrun & Hempty & Hclear & Hatt).
    exists s'. split; [exact Hrun|]. split; [exact Hempty|].
    split; [exact Hclear|].
    intros s1 d Hc. inversion Hc; subst. cbn [printQueue set_printQueue].
    rewrite Hq. exact Hatt.
Qed.

(** An attempt whose activation throws, having changed nothing, goes
    round the loop: the held job is neither printed nor put back. *)
Lemma attempt_thrown (e : Env) (d : Drain) (s : Service) (m : string) :
  complete config e (inner d) s = (Throw m, s, None) ->
  attempt config e d s =
    match printQueue s with
    | [] => (set_isProcessingQueue false s, None, None)
    | next :: rest =>
        (set_printQueue rest s,
         Some {| job := next;
                 inner := AwaitPrinters (receipt next) (printerName next) |},
         None)
    end.
Proof.
  intros Hc. rewrite attempt_complete, Hc. cbn [afterAttempt].
  unfold drainLoop. destruct (printQueue s); reflexivity.
Qed.

(** (X5) A queued job whose printer is online but whose submission the
    spooler rejects is dropped by the pass: it is not put back, the pass
    goes on with the next job (or ends on an empty queue), and nothing
    else of the service changes. *)
Theorem drain_drops_job_on_spooler_failure
  (e : Env) (j : Job) (s : Service) (printers : list PrinterInfo)
  (target : PrinterInfo) (formatted reason : string) :
  env_printers e = Ok printers ->
  targetPrinter printers (printerName j) = Some target ->
  isOnline (status target) = true ->
  snd (formatReceipt config (env_logo e) (receipt j) "sales") = Ok formatted ->
  env_print e formatted (name target) = Throw reason ->
  attempt config e
    {| job := j; inner := AwaitPrinters (receipt j) (printerName j) |} s =
    match printQueue s with
    | [] => (set_isProcessingQueue false s, None, None)
    | next :: rest =>
        (set_printQueue rest s,
         Some {| job := next;
                 inner := AwaitPrinters (receipt next) (printerName next) |},
         None)
    end.
Proof.
  intros Hp Ht Hon Hf Hs. apply attempt_thrown with (m := reason).
  cbn [inner complete]. unfold processPrintJob.
  rewrite (afterPrinters_online e (receipt j) (printerName j) s printers target)
    by assumption.
  now apply afterSpooler_rejected with (formatted := formatted).
Qed.

(** (X6) When a pass holds a job whose printer is not online and the
    queue behind it is at its capacity or above, the job is dropped: the
    activation throws the queue-full error, the pass catches it and goes
    on with the next job. *)
Theorem drain_drops_job_when_queue_full
  (e : Env) (j : Job) (s : Service) (printers : list PrinterInfo)
  (target : PrinterInfo) :
  env_printers e = Ok printers ->
  targetPrinter printers (printerName j) = Some target ->
  isOnline (status target) = false ->
  maxQueueSize s <= List.length (printQueue s) ->
  attempt config e
    {| job := j; inner := AwaitPrinters (receipt j) (printerName j) |} s =
    match printQueue s with
    | [] => (set_isProcessingQueue false s, None, None)
    | next :: rest =>
        (set_printQueue rest s,
         Some {| job := next;
                 inner := AwaitPrinters (receipt next) (printerName next) |},
         None)
    end.
Proof.
  intros Hp Ht Hoff Hfull.
  apply attempt_thrown with (m := "Printer offline and queue is full").
  cbn [inner complete]. unfold processPrintJob.
  rewrite (afterPrinters_full e (receipt j) (printerName j) s printers target)
    by assumption.
  reflexivity.
Qed.

(** [find] answers an element of the list that passes the test. *)
Lemma find_in {A : Type} (f : A -> bool) (l : list A) (x : A) :
  List.find f l = Some x -> List.In x l /\ f x = true.
Proof.
  induction l as [|a l IH]; cbn [List.find]; [discriminate|].
  destruct (f a) eqn:Hfa.
  - intros H; inversion H; subst. split; [now left | exact Hfa].
  - intros H. destruct (IH H) as (Hin & Hx). split; [now right | exact Hx].
Qed.

(** (X7) The printer [processPrintJob] resolves is always one of the
    snapshot, and bears the requested name when one is given; no printer
    is resolved only on an empty snapshot or for a name no printer of the
    snapshot bears. *)
Theorem targetPrinter_sound (printers : list PrinterInfo)
  (printerName : option string) :
  (forall p : PrinterInfo,
      targetPrinter printers printerName = Some p ->
      List.In p printers
      /\ (forall n : string,
            printerName = Some n -> n <> "" -> name p = n))
  /\ (targetPrinter printers printerName = None ->
      printers = []%list
      \/ exists n : string,
           printerName = Some n /\ n <> ""
           /\ forall p : PrinterInfo, List.In p printers -> name p <> n).
Proof.
  assert (Hdef : forall p, defaultPrinter printers = Some p ->
                           List.In p printers).
  { intros p. unfold defaultPrinter.
    destruct (List.find isDefault printers) as [q|] eqn:Hf.
    - intros H; inversion H; subst. now apply find_in in Hf.
    - destruct printers as [|q rest]; cbn; [discriminate|].
      intros H; inversion H; subst. now left. }
  assert (Hnone : defaultPrinter printers = None -> printers = []%list).
  { unfold defaultPrinter. destruct (List.find isDefault printers);
      [discriminate|]. destruct printers; [reflexivity | discriminate]. }
  split.
  - intros p. unfold targetPrinter.
    destruct printerName as [n|].
    + destruct (String.eqb n "") eqn:Hn.
      * intros H. split; [now apply Hdef|].
        intros n' Hn' Hne. inversion Hn'; subst.
        apply String.eqb_eq in Hn. contradiction.
      * intros H. apply find_in in H. destruct H as (Hin & Hname).
        split; [exact Hin|]. intros n' Hn' _. inversion Hn'; subst.
        now apply String.eqb_eq.
    + intros H. split; [now apply Hdef|]. intros n' Hn'. discriminate Hn'.
  - unfold targetPrinter. destruct printerName as [n|].
    + destruct (String.eqb n "") eqn:Hn.
      * intros H. left. now apply Hnone.
      * intros H. right. exists n. split; [reflexivity|].
        split; [now apply String.eqb_neq|].
        intros p Hin Heq.
        pose proof (List.find_none _ _ H p Hin) as Hp. cbn in Hp.
        apply String.eqb_neq in Hp. contradiction.
    + intros H. left. now apply Hnone.
Qed.

(** (X8) From any state the service can be in, a turn of the event loop
    that is not the resumption of a drain pass (a request arriving, a
    request resumed, the timer) never drops or reorders the jobs that are
    pending: it leaves them as they are, or adds one at the end. *)
Theorem requests_keep_pending_order (sys sys' : System) (ev : Event) :
  reachable config sys ->
  notDrain ev = true ->
  exec config ev sys = Some sys' ->
  exists extra : list Job,
    pending sys' = (pending sys ++ extra)%list
    /\ List.length extra <= 1.
Proof.
  intros Hr Hev Hexec.
  destruct (reachable_invariant config sys Hr) as (Hmax & Hcases).
  assert (Hstart : forall s0 s0' st,
             printQueue s0 = printQueue (service sys) ->
             isProcessingQueue s0 = isProcessingQueue (service sys) ->
             processQueue_start s0 = (s0', st) ->
             (List.map job (drains sys ++ opt_list st) ++ printQueue s0')%list
             = pending sys).
  { intros s0 s0' st Hq Hf Hs. unfold pending.
    destruct (processQueue_start_cases s0) as [H | (j & rest & Hf0 & Hq0 & H)];
      rewrite H in Hs; inversion Hs; subst.
    - cbn [opt_list]. rewrite List.app_nil_r, Hq. reflexivity.
    - destruct Hcases as [(_ & Hd & _) | (Hf1 & _ & _)]; [|congruence].
      rewrite Hd. cbn. rewrite <- Hq, Hq0. reflexivity. }
  destruct ev as [receipt printerName | i e | i e | refreshed];
    cbn [notDrain] in Hev; try discriminate; cbn [exec] in Hexec.
  - inversion Hexec; subst. exists []%list. unfold pending. cbn.
    rewrite List.app_nil_r. split; [reflexivity | lia].
  - destruct (List.nth_error (requests sys) i) as [k|]; [|discriminate].
    destruct (resume config e k (service sys)) as [[p s1] st] eqn:Hres.
    inversion Hexec; subst. clear Hexec.
    destruct k as [receipt printerName | receipt printerName target].
    + cbn [resume] in Hres. unfold afterPrinters in Hres.
      destruct (env_printers e) as [printers|m];
        [|inversion Hres; subst; exists []%list;
          unfold pending; cbn; rewrite !List.app_nil_r;
          split; [reflexivity | lia]].
      destruct (targetPrinter printers printerName) as [target|];
        [|inversion Hres; subst; exists []%list;
          unfold pending; cbn; rewrite !List.app_nil_r;
          split; [reflexivity | lia]].
      destruct (negb (isOnline (status target)));
        [|inversion Hres; subst; exists []%list;
          unfold pending; cbn; rewrite !List.app_nil_r;
          split; [reflexivity | lia]].
      destruct (Nat.ltb (List.length (printQueue (service sys)))
                  (maxQueueSize (service sys)));
        inversion Hres; subst.
      * exists [newJob e receipt printerName]%list. unfold pending. cbn.
        rewrite List.app_nil_r, List.app_assoc. split; [reflexivity | lia].
      * exists []%list. unfold pending. cbn.
        rewrite !List.app_nil_r. split; [reflexivity | lia].
    + exists []%list. rewrite List.app_nil_r. split; [|cbn; lia].
      cbn [resume] in Hres. unfold afterSpooler in Hres.
      destruct (snd (formatReceipt config (env_logo e) receipt "sales"));
        [|inversion Hres; subst; unfold pending; cbn;
          now rewrite List.app_nil_r].
      destruct (env_print e a (name target));
        [|inversion Hres; subst; unfold pending; cbn;
          now rewrite List.app_nil_r].
      cbn [isProcessingQueue set_lastPrintTime] in Hres.
      destruct (negb (isProcessingQueue (service sys))).
      * destruct (processQueue_start
                    (set_lastPrintTime (Some (env_iso e)) (service sys)))
          as [s2 st2] eqn:Hs.
        inversion Hres; subst. unfold pending at 1. cbn [service drains].
        exact (Hstart (set_lastPrintTime (Some (env_iso e)) (service sys))
                 _ _ eq_refl eq_refl Hs).
      * inversion Hres; subst. unfold pending. cbn.
        now rewrite List.app_nil_r.
  - destruct (detectionTick refreshed (service sys)) as [s1 st] eqn:Ht.
    inversion Hexec; subst. exists []%list.
    rewrite List.app_nil_r. split; [|cbn; lia].
    unfold detectionTick in Ht. unfold pending at 1. cbn [service drains].
    destruct refreshed;
      [|inversion Ht; subst; unfold pending; cbn; now rewrite List.app_nil_r].
    destruct (Nat.ltb 0 (List.length (printQueue (service sys))));
      [|inversion Ht; subst; unfold pending; cbn; now rewrite List.app_nil_r].
    exact (Hstart (service sys) _ _ eq_refl eq_refl Ht).
Qed.

End Queue.

(** ** Concrete runs of the queue *)

Import Sample.

Lemma overfull_reachable : reachable config0 overfull.
Proof.
  apply (execAll_reachable config0 tenThenTimer (initial 0) overfull);
    [apply reachable_initial | exact tenThenTimer_runs].
Qed.

(** The bound of 11 is met by the state ten offline requests and one
    pass lead to. *)
Lemma queue_never_exceeds_eleven_witness :
  List.length (printQueue (service overfull)) = 11
  /\ maxQueueSize (service overfull) = 10
  /\ List.length (printQueue (service overfull)) <= 11
  /\ (drains overfull <> []%list ->
      List.length (printQueue (service overfull)) <= 10).
Proof.
  split; [vm_compute; reflexivity|].
  exact (queue_never_exceeds_eleven config0 overfull overfull_reachable).
Defined.

(** With two jobs queued and the printer online, the jobs a pass
    attempts are the first jobs of the queue. *)
Lemma pass_never_skips_witness :
  exists later : list Job,
    printQueue twoQueued
    = (attempted config0 3 (fun _ => env online 7) 0 (held "A")
         (fst (processQueue_start twoQueued)) ++ later)%list.
Proof.
  apply (pass_never_skips config0 3 (fun _ => env online 7) twoQueued
           (fst (processQueue_start twoQueued)) (held "A"));
    vm_compute; reflexivity.
Defined.

Lemma twoQueued_printable (k : nat) (j : Job) :
  List.In j (printQueue twoQueued) -> printable config0 (env online 7) j.
Proof.
  intros [<- | [<- | []]].
  - exists [rongta online]%list, (rongta online), (bytesOf (sale "A") "sales").
    repeat split; vm_compute; reflexivity.
  - exists [rongta online]%list, (rongta online), (bytesOf (sale "B") "sales").
    repeat split; vm_compute; reflexivity.
Qed.

(** With two jobs queued and the printer online, a pass prints both and
    empties the queue. *)
Lemma drain_prints_whole_queue_witness :
  exists s' : Service,
    processQueue config0 (fun _ => env online 7) twoQueued = Some s'
    /\ printQueue s' = []%list
    /\ isProcessingQueue s' = false
    /\ (forall (s1 : Service) (d : Drain),
          processQueue_start twoQueued = (s1, Some d) ->
          attempted config0 (S (List.length (printQueue s1)))
            (fun _ => env online 7) 0 d s1
          = printQueue twoQueued).
Proof.
  apply (drain_prints_whole_queue config0 (fun _ => env online 7) twoQueued).
  - vm_compute; reflexivity.
  - exact twoQueued_printable.
Defined.

(** The pass that holds [sale "A"] with two jobs queued behind it drops
    it when the spooler rejects it, and goes on with the next job. *)
Lemma drain_drops_job_on_spooler_failure_witness :
  attempt config0 (envRejecting 7) (held "A") twoQueued =
    match printQueue twoQueued with
    | [] => (set_isProcessingQueue false twoQueued, None, None)
    | next :: rest =>
        (set_printQueue rest twoQueued,
         Some {| job := next;
                 inner := AwaitPrinters (receipt next) (printerName next) |},
         None)
    end.
Proof.
  apply (drain_drops_job_on_spooler_failure config0 (envRejecting 7)
           (queuedJob "A") twoQueued [rongta online]%list (rongta online)
           (bytesOf (sale "A") "sales") "Print command failed: lp: Error");
    vm_compute; reflexivity.
Defined.

(** The pass that holds [sale "A"] with ten jobs queued behind it drops
    it while the printer is offline. *)
Lemma drain_drops_job_when_queue_full_witness :
  attempt config0 (env offline 9) (held "A") tenQueued =
    match printQueue tenQueued with
    | [] => (set_isProcessingQueue false tenQueued, None, None)
    | next :: rest =>
        (set_printQueue rest tenQueued,
         Some {| job := next;
                 inner := AwaitPrinters (receipt next) (printerName next) |},
         None)
    end.
Proof.
  apply (drain_drops_job_when_queue_full config0 (env offline 9)
           (queuedJob "A") tenQueued [rongta offline]%list (rongta offline)).
  - vm_compute; reflexivity.
  - vm_compute; reflexivity.
  - vm_compute; reflexivity.
  - vm_compute. lia.
Defined.

Lemma oneQueuedOneWaiting_reachable : reachable config0 oneQueuedOneWaiting.
Proof.
  apply (execAll_reachable config0
           (offlineRequest "A" ++ [Submit (sale "B") None])%list
           (initial 0) oneQueuedOneWaiting);
    [apply reachable_initial | vm_compute; reflexivity].
Qed.

(** Resuming the second request while the printer is offline adds its
    job behind the one already pending. *)
Lemma requests_keep_pending_order_witness :
  exists extra : list Job,
    pending bothQueued = (pending oneQueuedOneWaiting ++ extra)%list
    /\ List.length extra <= 1.
Proof.
  apply (requests_keep_pending_order config0 oneQueuedOneWaiting bothQueued
           (ResumeRequest 0 (env offline 6))).
  - exact oneQueuedOneWaiting_reachable.
  - reflexivity.
  - vm_compute; reflexivity.
Defined.

(** ** Validation, rendering and the routes *)

Import Accepts.

Section Receipts.
Context {N : JsNum} {R : JsRuntime} {D : JsDate}.
Variable config : Config.

Lemma validateItem_nil (item : prim) (index : nat) (found : list string) :
  validateItem item index = Ok found ->
  Nat.eqb (List.length found) 0 = itemOk item /\ nullish item = false.
Proof.
  unfold validateItem, itemOk.
  destruct (nullish item); [discriminate|].
  intros H; inversion H; subst; clear H. split; [|reflexivity].
  destruct (truthy (propOf item "name"));
    destruct (isNumber (propOf item "quantity"));
    destruct (isNumber (propOf item "price"));
    destruct (isNumber (propOf item "total")); reflexivity.
Qed.

Lemma validateItems_nil (l : list prim) :
  forall (index : nat) (found : list string),
    validateItems l index = Ok found ->
    Nat.eqb (List.length found) 0 = List.forallb itemOk l
    /\ List.forallb (fun item => negb (nullish item)) l = true.
Proof.
  induction l as [|item l IH]; intros index found;
    cbn [validateItems List.forallb].
  - intros H; inversion H; subst. now split.
  - destruct (validateItem item index) as [here|m] eqn:Hhere;
      cbn [Js.bind]; [|discriminate].
    destruct (validateItems l (S index)) as [more|m] eqn:Hmore;
      cbn [Js.bind]; [|discriminate].
    intros H; inversion H; subst; clear H.
    destruct (validateItem_nil item index here Hhere) as [Hi Hn].
    destruct (IH (S index) more Hmore) as [Hl Hnl].
    rewrite Hn, Hnl, <- Hi, <- Hl, List.length_app. split; [|reflexivity].
    destruct (List.length here); destruct (List.length more); reflexivity.
Qed.

(** [items] is given as a value that is not an array only when it is
    none. *)
Lemma items_prim (receipt : Receipt) (p : prim) :
  items receipt = ItemsPrim p -> forall l : list prim, p <> PArr l.
Proof.
  unfold items. intros H l ->.
  destruct (get (fields receipt) "items"); discriminate H.
Qed.

Lemma items_array (receipt : Receipt) (l : list prim) :
  items receipt = ItemsArray l -> get (fields receipt) "items" = PArr l.
Proof.
  unfold items.
  destruct (get (fields receipt) "items"); intros H; inversion H; reflexivity.
Qed.

(** The receipts [validateReceiptData] finds valid are those that meet
    every condition. *)
Lemma validateReceiptData_saleOk (receipt : Receipt) (v : Validation) :
  validateReceiptData (Some receipt) = Ok v ->
  valid v = saleOk receipt /\ (valid v = true <-> errors v = []%list).
Proof.
  unfold validateReceiptData, saleOk.
  assert (Hlen : forall l : list string,
             Nat.eqb (List.length l) 0 = true <-> l = []%list).
  { intros [|m l]; cbn; split; intros H; try reflexivity; discriminate. }
  assert (Harr : forall (l : list prim) (found : list string),
             validateItems l 0 = Ok found ->
             Nat.eqb
               (List.length
                  (((if negb (truthy (get (fields receipt) "orderNumber"))
                     then ["Order number is required"%string] else []) ++
                    (if negb (truthy (get (fields receipt) "date"))
                     then ["Date is required"%string] else []) ++
                    (if match l with [] => true | _ :: _ => false end
                     then ["Items array is required and must not be empty"
                           %string]
                     else []) ++
                    (if negb (isNumber (get (fields receipt) "subtotal"))
                     then ["Subtotal must be a number"%string] else []) ++
                    (if negb (isNumber (get (fields receipt) "tax"))
                     then ["Tax must be a number"%string] else []) ++
                    (if negb (isNumber (get (fields receipt) "total"))
                     then ["Total must be a number"%string] else []) ++
                    (if negb (truthy (get (fields receipt) "paymentMethod"))
                     then ["Payment method is required"%string] else []))
                   ++ found)%list) 0
             = (truthy (get (fields receipt) "orderNumber")
                && truthy (get (fields receipt) "date")
                && negb match l with [] => true | _ :: _ => false end
                && isNumber (get (fields receipt) "subtotal")
                && isNumber (get (fields receipt) "tax")
                && isNumber (get (fields receipt) "total")
                && truthy (get (fields receipt) "paymentMethod")
                && List.forallb itemOk l)%bool).
  { intros l found Hfound.
    destruct (validateItems_nil l 0 found Hfound) as [Hi _].
    rewrite List.length_app.
    destruct (List.forallb itemOk l);
      destruct (List.length found); try discriminate Hi;
      destruct l;
      destruct (truthy (get (fields receipt) "orderNumber"));
      destruct (truthy (get (fields receipt) "date"));
      destruct (isNumber (get (fields receipt) "subtotal"));
      destruct (isNumber (get (fields receipt) "tax"));
      destruct (isNumber (get (fields receipt) "total"));
      destruct (truthy (get (fields receipt) "paymentMethod"));
      cbn; try reflexivity; rewrite ?Nat.add_succ_r; reflexivity. }
  destruct (items receipt) as [p | l] eqn:Hitems.
  - pose proof (items_prim receipt p Hitems) as Hp.
    destruct p as [| |b|n|t|l|o]; try (now elim (Hp l));
      cbn [itemsMissing];
      match goal with
      | |- context [if truthy ?p then _ else _] => destruct (truthy p)
      end;
      cbn [Js.bind]; try discriminate;
      intros H; inversion H; subst; clear H; cbn [valid errors];
      (split; [|apply Hlen]);
      rewrite List.app_nil_r;
      destruct (truthy (get (fields receipt) "orderNumber"));
      destruct (truthy (get (fields receipt) "date")); reflexivity.
  - destruct (validateItems l 0) as [found|m] eqn:Hfound; cbn [Js.bind];
      [|discriminate].
    intros H; inversion H; subst; clear H. cbn [valid errors].
    split; [|apply Hlen].
    destruct l; exact (Harr _ found Hfound).
Qed.

(** (X9) [validateReceiptData] finds a receipt valid exactly when it has
    a truthy order number, date and payment method, numbers as subtotal,
    tax and total, and a non-empty array of items each with a truthy name
    and numbers as quantity, price and total; and that is exactly when it
    lists no error. *)
Theorem validateReceiptData_accepts (receipt : Receipt) (v : Validation) :
  validateReceiptData (Some receipt) = Ok v ->
  valid v = saleOk receipt /\ (valid v = true <-> errors v = []%list).
Proof.
  exact (validateReceiptData_saleOk receipt v).
Qed.

(** Every property of a flat receipt other than [items] is a scalar. *)
Lemma flat_get (receipt : Receipt) (key : string) :
  flat receipt = true ->
  String.eqb key "items" = false ->
  scalar (get (fields receipt) key) = true.
Proof.
  unfold flat. intros H Hk.
  induction (fields receipt) as [|[k v] o IH];
    cbn [get List.forallb fst snd] in *; [reflexivity|].
  apply andb_prop in H as [Hv Ho].
  destruct (String.eqb k key) eqn:E; [|now apply IH].
  apply String.eqb_eq in E. subst k. now rewrite Hk in Hv.
Qed.

(** The items of a flat receipt are flat. *)
Lemma flat_items (receipt : Receipt) (l : list prim) :
  flat receipt = true ->
  items receipt = ItemsArray l ->
  List.forallb flatItem l = true.
Proof.
  intros H Hi. apply items_array in Hi. revert H Hi. unfold flat.
  induction (fields receipt) as [|[k v] o IH];
    cbn [get List.forallb fst snd]; [discriminate|].
  intros H Hi. apply andb_prop in H as [Hv Ho].
  destruct (String.eqb k "items"); [|now apply IH].
  now subst v.
Qed.

(** Every property of a flat item is a scalar. *)
Lemma flatItem_propOf (item : prim) (key : string) :
  flatItem item = true -> scalar (propOf item key) = true.
Proof.
  destruct item as [| |b|n|t|l|o]; try reflexivity.
  cbn [flatItem propOf]. intros H.
  induction o as [|[k v] o IH]; cbn [get List.forallb snd] in *;
    [reflexivity|].
  apply andb_prop in H as [Hv Ho].
  destruct (String.eqb k key); [exact Hv | now apply IH].
Qed.

(** A truthy scalar has a [toString] that returns. *)
Lemma scalar_callable (v : prim) :
  scalar v = true -> truthy v = true -> callable v = true.
Proof.
  intros Hs Ht. rewrite (truthy_callable v Ht). now apply scalar_coercible.
Qed.

(** The loop over the items does not throw on flat items that passed the
    validation. *)
Lemma flatItems_render (l : list prim) :
  List.forallb itemOk l = true ->
  List.forallb flatItem l = true ->
  List.forallb itemRenders l = true.
Proof.
  induction l as [|item l IH]; cbn [List.forallb]; [reflexivity|].
  intros Hok Hflat.
  apply andb_prop in Hok as [Hi Hl]. apply andb_prop in Hflat as [Hf Hfl].
  rewrite (IH Hl Hfl), Bool.andb_true_r. unfold itemRenders.
  rewrite (scalar_coercible _ (flatItem_propOf item "name" Hf)),
    (scalar_coercible _ (flatItem_propOf item "quantity" Hf)).
  unfold itemOk in Hi.
  destruct item; cbn in Hi |- *; try discriminate Hi; reflexivity.
Qed.

(** What a valid receipt is known to have. *)
Lemma valid_sale (receipt : Receipt) (v : Validation) :
  validateReceiptData (Some receipt) = Ok v ->
  valid v = true ->
  truthy (get (fields receipt) "orderNumber") = true
  /\ truthy (get (fields receipt) "paymentMethod") = true
  /\ exists l : list prim,
       items receipt = ItemsArray l /\ List.forallb itemOk l = true.
Proof.
  intros Hv Hvalid.
  destruct (validateReceiptData_saleOk receipt v Hv) as (Hs & _).
  rewrite Hvalid in Hs. symmetry in Hs. unfold saleOk in Hs.
  repeat (apply andb_prop in Hs; destruct Hs as [Hs ?]).
  split; [assumption|]. split; [assumption|].
  destruct (items receipt) as [p | l] eqn:Hitems.
  - pose proof (items_prim receipt p Hitems) as Hp.
    destruct p as [| |b|n|t|l|o]; try discriminate. now elim (Hp l).
  - now exists l.
Qed.

(** On a flat receipt that passed the validation, the sales template
    throws exactly when the payment method is not a string. *)
Lemma valid_flat_renders (receipt : Receipt) (v : Validation) :
  validateReceiptData (Some receipt) = Ok v ->
  valid v = true ->
  flat receipt = true ->
  salesRenders receipt = isString (get (fields receipt) "paymentMethod").
Proof.
  intros Hv Hvalid Hflat.
  destruct (valid_sale receipt v Hv Hvalid) as (Ho & _ & l & Hi & Hl).
  unfold salesRenders. cbn [meets]. rewrite Hi. cbn [iterate].
  rewrite (flatItems_render l Hl (flat_items receipt l Hflat Hi)).
  rewrite (scalar_callable _ (flat_get receipt "orderNumber" Hflat eq_refl) Ho).
  rewrite (scalar_coercible _ (flat_get receipt "date" Hflat eq_refl)).
  rewrite (scalar_coercible _ (flat_get receipt "cashier" Hflat eq_refl)).
  rewrite (scalar_coercible _ (flat_get receipt "tax" Hflat eq_refl)).
  rewrite (scalar_coercible _
             (flat_get receipt "transferReference" Hflat eq_refl)).
  rewrite !Bool.orb_true_r. cbn [andb]. now rewrite Bool.andb_true_r.
Qed.

(** The sales template up to the payment section: when no step before
    it throws, what [formatPaymentMethod] throws is what the template
    throws. *)
Lemma formatSalesReceipt_payment (receipt : Receipt) (l : list prim)
  (m : string) :
  callable (get (fields receipt) "orderNumber") = true ->
  coercible (get (fields receipt) "date") = true ->
  coercible (get (fields receipt) "cashier") = true ->
  iterate (items receipt) = Ok l ->
  List.forallb itemRenders l = true ->
  coercible (get (fields receipt) "tax") = true ->
  formatPaymentMethod (get (fields receipt) "paymentMethod") = Throw m ->
  formatSalesReceipt config receipt = Throw m.
Proof.
  intros Ho Hd Hc Hi Hl Ht Hm. unfold formatSalesReceipt.
  repeat
    match goal with
    | |- Js.bind (formatPaymentMethod _) _ = _ =>
        rewrite Hm; cbn [Js.bind]; reflexivity
    | |- context [Js.bind (iterate _) _] => rewrite Hi; cbn [Js.bind]
    | |- context [Js.bind (formatItems ?c ?its ?o) _] =>
        let P := fresh "P" in
        pose proof (formatItems_isOk c its o) as P; rewrite Hl in P;
        destruct (formatItems c its o); [cbn [Js.bind] | discriminate P]
    | |- context [Js.bind (if truthy ?v then _ else _) _] =>
        let T := fresh "T" in destruct (truthy v) eqn:T
    | |- context [Js.bind (formatLine ?c ?lb ?w) _] =>
        let P := fresh "P" in
        let E := fresh "E" in
        pose proof (formatLine_isOk c lb w) as P;
        destruct (formatLine c lb w) eqn:E;
        [ cbn [Js.bind]; clear P E
        | exfalso;
          first
            [ now apply formatLine_str in E
            | cbn [isOk] in P;
              rewrite ?callable_formatDate in P;
              try (rewrite truthy_callable in P by assumption);
              congruence ] ]
    | |- context [Js.bind (gt0 ?v) _] =>
        let P := fresh "P" in
        pose proof (gt0_isOk v) as P;
        destruct (gt0 v); [cbn [Js.bind] | cbn [isOk] in P; congruence]
    | |- context [Js.bind (Ok ?x) _] => cbn [Js.bind]
    | |- context [Js.bind (if ?b then _ else _) _] => destruct b
    end.
Qed.

(** (X10) A valid receipt of scalars, its items objects of scalars,
    whose payment method is a string is always printed when the default
    printer is online and the spooler accepts: rendering does not throw,
    [POST /print] answers 200 with the printed result for that printer,
    and the time of the print is recorded.  (A valid receipt that holds
    an object where the template prints a value need not be printed: the
    validation does not look at what a truthy property is.) *)
Theorem valid_sale_is_printed
  (e : Env) (now : string) (receipt : Receipt) (s : Service)
  (v : Validation) (m : string) (printers : list PrinterInfo)
  (target : PrinterInfo) :
  validateReceiptData (Some receipt) = Ok v ->
  valid v = true ->
  flat receipt = true ->
  get (fields receipt) "paymentMethod" = PStr m ->
  env_printers e = Ok printers ->
  targetPrinter printers None = Some target ->
  isOnline (status target) = true ->
  (forall bytes : string, env_print e bytes (name target) = Ok tt) ->
  exists (bytes : string) (s' : Service) (started : option Drain),
    snd (formatReceipt config (env_logo e) receipt "sales") = Ok bytes
    /\ printRoute config e now (Some receipt) s =
         ({| statusCode := 200;
             body := PrintBody
                       {| success := true;
                          message := "Receipt printed successfully";
                          printerId := name target;
                          queued := None;
                          timestamp := Some now |} |},
          s', started)
    /\ lastPrintTime s' = Some (env_iso e).
Proof.
  intros Hv Hvalid Hflat Hm Hp Ht Hon Hprint.
  assert (Hf : exists bytes,
             snd (formatReceipt config (env_logo e) receipt "sales")
             = Ok bytes).
  { pose proof (formatReceipt_isOk config (env_logo e) receipt "sales") as Hr.
    change (formatByType config receipt "sales")
      with (([] : list LogEntry), formatSalesReceipt config receipt) in Hr.
    cbn [snd] in Hr.
    rewrite formatSalesReceipt_isOk,
      (valid_flat_renders receipt v Hv Hvalid Hflat), Hm in Hr.
    destruct (snd (formatReceipt config (env_logo e) receipt "sales"))
      as [bytes|err]; [now exists bytes | discriminate Hr]. }
  destruct Hf as [bytes Hf]. exists bytes.
  unfold printRoute. rewrite Hv, Hvalid. cbn [negb].
  unfold processPrintJob.
  rewrite (afterPrinters_online e receipt None s printers target Hp Ht Hon).
  unfold afterSpooler. rewrite Hf, Hprint.
  cbn [isProcessingQueue set_lastPrintTime].
  destruct (negb (isProcessingQueue s)).
  - destruct (processQueue_start_cases
                (set_lastPrintTime (Some (env_iso e)) s))
      as [Hs | (j & rest & _ & _ & Hs)]; rewrite Hs;
      eexists; eexists; (split; [exact eq_refl|]);
      (split; [reflexivity|]); reflexivity.
  - eexists; eexists. split; [exact eq_refl|]. split; reflexivity.
Qed.

(** (X11) Validation does not ask that the payment method be a string.
    A receipt found valid whose payment method is not one is never
    rendered: the sales template throws, [POST /preview] answers 500
    with the message of the renderer, and so does [POST /print] once the
    printer is online, leaving the service as it was.  On a receipt of
    scalars, its items objects of scalars, the template throws when it
    lower-cases the method, and the message is that [toLowerCase] is not
    a function. *)
Theorem valid_sale_without_payment_string_fails
  (e : Env) (logoAccessible : bool) (now : string) (receipt : Receipt)
  (s : Service) (v : Validation) (printers : list PrinterInfo)
  (target : PrinterInfo) :
  validateReceiptData (Some receipt) = Ok v ->
  valid v = true ->
  (forall m : string, get (fields receipt) "paymentMethod" <> PStr m) ->
  env_printers e = Ok printers ->
  targetPrinter printers None = Some target ->
  isOnline (status target) = true ->
  exists reason : string,
    formatSalesReceipt config receipt = Throw reason
    /\ snd (formatReceipt config logoAccessible receipt "sales")
       = Throw ("Failed to format receipt: " ++ reason)
    /\ previewRoute config logoAccessible now (Some receipt) s =
         (errorResponse ("Failed to format receipt: " ++ reason) now, s)
    /\ printRoute config e now (Some receipt) s =
         (errorResponse ("Failed to format receipt: " ++ reason) now, s, None)
    /\ (flat receipt = true ->
        reason = "method.toLowerCase is not a function").
Proof.
  intros Hv Hvalid Hm Hp Ht Hon.
  destruct (valid_sale receipt v Hv Hvalid) as (Ho & Hpay & l & Hi & Hl).
  assert (Hthrow : formatPaymentMethod (get (fields receipt) "paymentMethod")
                   = Throw "method.toLowerCase is not a function"
                   /\ isString (get (fields receipt) "paymentMethod") = false).
  { destruct (get (fields receipt) "paymentMethod") as [| |b|n|m|a|o];
      cbn in Hpay; try discriminate; try (now split).
    now elim (Hm m). }
  destruct Hthrow as [Hthrow Hstr].
  assert (Hsales : salesRenders receipt = false).
  { unfold salesRenders. rewrite Hstr. cbn [andb].
    now rewrite !Bool.andb_false_r. }
  rewrite <- formatSalesReceipt_isOk with (config := config) in Hsales.
  destruct (formatSalesReceipt config receipt) as [b|reason] eqn:Hb;
    [discriminate Hsales|].
  exists reason. split; [reflexivity|].
  assert (Hf : forall logo,
             snd (formatReceipt config logo receipt "sales")
             = Throw ("Failed to format receipt: " ++ reason)).
  { intros logo. unfold formatReceipt.
    change (formatByType config receipt "sales")
      with (([] : list LogEntry), formatSalesReceipt config receipt).
    destruct (processLogo logo) as [logoLog logoText].
    rewrite Hb. reflexivity. }
  split; [exact (Hf logoAccessible)|]. split; [|split].
  - unfold previewRoute, previewReceipt. rewrite Hv, Hvalid. cbn [negb].
    pose proof (Hf logoAccessible) as Hlogo.
    destruct (formatReceipt config logoAccessible receipt "sales")
      as [log formatted].
    cbn [snd] in Hlogo. rewrite Hlogo. reflexivity.
  - unfold printRoute. rewrite Hv, Hvalid. cbn [negb].
    unfold processPrintJob.
    rewrite (afterPrinters_online e receipt None s printers target Hp Ht Hon).
    unfold afterSpooler. rewrite (Hf (env_logo e)). reflexivity.
  - intros Hflat.
    assert (Hpayment : formatSalesReceipt config receipt
                       = Throw "method.toLowerCase is not a function").
    { apply formatSalesReceipt_payment with (l := l).
      - exact (scalar_callable _
                 (flat_get receipt "orderNumber" Hflat eq_refl) Ho).
      - exact (scalar_coercible _ (flat_get receipt "date" Hflat eq_refl)).
      - exact (scalar_coercible _ (flat_get receipt "cashier" Hflat eq_refl)).
      - rewrite Hi. reflexivity.
      - exact (flatItems_render l Hl (flat_items receipt l Hflat Hi)).
      - exact (scalar_coercible _ (flat_get receipt "tax" Hflat eq_refl)).
      - exact Hthrow. }
    rewrite Hb in Hpayment. now inversion Hpayment.
Qed.

(** (X12) A receipt whose [items] is a truthy value that is not an array
    (a string, a number, [true]) is not answered as invalid: the
    validation itself throws when it calls [forEach], and both routes
    answer 500 with that message, not 400, leaving the service as it
    was. *)
Theorem non_array_items_is_server_error
  (e : Env) (logoAccessible : bool) (now : string) (receipt : Receipt)
  (s : Service) (p : prim) :
  items receipt = ItemsPrim p ->
  truthy p = true ->
  printRoute config e now (Some receipt) s =
    (errorResponse "receipt.items.forEach is not a function" now, s, None)
  /\ previewRoute config logoAccessible now (Some receipt) s =
       (errorResponse "receipt.items.forEach is not a function" now, s).
Proof.
  intros Hi Hp.
  assert (Hv : validateReceiptData (Some receipt)
               = Throw "receipt.items.forEach is not a function").
  { unfold validateReceiptData. rewrite Hi.
    pose proof (items_prim receipt p Hi) as Harr.
    destruct p as [| |b|n|t|l|o]; try (now elim (Harr l));
      rewrite Hp; reflexivity. }
  unfold printRoute, previewRoute. rewrite Hv. now split.
Qed.

End Receipts.

(** ** Concrete receipts through validation and the routes *)

(** The sample sale meets every condition and is found valid. *)
Lemma validateReceiptData_accepts_witness :
  saleOk (sale "A") = true
  /\ valid accepted = saleOk (sale "A")
  /\ (valid accepted = true <-> errors accepted = []%list).
Proof.
  split; [vm_compute; reflexivity|].
  apply (validateReceiptData_accepts (sale "A") accepted).
  vm_compute; reflexivity.
Defined.

(** The sample sale is printed on the online printer. *)
Lemma valid_sale_is_printed_witness :
  exists (bytes : string) (s' : Service) (started : option Drain),
    snd (formatReceipt config0 (env_logo (env online 7)) (sale "A") "sales")
    = Ok bytes
    /\ printRoute config0 (env online 7) "2024-08-09T12:05:01.000Z"
         (Some (sale "A")) (constructor 0) =
         ({| statusCode := 200;
             body := PrintBody
                       {| success := true;
                          message := "Receipt printed successfully";
                          printerId := name (rongta online);
                          queued := None;
                          timestamp := Some "2024-08-09T12:05:01.000Z" |} |},
          s', started)
    /\ lastPrintTime s' = Some (env_iso (env online 7)).
Proof.
  apply (valid_sale_is_printed config0 (env online 7)
           "2024-08-09T12:05:01.000Z" (sale "A") (constructor 0) accepted
           "cash" [rongta online]%list (rongta online));
    vm_compute; reflexivity.
Defined.

(** A sale whose payment method is the number 1 is found valid and
    cannot be rendered. *)
Lemma valid_sale_without_payment_string_fails_witness :
  validateReceiptData (Some paidByNumber) = Ok accepted
  /\ snd (formatReceipt config0 false paidByNumber "sales")
     = Throw "Failed to format receipt: method.toLowerCase is not a function"
  /\ previewRoute config0 false "2024-08-09T12:05:01.000Z"
       (Some paidByNumber) (constructor 0) =
       (errorResponse
          "Failed to format receipt: method.toLowerCase is not a function"
          "2024-08-09T12:05:01.000Z", constructor 0)
  /\ printRoute config0 (env online 7) "2024-08-09T12:05:01.000Z"
       (Some paidByNumber) (constructor 0) =
       (errorResponse
          "Failed to format receipt: method.toLowerCase is not a function"
          "2024-08-09T12:05:01.000Z", constructor 0, None).
Proof.
  split; [vm_compute; reflexivity|].
  destruct (valid_sale_without_payment_string_fails config0 (env online 7)
              false "2024-08-09T12:05:01.000Z" paidByNumber (constructor 0)
              accepted [rongta online]%list (rongta online))
    as (reason & _ & Hf & Hpreview & Hprint & Hflat);
    try (vm_compute; reflexivity).
  { intros m H. vm_compute in H. discriminate H. }
  assert (Hr : reason = "method.toLowerCase is not a function")
    by (apply Hflat; vm_compute; reflexivity).
  subst reason. split; [exact Hf|]. split; [exact Hpreview | exact Hprint].
Defined.

(** A sale whose [items] is the string [none] is answered 500 by both
    routes. *)
Lemma non_array_items_is_server_error_witness :
  printRoute config0 (env online 7) "2024-08-09T12:05:01.000Z"
    (Some (withItems (PStr "none"))) (constructor 0) =
    (errorResponse "receipt.items.forEach is not a function"
       "2024-08-09T12:05:01.000Z", constructor 0, None)
  /\ previewRoute config0 false "2024-08-09T12:05:01.000Z"
       (Some (withItems (PStr "none"))) (constructor 0) =
       (errorResponse "receipt.items.forEach is not a function"
          "2024-08-09T12:05:01.000Z", constructor 0).
Proof.
  apply (non_array_items_is_server_error config0 (env online 7) false
           "2024-08-09T12:05:01.000Z" (withItems (PStr "none"))
           (constructor 0) (PStr "none")); reflexivity.
Defined.

(** A sale whose one item is [null]: the validation throws when it reads
    the name of the item, and so does the renderer. *)
Example null_item_throws :
  validateReceiptData (Some (withItems (PArr [PNull]%list)))
  = Throw "Cannot read properties of null (reading 'name')"
  /\ snd (formatReceipt config0 false (withItems (PArr [PNull]%list)) "sales")
     = Throw ("Failed to format receipt: "
              ++ "Cannot read properties of null (reading 'name')").
Proof. split; vm_compute; reflexivity. Qed.

(** A sale whose order number is an object with a [toString] of its own
    is found valid, and is not printed: [formatLine] throws on the order
    number, and [POST /print] answers 500. *)
Example valid_sale_with_object_fails :
  validateReceiptData (Some (saleNumbered noToString)) = Ok accepted
  /\ flat (saleNumbered noToString) = false
  /\ snd (formatReceipt config0 false (saleNumbered noToString) "sales")
     = Throw "Failed to format receipt: value.toString is not a function"
  /\ printRoute config0 (env online 7) "2024-08-09T12:05:01.000Z"
       (Some (saleNumbered noToString)) (constructor 0)
     = (errorResponse
          "Failed to format receipt: value.toString is not a function"
          "2024-08-09T12:05:01.000Z", constructor 0, None).
Proof. repeat split; vm_compute; reflexivity. Qed.

(** ** Lines and type tags *)

Section Lines.
Context {N : JsNum} {R : JsRuntime} {D : JsDate}.
Variable config : Config.

Lemma length_repeat (c : ascii) (n : nat) :
  String.length (Js.repeat (String c "") n) = n.
Proof. induction n as [|n IH]; cbn; [reflexivity | now rewrite IH]. Qed.

Lemma length_substring (text : string) :
  forall n : nat,
    String.length (String.substring 0 n text)
    = Nat.min n (String.length text).
Proof.
  induction text as [|c text IH]; intros [|n]; cbn; try reflexivity.
  now rewrite IH.
Qed.

(** (X13) A line that [formatLine] lays out is exactly as wide as the
    paper whenever the value is shorter than the paper, the label being
    padded or cut as needed; a value as wide as the paper or wider is
    printed whole after one space, so that the line overflows. *)
Theorem formatLine_width (label : string) (value : prim) (v : string) :
  callToString value = Ok v ->
  exists line : string,
    formatLine config label value = Ok line
    /\ String.length line =
       if Nat.ltb (String.length v) (paperWidth config)
       then paperWidth config
       else S (String.length v).
Proof.
  intros Hv.
  pose proof (callToString_toStr value v Hv) as Hs.
  unfold formatLine. rewrite Hv. cbn [Js.bind]. rewrite Hs.
  destruct (Z.ltb_spec 0
              (Z.of_nat (paperWidth config) - Z.of_nat (String.length label)
               - Z.of_nat (String.length v))) as [Hpos | Hneg].
  - eexists. split; [reflexivity|].
    rewrite !length_append, length_repeat.
    destruct (Nat.ltb_spec (String.length v) (paperWidth config)); lia.
  - eexists. split; [reflexivity|]. unfold substring0.
    rewrite !length_append, length_substring. cbn [String.length].
    destruct (Nat.ltb_spec (String.length v) (paperWidth config)); lia.
Qed.

(** A known tag takes one of the five cases of the [switch], which log
    nothing. *)
Lemma formatByType_known (receipt : Receipt) (type : string) :
  isKnownType type = true -> fst (formatByType config receipt type) = []%list.
Proof.
  unfold isKnownType, knownTypes, formatByType. cbn [List.existsb].
  rewrite (String.eqb_sym (toLowerCase type) "sales").
  rewrite (String.eqb_sym (toLowerCase type) "cash_transfer").
  rewrite (String.eqb_sym (toLowerCase type) "shift_closure").
  rewrite (String.eqb_sym (toLowerCase type) "shift_handoff").
  rewrite (String.eqb_sym (toLowerCase type) "cash_expense").
  destruct (String.eqb "sales" (toLowerCase type)); [reflexivity|].
  destruct (String.eqb "cash_transfer" (toLowerCase type)); [reflexivity|].
  destruct (String.eqb "shift_closure" (toLowerCase type)); [reflexivity|].
  destruct (String.eqb "shift_handoff" (toLowerCase type)); [reflexivity|].
  destruct (String.eqb "cash_expense" (toLowerCase type)); [reflexivity|].
  discriminate.
Qed.

(** (X14) [formatReceipt] logs the warning about an unknown receipt type
    exactly when the tag, lower-cased, is none of the five known ones,
    whether the rendering then succeeds or throws. *)
Theorem unknown_type_warning_iff
  (logoAccessible : bool) (receipt : Receipt) (type : string) :
  List.In
    (logMsg Warn ("Unknown receipt type: " ++ type ++
                  ", falling back to sales format"))
    (fst (formatReceipt config logoAccessible receipt type))
  <-> isKnownType type = false.
Proof.
  split.
  - intros Hin. destruct (isKnownType type) eqn:Hk; [exfalso | reflexivity].
    pose proof (formatByType_known receipt type Hk) as Hlog.
    unfold formatReceipt in Hin.
    destruct (formatByType config receipt type) as [typeLog body].
    cbn [fst] in Hlog. subst typeLog.
    unfold processLogo in Hin.
    destruct logoAccessible; destruct body; cbn in Hin;
      repeat (destruct Hin as [Hin | Hin]; [discriminate Hin|]);
      exact Hin.
  - intros Hu. unfold formatReceipt.
    rewrite (formatByType_unknown config receipt type Hu).
    destruct (processLogo logoAccessible) as [logoLog logoText].
    destruct (formatSalesReceipt config receipt); cbn [fst];
      apply List.in_or_app; right; now left.
Qed.

End Lines.

(** With the default width of 48, a short value gives a line of 48
    characters. *)
Lemma formatLine_width_witness :
  exists line : string,
    formatLine config0 "Pedido #:" (@PStr Num_Z "A-17") = Ok line
    /\ String.length line =
       if Nat.ltb (String.length "A-17") (paperWidth config0)
       then paperWidth config0
       else S (String.length "A-17").
Proof.
  apply (formatLine_width config0 "Pedido #:" (@PStr Num_Z "A-17") "A-17").
  reflexivity.
Defined.

(** ** When a template renders *)

Import Renders.

Section Templates.
Context {N : JsNum} {R : JsRuntime} {D : JsDate}.
Variable config : Config.

(** On a scalar, a use throws only where [toString] is called on
    [undefined] or [null]. *)
Lemma scalar_meets (use : Use) (v : prim) :
  scalar v = true ->
  meets use v = match use with Called => negb (nullish v) | _ => true end.
Proof.
  intros Hs. pose proof (scalar_coercible v Hs) as Hc.
  destruct use; cbn [meets]; unfold callable; rewrite Hc;
    [apply Bool.andb_true_r | reflexivity | apply Bool.orb_true_r].
Qed.

(** (X15) [formatReceipt] renders a cash transfer, a shift closure, a
    shift handoff or a cash expense exactly when every property its
    template prints other than as an amount can be printed: a property
    handed to [formatLine] is not [undefined] or [null] and has a
    [toString] that returns, a date or a time converts to a string, and
    a property printed only when it is truthy converts when it is.  On a
    receipt of scalars that is exactly when no property handed to
    [formatLine] as it is, is [undefined] or [null].  No amount,
    whatever its value or absence, makes the template throw. *)
Theorem internal_receipt_renders_iff
  (logoAccessible : bool) (receipt : Receipt) (type : string) :
  List.In type ["cash_transfer"; "shift_closure"; "shift_handoff";
                "cash_expense"]%list ->
  isOk (snd (formatReceipt config logoAccessible receipt type))
  = allMet (fields receipt) (printed type)
  /\ (flat receipt = true ->
      isOk (snd (formatReceipt config logoAccessible receipt type))
      = List.forallb
          (fun use =>
             match fst use with
             | Called => negb (nullish (get (fields receipt) (snd use)))
             | _ => true
             end)
          (printed type)).
Proof.
  intros Hin.
  assert (Hexact : isOk (snd (formatReceipt config logoAccessible receipt type))
                   = allMet (fields receipt) (printed type)).
  { rewrite formatReceipt_isOk.
    destruct Hin as [<- | [<- | [<- | [<- | []]]]].
    - exact (formatCashTransferReceipt_isOk config receipt).
    - exact (formatShiftClosureReceipt_isOk config receipt).
    - exact (formatShiftHandoffReceipt_isOk config receipt).
    - exact (formatCashExpenseReceipt_isOk config receipt). }
  split; [exact Hexact|].
  intros Hflat. rewrite Hexact. unfold allMet.
  destruct Hin as [<- | [<- | [<- | [<- | []]]]];
    cbn [printed String.eqb Ascii.eqb Bool.eqb List.forallb fst snd];
    rewrite !scalar_meets by (apply flat_get; [exact Hflat | reflexivity]);
    reflexivity.
Qed.

(** The elements a loop over the items of a flat receipt visits are
    flat. *)
Lemma flat_iterate (receipt : Receipt) (l : list prim) :
  flat receipt = true ->
  iterate (items receipt) = Ok l ->
  List.forallb flatItem l = true.
Proof.
  intros Hflat. destruct (items receipt) as [p | a] eqn:Hi.
  - pose proof (items_prim receipt p Hi) as Hp.
    destruct p as [| |b|n|t|a|o]; cbn [iterate]; try discriminate.
    + intros H; inversion H; subst; clear H.
      induction (list_ascii_of_string t) as [|c cs IH];
        [reflexivity | exact IH].
    + now elim (Hp a).
  - cbn [iterate]. intros H; inversion H; subst.
    exact (flat_items receipt l Hflat Hi).
Qed.

(** The loop over the items throws on a flat item only when it is
    [null]. *)
Lemma flatItems_renders (l : list prim) :
  List.forallb flatItem l = true ->
  List.forallb itemRenders l
  = List.forallb (fun item => negb (nullish item)) l.
Proof.
  induction l as [|item l IH]; cbn [List.forallb]; [reflexivity|].
  intros H. apply andb_prop in H as [Hf Hl]. rewrite (IH Hl).
  unfold itemRenders.
  rewrite (scalar_coercible _ (flatItem_propOf item "name" Hf)),
    (scalar_coercible _ (flatItem_propOf item "quantity" Hf)).
  now rewrite !Bool.andb_true_r.
Qed.

(** (X16) [formatReceipt] renders a receipt with the sales template (the
    tag [sales] in any case, or a tag it does not know) exactly when no
    step of the template throws: the order number is not [undefined] or
    [null] and has a [toString] that returns, the date and a truthy
    cashier or tax convert to strings, [items] is an array or a string,
    no item is [null] or has a name or a quantity that does not convert,
    the payment method is a string, and the truthy reference of a
    payment by transfer converts.  On a receipt of scalars, its items
    objects of scalars, that is exactly when the order number and every
    item are neither [undefined] nor [null], [items] is an array or a
    string and the payment method is a string.  Nothing else of the
    receipt can make it throw: not the amounts, a missing date, or an
    empty array of items. *)
Theorem sales_receipt_renders_iff
  (logoAccessible : bool) (receipt : Receipt) (type : string) :
  toLowerCase type = "sales" \/ isKnownType type = false ->
  isOk (snd (formatReceipt config logoAccessible receipt type))
  = salesRenders receipt
  /\ (flat receipt = true ->
      isOk (snd (formatReceipt config logoAccessible receipt type))
      = (negb (nullish (get (fields receipt) "orderNumber"))
         && (match iterate (items receipt) with
             | Ok l => List.forallb (fun item => negb (nullish item)) l
             | Throw _ => false
             end
             && isString (get (fields receipt) "paymentMethod")))%bool).
Proof.
  intros Htype.
  assert (Hexact : isOk (snd (formatReceipt config logoAccessible receipt type))
                   = salesRenders receipt).
  { rewrite formatReceipt_isOk.
    assert (Hbody : snd (formatByType config receipt type)
                    = formatSalesReceipt config receipt).
    { destruct Htype as [Hs | Hu].
      - unfold formatByType. rewrite Hs. reflexivity.
      - now rewrite (formatByType_unknown config receipt type Hu). }
    rewrite Hbody. exact (formatSalesReceipt_isOk config receipt). }
  split; [exact Hexact|].
  intros Hflat. rewrite Hexact. unfold salesRenders.
  rewrite !scalar_meets by (apply flat_get; [exact Hflat | reflexivity]).
  cbn [andb orb].
  destruct (iterate (items receipt)) as [l|m] eqn:Hi.
  - rewrite (flatItems_renders l (flat_iterate receipt l Hflat Hi)).
    now rewrite Bool.orb_true_r, Bool.andb_true_r.
  - reflexivity.
Qed.

End Templates.

(** ** The preview and its codes *)

Import Codes.

Section PreviewCodes.
Context {N : JsNum} {R : JsRuntime} {D : JsDate}.
Variable config : Config.

(** Both functions go through the same table. *)
Lemma listEscPosCodes_table (text : string) :
  listEscPosCodes text = List.fold_left (listCode text) codeTable []%list.
Proof. reflexivity. Qed.

Lemma stripEscPosCodes_table (text : string) :
  stripEscPosCodes text
  = replaceAll CR "" (List.fold_left stripCode codeTable text).
Proof. reflexivity. Qed.

(** Where a pattern does not occur, nothing is replaced. *)
Lemma replaceAll_absent (pat rep : string) (text : string) :
  includes text pat = false -> replaceAll pat rep text = text.
Proof.
  unfold includes, replaceAll.
  induction text as [|c text IH]; [reflexivity|].
  cbn [String.index replaceFrom].
  destruct (String.prefix pat (String c text)); [discriminate|].
  intros H. rewrite IH; [reflexivity|].
  destruct (String.index 0 pat text); [discriminate | reflexivity].
Qed.

Lemma listCode_nil (text : string) (table : list (string * string * string)) :
  forall codes : list string,
    List.fold_left (listCode text) table codes = []%list ->
    codes = []%list
    /\ List.Forall (fun code => includes text (fst (fst code)) = false) table.
Proof.
  induction table as [|[[pat tag] name] table IH]; intros codes;
    cbn [List.fold_left]; [now split|].
  intros H. destruct (IH _ H) as (Hc & Hall). unfold listCode in Hc.
  destruct (includes text pat) eqn:Hinc.
  - destruct codes; discriminate Hc.
  - split; [exact Hc|]. constructor; [exact Hinc | exact Hall].
Qed.

Lemma stripCode_absent (text : string)
  (table : list (string * string * string)) :
  List.Forall (fun code => includes text (fst (fst code)) = false) table ->
  List.fold_left stripCode table text = text.
Proof.
  induction 1 as [|[[pat tag] name] table Hinc Hall IH];
    cbn [List.fold_left]; [reflexivity|].
  cbn [fst stripCode] in *. now rewrite (replaceAll_absent pat tag text Hinc).
Qed.

(** (X17) The two halves of the preview agree: for a text in which
    [listEscPosCodes] finds no code and which has no carriage return,
    [stripEscPosCodes] returns the text unchanged. *)
Theorem text_without_codes_is_kept (text : string) :
  listEscPosCodes text = []%list ->
  includes text CR = false ->
  stripEscPosCodes text = text.
Proof.
  intros Hl Hcr. rewrite listEscPosCodes_table in Hl.
  destruct (listCode_nil text codeTable []%list Hl) as (_ & Hall).
  rewrite stripEscPosCodes_table, (stripCode_absent text codeTable Hall).
  now apply replaceAll_absent.
Qed.

Lemma string_app_assoc (a b c : string) : ((a ++ b) ++ c = a ++ (b ++ c))%string.
Proof. induction a as [|x a IH]; cbn; [reflexivity | now rewrite IH]. Qed.

Lemma string_app_nil_r (a : string) : (a ++ "")%string = a.
Proof. induction a as [|x a IH]; cbn; [reflexivity | now rewrite IH]. Qed.

Lemma prefix_app (pat rest : string) : String.prefix pat (pat ++ rest) = true.
Proof.
  induction pat as [|c pat IH]; cbn; [now destruct rest|].
  destruct (Ascii.ascii_dec c c) as [_|Hne]; [exact IH | now elim Hne].
Qed.

(** A text that contains a pattern includes it. *)
Lemma includes_app (before pat rest : string) :
  includes (before ++ pat ++ rest) pat = true.
Proof.
  unfold includes. induction before as [|c before IH]; cbn [String.append].
  - destruct (pat ++ rest)%string as [|c text] eqn:Ht.
    + destruct pat; [reflexivity | discriminate Ht].
    + cbn [String.index]. rewrite <- Ht, prefix_app. reflexivity.
  - cbn [String.index].
    destruct (String.prefix pat (String c (before ++ pat ++ rest)));
      [reflexivity|].
    destruct (String.index 0 pat (before ++ pat ++ rest));
      [reflexivity | discriminate IH].
Qed.

Lemma listCode_keeps (text name : string)
  (table : list (string * string * string)) :
  forall codes : list string,
    List.In name codes ->
    List.In name (List.fold_left (listCode text) table codes).
Proof.
  induction table as [|[[pat tag] name'] table IH]; intros codes Hin;
    cbn [List.fold_left]; [exact Hin|].
  apply IH. unfold listCode. destruct (includes text pat); [|exact Hin].
  apply List.in_or_app. now left.
Qed.

Lemma listCode_in (text pat tag name : string)
  (table : list (string * string * string)) :
  List.In (pat, tag, name) table ->
  includes text pat = true ->
  forall codes : list string,
    List.In name (List.fold_left (listCode text) table codes).
Proof.
  intros Hin Hinc.
  induction table as [|code table IH]; intros codes; [now elim Hin|].
  cbn [List.fold_left]. destruct Hin as [-> | Hin]; [|now apply IH].
  apply listCode_keeps. unfold listCode. rewrite Hinc.
  apply List.in_or_app. right. now left.
Qed.

(** (X18) Whatever the receipt and its type, the bytes [formatReceipt]
    returns begin with the initialisation, the PC437 character set and
    the normal font, and end with three line feeds and the cut of the
    paper; so the preview of every receipt lists at least these four
    codes. *)
Theorem rendered_receipt_is_framed
  (logoAccessible : bool) (receipt : Receipt) (type : string)
  (bytes : string) :
  snd (formatReceipt config logoAccessible receipt type) = Ok bytes ->
  (exists body : string,
      bytes = ESC_POS.INIT ++ ESC_POS.CHARSET_PC437 ++ ESC_POS.NORMAL_TEXT
              ++ body ++ LF ++ LF ++ LF ++ ESC_POS.CUT_PAPER)
  /\ (exists p : Preview,
        snd (previewReceipt config logoAccessible receipt type) = Ok p
        /\ raw p = bytes
        /\ forall name : string,
             List.In name frameCodes -> List.In name (escPosCodes p)).
Proof.
  intros Hb.
  assert (Hframe : exists body : string,
             bytes = ESC_POS.INIT ++ ESC_POS.CHARSET_PC437
                     ++ ESC_POS.NORMAL_TEXT
                     ++ body ++ LF ++ LF ++ LF ++ ESC_POS.CUT_PAPER).
  { unfold formatReceipt in Hb.
    destruct (processLogo logoAccessible) as [logoLog [t|]];
      destruct (formatByType config receipt type) as [typeLog [b|m]];
      cbn [snd] in Hb; try discriminate Hb; inversion Hb; subst.
    - exists ((t ++ LF) ++ b)%string. cbn [String.append].
      now rewrite !string_app_assoc.
    - exists b. cbn [String.append]. now rewrite !string_app_assoc. }
  split; [exact Hframe|].
  unfold previewReceipt.
  destruct (formatReceipt config logoAccessible receipt type)
    as [log formatted].
  cbn [snd] in Hb. subst formatted.
  eexists. split; [reflexivity|]. split; [reflexivity|].
  cbn [escPosCodes]. destruct Hframe as [body ->].
  rewrite listEscPosCodes_table.
  intros name [<- | [<- | [<- | [<- | []]]]].
  - eapply listCode_in with (pat := ESC_POS.INIT); [now left|].
    exact (includes_app "" ESC_POS.INIT _).
  - eapply listCode_in with (pat := ESC_POS.NORMAL_TEXT);
      [right; now left|].
    rewrite <- (string_app_assoc ESC_POS.INIT ESC_POS.CHARSET_PC437).
    exact (includes_app _ ESC_POS.NORMAL_TEXT _).
  - eapply listCode_in with (pat := ESC_POS.CHARSET_PC437);
      [do 8 right; now left|].
    exact (includes_app ESC_POS.INIT ESC_POS.CHARSET_PC437 _).
  - eapply listCode_in with (pat := ESC_POS.CUT_PAPER);
      [do 13 right; now left|].
    assert (Heq : (ESC_POS.INIT ++ ESC_POS.CHARSET_PC437
                   ++ ESC_POS.NORMAL_TEXT ++ body ++ LF ++ LF ++ LF
                   ++ ESC_POS.CUT_PAPER
                   = (ESC_POS.INIT ++ ESC_POS.CHARSET_PC437
                      ++ ESC_POS.NORMAL_TEXT ++ body ++ LF ++ LF ++ LF)
                     ++ ESC_POS.CUT_PAPER ++ "")%string).
    { rewrite string_app_nil_r, !string_app_assoc. reflexivity. }
    rewrite Heq. exact (includes_app _ ESC_POS.CUT_PAPER "").
Qed.

End PreviewCodes.

(** ** Concrete receipts through the templates and the preview *)

(** The sample transfer has what its template prints and is
    rendered. *)
Lemma internal_receipt_renders_iff_witness :
  allMet (fields transfer) (printed "cash_transfer") = true
  /\ isOk (snd (formatReceipt config0 false transfer "cash_transfer"))
     = allMet (fields transfer) (printed "cash_transfer").
Proof.
  split; [vm_compute; reflexivity|].
  exact (proj1 (internal_receipt_renders_iff config0 false transfer
                  "cash_transfer" (or_introl eq_refl))).
Defined.

(** The sample sale is rendered under a tag that is not known; the
    sample transfer, which has no order number, is not. *)
Lemma sales_receipt_renders_iff_witness :
  isOk (snd (formatReceipt config0 false (sale "A") "invoice")) = true
  /\ salesRenders transfer = false
  /\ isOk (snd (formatReceipt config0 false transfer "invoice"))
     = salesRenders transfer.
Proof.
  split; [vm_compute; reflexivity|].
  split; [vm_compute; reflexivity|].
  exact (proj1 (sales_receipt_renders_iff config0 false transfer "invoice"
                  (or_intror eq_refl))).
Defined.

(** A line of plain text is previewed as it is. *)
Lemma text_without_codes_is_kept_witness :
  stripEscPosCodes "Pedido #: A-17" = "Pedido #: A-17".
Proof.
  apply (text_without_codes_is_kept "Pedido #: A-17");
    vm_compute; reflexivity.
Defined.

(** The bytes of the sample sale are framed, and its preview lists the
    four codes of the frame. *)
Lemma rendered_receipt_is_framed_witness :
  (exists body : string,
      saleBytes = ESC_POS.INIT ++ ESC_POS.CHARSET_PC437 ++ ESC_POS.NORMAL_TEXT
                  ++ body ++ LF ++ LF ++ LF ++ ESC_POS.CUT_PAPER)
  /\ (exists p : Preview,
        snd (previewReceipt config0 false (sale "A") "sales") = Ok p
        /\ raw p = saleBytes
        /\ forall name : string,
             List.In name frameCodes -> List.In name (escPosCodes p)).
Proof.
  apply (rendered_receipt_is_framed config0 false (sale "A") "sales" saleBytes).
  vm_compute; reflexivity.
Defined.

(** ** The validation module and the templates *)

Import Validators.

Section Validated.
Context {N : JsNum} {R : JsRuntime} {D : JsDate} {O : JsOrder}.
Variable config : Config.

(** The sales validator of the module is the validator of the server:
    lines 963-992 of receiptFormatter-dev.js and lines 415-444 of
    server.js are the same statements. *)
Lemma validateSalesReceipt_server (receipt : option Receipt) :
  validateSalesReceipt receipt = validateReceiptData receipt.
Proof. destruct receipt; reflexivity. Qed.

Lemma required_nil (r : obj) (key message : string) :
  required r key message = []%list -> truthy (get r key) = true.
Proof.
  unfold required. destruct (truthy (get r key)); [reflexivity|discriminate].
Qed.

Lemma truthy_not_nullish (v : prim) :
  truthy v = true -> negb (nullish v) = true.
Proof. destruct v; cbn; intros H; try discriminate H; reflexivity. Qed.

Lemma result_valid (errs : list string) :
  valid (result errs) = true -> errs = []%list.
Proof. destruct errs; [reflexivity | discriminate]. Qed.

(** From a list of errors that is empty to the presence of every
    property that was required. *)
Ltac requirements H :=
  apply result_valid in H;
  repeat (apply List.app_eq_nil in H;
          let H' := fresh "Hreq" in destruct H as [H' H]);
  repeat match goal with
         | Hr : required _ _ _ = []%list |- _ =>
             apply required_nil in Hr; apply truthy_not_nullish in Hr;
             try rewrite Hr; clear Hr
         end.

Lemma valid_transfer_met (receipt : Receipt) :
  valid (validateCashTransferReceipt (Some receipt)) = true ->
  flat receipt = true ->
  allMet (fields receipt) (printed "cash_transfer") = true.
Proof.
  unfold validateCashTransferReceipt, allMet.
  cbn [printed String.eqb Ascii.eqb Bool.eqb List.forallb fst snd].
  intros H Hflat.
  rewrite !scalar_meets by (apply flat_get; [exact Hflat | reflexivity]).
  requirements H. reflexivity.
Qed.

Lemma valid_closure_met (receipt : Receipt) :
  valid (validateShiftClosureReceipt (Some receipt)) = true ->
  flat receipt = true ->
  allMet (fields receipt) (printed "shift_closure") = true.
Proof.
  unfold validateShiftClosureReceipt, allMet.
  cbn [printed String.eqb Ascii.eqb Bool.eqb List.forallb fst snd].
  intros H Hflat.
  rewrite !scalar_meets by (apply flat_get; [exact Hflat | reflexivity]).
  requirements H. reflexivity.
Qed.

Lemma valid_handoff_met (receipt : Receipt) :
  valid (validateShiftHandoffReceipt (Some receipt)) = true ->
  flat receipt = true ->
  allMet (fields receipt) (printed "shift_handoff") = true.
Proof.
  unfold validateShiftHandoffReceipt, allMet.
  cbn [printed String.eqb Ascii.eqb Bool.eqb List.forallb fst snd].
  intros H Hflat.
  rewrite !scalar_meets by (apply flat_get; [exact Hflat | reflexivity]).
  requirements H. reflexivity.
Qed.

Lemma valid_expense_met (receipt : Receipt) :
  valid (validateCashExpenseReceipt (Some receipt)) = true ->
  flat receipt = true ->
  allMet (fields receipt) (printed "cash_expense") = true.
Proof.
  unfold validateCashExpenseReceipt, allMet.
  cbn [printed String.eqb Ascii.eqb Bool.eqb List.forallb fst snd].
  intros H Hflat.
  rewrite !scalar_meets by (apply flat_get; [exact Hflat | reflexivity]).
  requirements H. reflexivity.
Qed.

(** (X19) The validators protect the templates of lib/receiptFormatter.js
    on receipts of scalars: a receipt whose properties are strings,
    numbers, booleans or [null], its items objects of such, that
    [validateReceipt] finds valid under a tag is rendered by
    [formatReceipt] under the same tag without error, provided that,
    where the tag selects the sales template (the tag [sales] or one that
    is not known), the payment method is a string.  (A valid receipt
    that holds an object where the template prints a value need not be
    rendered: no validator looks at what a truthy property is.) *)
Theorem validated_receipt_is_rendered
  (logoAccessible : bool) (receipt : Receipt) (type : string)
  (v : Validation) :
  snd (validateReceipt (Some receipt) type) = Ok v ->
  valid v = true ->
  flat receipt = true ->
  (toLowerCase type = "sales" \/ isKnownType type = false ->
   isString (get (fields receipt) "paymentMethod") = true) ->
  isOk (snd (formatReceipt config logoAccessible receipt type)) = true.
Proof.
  intros Hv Hvalid Hflat Hpay. rewrite formatReceipt_isOk.
  assert (Hsale : validateSalesReceipt (Some receipt) = Ok v ->
                  isString (get (fields receipt) "paymentMethod") = true ->
                  isOk (formatSalesReceipt config receipt) = true).
  { intros Hs Hm. rewrite validateSalesReceipt_server in Hs.
    rewrite formatSalesReceipt_isOk,
      (valid_flat_renders receipt v Hs Hvalid Hflat).
    exact Hm. }
  destruct (isKnownType type) eqn:Hk.
  - unfold validateReceipt in Hv. unfold formatByType.
    unfold isKnownType, knownTypes in Hk. cbn [List.existsb] in Hk.
    destruct (String.eqb (toLowerCase type) "sales") eqn:E1.
    { apply Hsale; [exact Hv|]. apply Hpay. left. now apply String.eqb_eq. }
    destruct (String.eqb (toLowerCase type) "cash_transfer").
    { cbn [snd] in *. inversion Hv; subst.
      rewrite formatCashTransferReceipt_isOk.
      now apply valid_transfer_met. }
    destruct (String.eqb (toLowerCase type) "shift_closure").
    { cbn [snd] in *. inversion Hv; subst.
      rewrite formatShiftClosureReceipt_isOk.
      now apply valid_closure_met. }
    destruct (String.eqb (toLowerCase type) "shift_handoff").
    { cbn [snd] in *. inversion Hv; subst.
      rewrite formatShiftHandoffReceipt_isOk.
      now apply valid_handoff_met. }
    destruct (String.eqb (toLowerCase type) "cash_expense").
    { cbn [snd] in *. inversion Hv; subst.
      rewrite formatCashExpenseReceipt_isOk.
      now apply valid_expense_met. }
    discriminate Hk.
  - rewrite (formatByType_unknown config receipt type Hk). cbn [snd].
    apply Hsale; [|apply Hpay; now right].
    unfold validateReceipt in Hv.
    unfold isKnownType, knownTypes in Hk. cbn [List.existsb] in Hk.
    destruct (String.eqb (toLowerCase type) "sales"); [discriminate Hk|].
    destruct (String.eqb (toLowerCase type) "cash_transfer");
      [discriminate Hk|].
    destruct (String.eqb (toLowerCase type) "shift_closure");
      [discriminate Hk|].
    destruct (String.eqb (toLowerCase type) "shift_handoff");
      [discriminate Hk|].
    destruct (String.eqb (toLowerCase type) "cash_expense");
      [discriminate Hk|].
    exact Hv.
Qed.

(** (X20) [validateReceipt] chooses the validator by the tag in lower
    case.  A tag that is none of the five known ones is validated as a
    sale, by the very checks [POST /print] of the server applies, and a
    warning is written; a known tag writes none. *)
Theorem validateReceipt_falls_back (receipt : option Receipt)
  (type : string) :
  (isKnownType type = false ->
   validateReceipt receipt type =
     ([("Unknown receipt type: " ++ type ++
        ", falling back to sales validation")%string]%list,
      validateReceiptData receipt))
  /\ (isKnownType type = true ->
      fst (validateReceipt receipt type) = []%list).
Proof.
  unfold validateReceipt, isKnownType, knownTypes. cbn [List.existsb].
  destruct (String.eqb (toLowerCase type) "sales");
    [split; [discriminate | reflexivity]|].
  destruct (String.eqb (toLowerCase type) "cash_transfer");
    [split; [discriminate | reflexivity]|].
  destruct (String.eqb (toLowerCase type) "shift_closure");
    [split; [discriminate | reflexivity]|].
  destruct (String.eqb (toLowerCase type) "shift_handoff");
    [split; [discriminate | reflexivity]|].
  destruct (String.eqb (toLowerCase type) "cash_expense");
    [split; [discriminate | reflexivity]|].
  split; [intros _; now rewrite validateSalesReceipt_server | discriminate].
Qed.

End Validated.

(** A valid cash transfer is rendered under its tag in upper case. *)
Lemma validated_receipt_is_rendered_witness :
  isOk (snd (formatReceipt config0 false validTransfer "CASH_TRANSFER"))
  = true.
Proof.
  apply (validated_receipt_is_rendered config0 false validTransfer
           "CASH_TRANSFER" accepted).
  - vm_compute; reflexivity.
  - reflexivity.
  - vm_compute; reflexivity.
  - intros [H | H]; vm_compute in H; discriminate H.
Defined.

(** A cash transfer whose [transferId] is an object with a [toString]
    of its own passes its validator, which asks only that the property
    be truthy, and is not rendered. *)
Example validated_object_is_not_rendered :
  snd (validateReceipt (Some (transferWithId noToString)) "cash_transfer")
  = Ok accepted
  /\ flat (transferWithId noToString) = false
  /\ snd (formatReceipt config0 false (transferWithId noToString)
            "cash_transfer")
     = Throw "Failed to format receipt: value.toString is not a function".
Proof. repeat split; vm_compute; reflexivity. Qed.

(** ** The queue of the development server *)

Section DevQueue.
Context {N : JsNum} {R : JsRuntime} {O : JsOrder}.
Variable configured : option nat.
Variable formatReceipt : Receipt -> string -> Result string.
Variable toUpperCase : string -> string.
Variable literal : Z -> num.

(** What one request does to the queue. *)
Lemma dev_print_step (now iso : string) (req : DevServer.Request)
  (q : list DevServer.DevJob) :
  (snd (DevServer.print configured formatReceipt toUpperCase now iso req q)
   = q
   /\ DevServer.statusOf
        (fst (DevServer.print configured formatReceipt toUpperCase
                now iso req q)) <> 200)
  \/ (exists receipt : Receipt,
        DevServer.body_receipt req = Some receipt
        /\ List.length q < DevServer.maxQueueSize configured
        /\ snd (DevServer.print configured formatReceipt toUpperCase
                  now iso req q)
           = (q ++ [{| DevServer.dev_receipt := receipt;
                       DevServer.dev_printerName :=
                         DevServer.body_printerName req;
                       DevServer.dev_type :=
                         DevServer.typeOrDefault (DevServer.body_type req)
                    |}])%list).
Proof.
  unfold DevServer.print. cbv zeta.
  destruct (DevServer.body_receipt req) as [receipt|];
    [|left; split; [reflexivity | discriminate]].
  destruct (DevServer.validateReceiptData receipt
              (DevServer.typeOrDefault (DevServer.body_type req)))
    as [ok|m]; [|left; split; [reflexivity | discriminate]].
  destruct (Nat.leb_spec (DevServer.maxQueueSize configured) (List.length q));
    [left; split; [reflexivity | discriminate]|].
  right. exists receipt.
  split; [reflexivity|]. split; [assumption|].
  destruct (DevServer.processPrintJob formatReceipt toUpperCase now iso
              receipt (DevServer.typeOrDefault (DevServer.body_type req)));
    reflexivity.
Qed.

(** (X22) A request to [POST /print] of the development server never
    removes or reorders queued jobs: it leaves the queue as it is or adds
    its own job at the end, and it adds it whenever the receipt passes
    validation and the queue is below its capacity, whether the receipt
    is then printed or its rendering throws and the request is answered
    400. *)
Theorem dev_queue_only_grows (now iso : string) (req : DevServer.Request)
  (q : list DevServer.DevJob) :
  (exists extra : list DevServer.DevJob,
      snd (DevServer.print configured formatReceipt toUpperCase now iso req q)
      = (q ++ extra)%list
      /\ List.length extra <= 1)
  /\ (forall (receipt : Receipt) (ok : bool),
        DevServer.body_receipt req = Some receipt ->
        DevServer.validateReceiptData receipt
          (DevServer.typeOrDefault (DevServer.body_type req)) = Ok ok ->
        List.length q < DevServer.maxQueueSize configured ->
        snd (DevServer.print configured formatReceipt toUpperCase
               now iso req q)
        = (q ++ [{| DevServer.dev_receipt := receipt;
                    DevServer.dev_printerName :=
                      DevServer.body_printerName req;
                    DevServer.dev_type :=
                      DevServer.typeOrDefault (DevServer.body_type req)
                 |}])%list
        /\ (forall m : string,
              DevServer.processPrintJob formatReceipt toUpperCase now iso
                receipt (DevServer.typeOrDefault (DevServer.body_type req))
              = Throw m ->
              fst (DevServer.print configured formatReceipt toUpperCase
                     now iso req q)
              = DevServer.Refused 400 m iso)).
Proof.
  split.
  - destruct (dev_print_step now iso req q)
      as [(Hq & _) | (receipt & _ & _ & Hq)]; rewrite Hq.
    + exists []%list. rewrite List.app_nil_r. split; [reflexivity | cbn; lia].
    + eexists. split; [reflexivity | cbn; lia].
  - intros receipt ok Hr Hv Hlen. unfold DevServer.print. cbv zeta.
    rewrite Hr, Hv.
    destruct (Nat.leb_spec (DevServer.maxQueueSize configured)
                (List.length q)); [lia|].
    split.
    + destruct (DevServer.processPrintJob formatReceipt toUpperCase now iso
                  receipt (DevServer.typeOrDefault (DevServer.body_type req)));
        reflexivity.
    + intros m Hm. rewrite Hm. reflexivity.
Qed.

(** What one call does to the queue: a test route leaves it as it is,
    and so does a [POST /print] that is not answered 200. *)
Lemma dev_handle_step (c : DevServer.Call) (q : list DevServer.DevJob) :
  (snd (DevServer.handle configured formatReceipt toUpperCase literal c q) = q
   /\ (DevServer.isPostPrint c = true ->
       DevServer.statusOf
         (fst (DevServer.handle configured formatReceipt toUpperCase literal
                 c q)) <> 200))
  \/ (DevServer.isPostPrint c = true
      /\ List.length q < DevServer.maxQueueSize configured
      /\ exists job : DevServer.DevJob,
           snd (DevServer.handle configured formatReceipt toUpperCase literal
                  c q)
           = (q ++ [job])%list).
Proof.
  destruct c as [now iso req | route now date printTime iso];
    cbn [DevServer.handle DevServer.isPostPrint].
  - destruct (dev_print_step now iso req q)
      as [(Hq & Hne) | (receipt & _ & Hlt & Hq)].
    + left. split; [exact Hq | intros _; exact Hne].
    + right. split; [reflexivity|]. split; [exact Hlt|].
      eexists. exact Hq.
  - left. unfold DevServer.test.
    destruct (DevServer.processPrintJob _ _ _ _ _ _);
      (split; [reflexivity | discriminate]).
Qed.

(** The calls of [POST /print] answered 200 among those served. *)
Lemma dev_serve_bound (calls : list DevServer.Call) :
  forall q : list DevServer.DevJob,
    List.length q <= DevServer.maxQueueSize configured ->
    List.length
      (List.filter
         (fun ca => (DevServer.isPostPrint (fst ca)
                     && Nat.eqb (DevServer.statusOf (snd ca)) 200)%bool)
         (List.combine calls
            (fst (DevServer.serve configured formatReceipt toUpperCase
                    literal calls q))))
    + List.length q
    <= List.length
         (snd (DevServer.serve configured formatReceipt toUpperCase literal
                 calls q))
    /\ List.length
         (snd (DevServer.serve configured formatReceipt toUpperCase literal
                 calls q))
       <= DevServer.maxQueueSize configured.
Proof.
  induction calls as [|c calls IH]; intros q Hq; cbn [DevServer.serve].
  - cbn. lia.
  - pose proof (dev_handle_step c q) as Hstep.
    destruct (DevServer.handle configured formatReceipt toUpperCase literal
                c q) as [answer q1].
    cbn [fst snd] in Hstep.
    assert (Hq1 : List.length q1 <= DevServer.maxQueueSize configured
                  /\ List.length q <= List.length q1
                  /\ (DevServer.isPostPrint c = true ->
                      DevServer.statusOf answer = 200 ->
                      S (List.length q) <= List.length q1)).
    { destruct Hstep as [(-> & Hne) | (_ & Hlt & job & ->)].
      - split; [exact Hq|]. split; [lia|]. intros Hc H200.
        now elim (Hne Hc).
      - rewrite List.length_app. cbn. lia. }
    destruct Hq1 as (Hmax & Hle & Hprinted).
    specialize (IH q1 Hmax).
    destruct (DevServer.serve configured formatReceipt toUpperCase literal
                calls q1) as [answers q2].
    cbn [fst snd List.combine List.filter] in *.
    destruct (DevServer.isPostPrint c); cbn [andb].
    + destruct (Nat.eqb_spec (DevServer.statusOf answer) 200) as [H200 | _].
      * specialize (Hprinted eq_refl H200). cbn [List.length]. lia.
      * lia.
    + lia.
Qed.

(** (X23) The development server never takes a job out of its queue, so
    [POST /print] prints at most as many receipts as the queue holds:
    whatever the calls, of [POST /print] and of the five test routes in
    any order and however many, the number of calls of [POST /print]
    answered 200 is at most the length of the queue they leave, which is
    at most the capacity (10 unless configured).  The calls of the test
    routes are not counted: they print without the queue. *)
Theorem dev_server_prints_at_most_capacity (calls : list DevServer.Call) :
  List.length
    (List.filter
       (fun ca => (DevServer.isPostPrint (fst ca)
                   && Nat.eqb (DevServer.statusOf (snd ca)) 200)%bool)
       (List.combine calls
          (fst (DevServer.serve configured formatReceipt toUpperCase
                  literal calls []%list))))
  <= List.length
       (snd (DevServer.serve configured formatReceipt toUpperCase literal
               calls []%list))
  /\ List.length
       (snd (DevServer.serve configured formatReceipt toUpperCase literal
               calls []%list))
     <= DevServer.maxQueueSize configured.
Proof.
  destruct (dev_serve_bound calls []%list) as (H1 & H2); [cbn; lia|].
  cbn [List.length] in H1. split; [lia | exact H2].
Qed.

(** (X24) Once the queue of the development server is at its capacity,
    it stays as it is whatever is called, and no request to
    [POST /print] is printed any more: every such request is answered
    400 or 503, and one whose receipt passes validation is answered 503.
    The five test routes do not look at the queue and go on printing:
    each is answered with the printed result whenever the rendering of
    its receipt returns, and 500 with the error when it throws. *)
Theorem dev_queue_full_for_good (c : DevServer.Call)
  (q : list DevServer.DevJob) :
  DevServer.maxQueueSize configured <= List.length q ->
  snd (DevServer.handle configured formatReceipt toUpperCase literal c q) = q
  /\ (forall (now iso : string) (req : DevServer.Request),
        c = DevServer.PostPrint now iso req ->
        (exists (status : nat) (m : string),
            fst (DevServer.handle configured formatReceipt toUpperCase
                   literal c q)
            = DevServer.Refused status m iso
            /\ (status = 400 \/ status = 503))
        /\ (forall (receipt : Receipt) (ok : bool),
              DevServer.body_receipt req = Some receipt ->
              DevServer.validateReceiptData receipt
                (DevServer.typeOrDefault (DevServer.body_type req)) = Ok ok ->
              fst (DevServer.handle configured formatReceipt toUpperCase
                     literal c q)
              = DevServer.Refused 503 "Print queue is full" iso))
  /\ (forall (route : DevServer.TestRoute) (now date printTime iso : string),
        c = DevServer.PostTest route now date printTime iso ->
        fst (DevServer.handle configured formatReceipt toUpperCase literal
               c q)
        = match formatReceipt
                  (DevServer.testReceipt literal route date printTime)
                  (DevServer.testType route) with
          | Ok _ =>
              DevServer.Printed "Receipt printed successfully (DEV MODE)"
                "DEV-PRINTER"
                (toUpperCase (DevServer.testType route) ++ "-" ++ now) iso
          | Throw m => DevServer.Refused 500 m iso
          end).
Proof.
  intros Hfull. split; [|split].
  - destruct (dev_handle_step c q) as [(Hq & _) | (_ & Hlt & _)];
      [exact Hq | lia].
  - intros now iso req ->. cbn [DevServer.handle].
    unfold DevServer.print. cbv zeta.
    destruct (DevServer.body_receipt req) as [receipt|].
    2:{ split; [|discriminate].
        eexists; eexists. split; [reflexivity | now left]. }
    destruct (DevServer.validateReceiptData receipt
                (DevServer.typeOrDefault (DevServer.body_type req)))
      as [ok|m] eqn:Hv.
    2:{ split.
        - eexists; eexists. split; [reflexivity | now left].
        - intros receipt' ok' Hr Hv'. inversion Hr; subst. congruence. }
    destruct (Nat.leb_spec (DevServer.maxQueueSize configured)
                (List.length q)); [|lia].
    split.
    + eexists; eexists. split; [reflexivity | now right].
    + intros. reflexivity.
  - intros route now date printTime iso ->. cbn [DevServer.handle].
    unfold DevServer.test, DevServer.processPrintJob.
    cbn [DevServer.typeOrDefault DevServer.asString Js.bind].
    destruct (formatReceipt _ _); reflexivity.
Qed.

End DevQueue.

(** ** The printer manager *)

Import Lp.

Section Manager.
Context {N : JsNum} {R : JsRuntime} {D : JsDate}.
Variable config : Config.

Lemma span_app (f : ascii -> bool) (taken rest : string) :
  allChars f taken = true ->
  startsWith f rest = false ->
  PrinterManager.span f (taken ++ rest) = (taken, rest).
Proof.
  induction taken as [|c taken IH]; cbn [allChars String.append].
  - intros _ Hrest. destruct rest as [|c rest]; [reflexivity|].
    cbn in *. now rewrite Hrest.
  - intros Hall Hrest. apply andb_prop in Hall. destruct Hall as [Hc Hall].
    cbn [PrinterManager.span]. rewrite Hc, (IH Hall Hrest). reflexivity.
Qed.

(** (X25) The job id is read back from what [lp] prints: for a printer
    whose name is not empty and has no dash, and an output that begins
    with [request id is], the name, a dash and the digits of the job,
    [print] extracts exactly those digits, whatever follows them. *)
Theorem jobId_round_trip (printerName digits rest : string) :
  printerName <> "" ->
  allChars (fun c => negb (PrinterManager.isDash c)) printerName = true ->
  digits <> "" ->
  allChars PrinterManager.isDigit digits = true ->
  startsWith PrinterManager.isDigit rest = false ->
  PrinterManager.jobIdMatch
    ("request id is " ++ printerName ++ "-" ++ digits ++ rest)
  = Some digits.
Proof.
  intros Hname Hnodash Hdigits Hall Hrest.
  change ("request id is " ++ printerName ++ "-" ++ digits ++ rest)
    with (String "r" ("equest id is "
                      ++ printerName ++ "-" ++ digits ++ rest)).
  cbn [PrinterManager.jobIdMatch].
  change (String "r" ("equest id is "
                      ++ printerName ++ "-" ++ digits ++ rest))
    with ("request id is " ++ (printerName ++ "-" ++ digits ++ rest)).
  rewrite prefix_app.
  change (PrinterManager.drop 14
            ("request id is " ++ (printerName ++ "-" ++ digits ++ rest)))
    with (printerName ++ "-" ++ digits ++ rest).
  unfold PrinterManager.idAfter.
  rewrite (span_app _ printerName ("-" ++ digits ++ rest) Hnodash eq_refl).
  destruct printerName as [|c name]; [now elim Hname|].
  cbn [String.append].
  rewrite (span_app _ digits rest Hall Hrest).
  destruct digits; [now elim Hdigits | reflexivity].
Qed.

(** Among printers of distinct names, the first of a name is the only
    one. *)
Lemma find_by_name (l : list PrinterInfo) (target : PrinterInfo) :
  List.NoDup (List.map name l) ->
  List.In target l ->
  List.find (fun p => String.eqb (name p) (name target)) l = Some target.
Proof.
  induction l as [|p l IH]; cbn [List.map List.find]; [intros _ []|].
  intros Hnd [-> | Hin].
  - now rewrite String.eqb_refl.
  - inversion Hnd as [|x xs Hnotin Hnd']; subst.
    destruct (String.eqb_spec (name p) (name target)) as [Heq | _].
    + elim Hnotin. rewrite Heq. now apply List.in_map.
    + now apply IH.
Qed.

Lemma targetPrinter_in (printers : list PrinterInfo)
  (printerName : option string) (target : PrinterInfo) :
  targetPrinter printers printerName = Some target -> List.In target printers.
Proof.
  assert (Hdef : defaultPrinter printers = Some target ->
                 List.In target printers).
  { unfold defaultPrinter.
    destruct (List.find isDefault printers) as [q|] eqn:Hf.
    - intros H; inversion H; subst. now apply find_in in Hf.
    - destruct printers as [|q rest]; cbn; [discriminate|].
      intros H; inversion H; subst. now left. }
  unfold targetPrinter. destruct printerName as [n|]; [|exact Hdef].
  destruct (String.eqb n ""); [exact Hdef|].
  intros H. now apply find_in in H.
Qed.

(** (X26) After the checks of [processPrintJob], those of [print] never
    fire: when CUPS is available, the printers have distinct names and
    the list [print] reads is the one [processPrintJob] resolved its
    online target in, the outcome of [printerManager.print] for that
    target is that of writing the temporary file and of [lp] alone. *)
Theorem print_outcome_is_the_spoolers
  (pm : PrinterManager.Manager) (os : PrinterManager.Os)
  (printerName : option string) (target : PrinterInfo) (bytes : string) :
  PrinterManager.cupsAvailable pm = true ->
  List.NoDup (List.map name (PrinterManager.printers pm)) ->
  targetPrinter (PrinterManager.printers pm) printerName = Some target ->
  isOnline (status target) = true ->
  name target <> "" ->
  PrinterManager.print pm os bytes (Some (name target))
  = (_ <- PrinterManager.os_writeFile os bytes ;;
     PrinterManager.submit os (name target) bytes)%js.
Proof.
  intros Hcups Hnd Ht Hon Hname. unfold PrinterManager.print.
  rewrite Hcups. cbv beta iota zeta.
  assert (Hne : String.eqb (name target) "" = false)
    by now apply String.eqb_neq.
  rewrite !Hne.
  rewrite (find_by_name _ target Hnd (targetPrinter_in _ _ _ Ht)), Hon.
  reflexivity.
Qed.

(** (X27) [print] reports a submission only for a printer it knows to be
    online: whenever it returns, CUPS is available, the first printer of
    the list with the name it returns is online, the temporary file was
    written, and [lp] ended without error, with nothing on its error
    output or a line with a request id. *)
Theorem print_succeeds_only_online
  (pm : PrinterManager.Manager) (os : PrinterManager.Os)
  (bytes : string) (printerName : option string)
  (r : PrinterManager.Submitted) :
  PrinterManager.print pm os bytes printerName = Ok r ->
  PrinterManager.cupsAvailable pm = true
  /\ PrinterManager.success r = true
  /\ (exists p : PrinterInfo,
        List.find (fun q => String.eqb (name q) (PrinterManager.printer r))
          (PrinterManager.printers pm) = Some p
        /\ status p = online)
  /\ PrinterManager.os_writeFile os bytes = Ok tt
  /\ exists stdout stderr : string,
       PrinterManager.os_lp os (PrinterManager.printer r) bytes
       = PrinterManager.Resolved stdout stderr
       /\ (stderr = "" \/ includes stderr "request id" = true).
Proof.
  unfold PrinterManager.print.
  destruct (PrinterManager.cupsAvailable pm); cbn [negb]; [|discriminate].
  set (targetPrinter :=
         match printerName with
         | Some n =>
             if String.eqb n "" then PrinterManager.defaultPrinter pm
             else Some n
         | None => PrinterManager.defaultPrinter pm
         end).
  destruct targetPrinter as [target|]; [|discriminate].
  destruct (String.eqb target ""); [discriminate|].
  destruct (List.find (fun p => String.eqb (name p) target)
              (PrinterManager.printers pm)) as [p|] eqn:Hfind;
    [|discriminate].
  destruct (status p) eqn:Hst; cbn [isOnline negb]; try discriminate.
  destruct (PrinterManager.os_writeFile os bytes) as [[]|m] eqn:Hw;
    cbn [Js.bind]; [|discriminate].
  unfold PrinterManager.submit.
  destruct (PrinterManager.os_lp os target bytes) as [stdout stderr|m] eqn:Hlp;
    [|discriminate].
  destruct (String.eqb_spec stderr "") as [Hempty | Hne]; cbn [negb andb].
  - intros H; inversion H; subst; clear H. cbn.
    split; [reflexivity|]. split; [reflexivity|].
    split; [exists p; now split|]. split; [reflexivity|].
    exists stdout, "". split; [exact Hlp | now left].
  - destruct (includes stderr "request id") eqn:Hinc; cbn [negb];
      [|discriminate].
    intros H; inversion H; subst; clear H. cbn.
    split; [reflexivity|]. split; [reflexivity|].
    split; [exists p; now split|]. split; [reflexivity|].
    exists stdout, stderr. split; [exact Hlp | now right].
Qed.

(** (X28) A printer whose status line mentions none of [idle], [ready],
    [busy] and [printing], in any case, is never sent a job: a request
    that resolves to it is queued while there is room, and refused with
    the queue-full error otherwise; no drain pass is started and the time
    of the last print is not touched. *)
Theorem status_without_idle_or_busy_is_never_printed
  (e : Env) (receipt : Receipt) (printerName : option string) (s : Service)
  (printers : list PrinterInfo) (target : PrinterInfo) (text : string) :
  env_printers e = Ok printers ->
  targetPrinter printers printerName = Some target ->
  status target = PrinterManager.parsePrinterStatus text ->
  (forall word : string,
      List.In word ["idle"; "ready"; "busy"; "printing"]%list ->
      includes (toLowerCase text) word = false) ->
  processPrintJob config e receipt printerName s =
    if Nat.ltb (List.length (printQueue s)) (maxQueueSize s)
    then (Ok (queuedResult target (S (List.length (printQueue s)))),
          set_printQueue (printQueue s ++ [newJob e receipt printerName])%list
            s,
          None)
    else (Throw "Printer offline and queue is full", s, None).
Proof.
  intros Hp Ht Hst Hwords.
  assert (Hoff : isOnline (status target) = false).
  { rewrite Hst. unfold PrinterManager.parsePrinterStatus.
    rewrite (Hwords "idle"), (Hwords "ready"), (Hwords "busy"),
      (Hwords "printing") by (cbn; tauto).
    cbn [orb]. destruct (_ || _)%bool; reflexivity. }
  unfold processPrintJob.
  destruct (Nat.ltb_spec (List.length (printQueue s)) (maxQueueSize s)).
  - now rewrite (afterPrinters_queued e receipt printerName s printers target).
  - now rewrite (afterPrinters_full e receipt printerName s printers target).
Qed.

End Manager.

(** ** Concrete runs of the development server and the manager *)

(** With a capacity of one and one job queued, a valid request is
    answered 503 and the queue stays as it is, while the test route of
    the transfers is answered with the printed result. *)
Lemma dev_queue_full_for_good_witness :
  snd (DevServer.handle (N := Num_Z) (Some 1) (fun _ _ => Ok "") (fun t => t)
         (fun z => z)
         (DevServer.PostPrint "1723205100000" "2024-08-09T12:05:00.000Z"
            devRequest)
         [devJob]%list)
  = [devJob]%list
  /\ fst (DevServer.handle (N := Num_Z) (Some 1) (fun _ _ => Ok "") (fun t => t)
            (fun z => z)
            (DevServer.PostPrint "1723205100000" "2024-08-09T12:05:00.000Z"
               devRequest)
            [devJob]%list)
     = DevServer.Refused 503 "Print queue is full" "2024-08-09T12:05:00.000Z"
  /\ fst (DevServer.handle (N := Num_Z) (Some 1) (fun _ _ => Ok "") (fun t => t)
            (fun z => z)
            (DevServer.PostTest DevServer.TestTransfer "1723205100000"
               "2024-08-09T12:05:00.000Z" "2024-08-09T12:05:00.001Z"
               "2024-08-09T12:05:00.002Z")
            [devJob]%list)
     = DevServer.Printed "Receipt printed successfully (DEV MODE)"
         "DEV-PRINTER" "cash_transfer-1723205100000"
         "2024-08-09T12:05:00.002Z".
Proof.
  destruct (dev_queue_full_for_good (N := Num_Z) (Some 1) (fun _ _ => Ok "") (fun t => t)
              (fun z => z)
              (DevServer.PostPrint "1723205100000" "2024-08-09T12:05:00.000Z"
                 devRequest)
              [devJob]%list) as (Hq & Hprint & _); [cbn; lia|].
  split; [exact Hq|]. split.
  - destruct (Hprint _ _ _ eq_refl) as (_ & Hfull).
    apply (Hfull validTransfer true); vm_compute; reflexivity.
  - destruct (dev_queue_full_for_good (N := Num_Z) (Some 1) (fun _ _ => Ok "")
                (fun t => t) (fun z => z)
                (DevServer.PostTest DevServer.TestTransfer "1723205100000"
                   "2024-08-09T12:05:00.000Z" "2024-08-09T12:05:00.001Z"
                   "2024-08-09T12:05:00.002Z")
                [devJob]%list) as (_ & _ & Htest); [cbn; lia|].
    exact (Htest _ _ _ _ _ eq_refl).
Defined.

(** The output of [lp] for job 12 of the printer gives the id 12. *)
Lemma jobId_round_trip_witness :
  PrinterManager.jobIdMatch
    ("request id is " ++ "Rongta" ++ "-" ++ "12" ++ " (1 file(s))")
  = Some "12".
Proof.
  apply (jobId_round_trip "Rongta" "12" " (1 file(s))");
    try reflexivity; discriminate.
Defined.

(** For the one printer, online, [print] is the writing of the file and
    [lp]. *)
Lemma print_outcome_is_the_spoolers_witness :
  PrinterManager.print manager accepting saleBytes
    (Some (name (rongta online)))
  = (_ <- PrinterManager.os_writeFile accepting saleBytes ;;
     PrinterManager.submit accepting (name (rongta online)) saleBytes)%js.
Proof.
  apply (print_outcome_is_the_spoolers manager accepting None
           (rongta online) saleBytes).
  - reflexivity.
  - cbn. constructor; [intros [] | constructor].
  - reflexivity.
  - reflexivity.
  - discriminate.
Defined.

(** The submission of the sample sale to the one printer. *)
Lemma print_succeeds_only_online_witness :
  PrinterManager.cupsAvailable manager = true
  /\ PrinterManager.success
       {| PrinterManager.success := true;
          PrinterManager.printer := "Rongta";
          PrinterManager.jobId := "12" |} = true
  /\ (exists p : PrinterInfo,
        List.find (fun q => String.eqb (name q) "Rongta")
          (PrinterManager.printers manager) = Some p
        /\ status p = online)
  /\ PrinterManager.os_writeFile accepting saleBytes = Ok tt
  /\ exists stdout stderr : string,
       PrinterManager.os_lp accepting "Rongta" saleBytes
       = PrinterManager.Resolved stdout stderr
       /\ (stderr = "" \/ includes stderr "request id" = true).
Proof.
  apply (print_succeeds_only_online manager accepting saleBytes None
           {| PrinterManager.success := true;
              PrinterManager.printer := "Rongta";
              PrinterManager.jobId := "12" |}).
  vm_compute; reflexivity.
Defined.

(** A printer that [lpstat] reports as holding new jobs is queued for. *)
Lemma status_without_idle_or_busy_is_never_printed_witness :
  processPrintJob config0
    {| env_printers := Ok [rongtaSaid "is holding new jobs"]%list;
       env_logo := false;
       env_print := fun _ _ => Ok tt;
       env_now := 5%Z;
       env_iso := "2024-08-09T12:05:00.000Z" |}
    (sale "A") None (constructor 0)
  = (Ok (queuedResult (rongtaSaid "is holding new jobs") 1),
     set_printQueue
       [newJob (env offline 5) (sale "A") None]%list (constructor 0),
     None).
Proof.
  rewrite (status_without_idle_or_busy_is_never_printed config0 _
             (sale "A") None (constructor 0)
             [rongtaSaid "is holding new jobs"]%list
             (rongtaSaid "is holding new jobs") "is holding new jobs").
  - reflexivity.
  - reflexivity.
  - reflexivity.
  - reflexivity.
  - intros word [<- | [<- | [<- | [<- | []]]]]; vm_compute; reflexivity.
Defined.

(** ** A request without a receipt *)

Section Absent.
Context {N : JsNum} {R : JsRuntime} {D : JsDate} {O : JsOrder}.
Variable config : Config.

(** (X21) A request without a receipt is refused as invalid everywhere,
    with status 400 and without touching any state: by [validateReceipt]
    under every tag, known or not, with the one error that the receipt
    data is required; by [POST /print] and [POST /preview] of the server;
    and by [POST /print] of the development server, whatever its queue. *)
Theorem absent_receipt_is_rejected
  (type : string) (e : Env) (logoAccessible : bool) (now iso : string)
  (s : Service) (configured : option nat)
  (render : Receipt -> string -> Result string) (upper : string -> string)
  (req : DevServer.Request) (q : list DevServer.DevJob) :
  snd (validateReceipt None type)
  = Ok {| valid := false; errors := ["Receipt data is required"] |}
  /\ printRoute config e iso None s =
       ({| statusCode := 400;
           body := ErrorBody
                     "Invalid receipt data: Receipt data is required" iso |},
        s, None)
  /\ previewRoute config logoAccessible iso None s =
       ({| statusCode := 400;
           body := ErrorBody
                     "Invalid receipt data: Receipt data is required" iso |},
        s)
  /\ (DevServer.body_receipt req = None ->
      DevServer.print configured render upper now iso req q
      = (DevServer.Refused 400 "Receipt data is required" iso, q)).
Proof.
  split; [|split; [reflexivity | split; [reflexivity|]]].
  - unfold validateReceipt.
    repeat match goal with
           | |- context [if ?b then _ else _] => destruct b
           end; reflexivity.
  - intros Hr. unfold DevServer.print. cbv zeta. rewrite Hr. reflexivity.
Qed.

End Absent.
